(** * Alerting command-line clients: [alert.py] and [alerting_config.py]

    A shallow embedding of the two scripts under [scripts/].  Both are
    sequential programs that talk to the outside world: they issue HTTP
    calls through the [requests] library, read the OS random source and the
    UTC clock, print to the standard streams and stop the process with
    [sys.exit].  The embedding threads an explicit [World] through a small
    state-and-exception monad; every HTTP call the program makes is logged
    in the world in the order it is made, together with the keyword
    arguments it was given. *)

From Stdlib Require Import ZArith NArith List String Ascii Bool Lia.
From Stdlib Require Import Strings.Byte.
From Stdlib Require Import Floats.SpecFloat.
Import ListNotations.

Local Open Scope list_scope.
Local Open Scope string_scope.
Local Open Scope Z_scope.

(* ================================================================== *)
(** * Python strings *)
(* ================================================================== *)

(** [s.rstrip(c)] for a one-character set [c]. *)
Fixpoint rstrip (c : ascii) (s : string) : string :=
  match s with
  | EmptyString => EmptyString
  | String a t =>
      match rstrip c t with
      | EmptyString => if Ascii.eqb a c then EmptyString else String a EmptyString
      | t' => String a t'
      end
  end.

(** [sub in s]. *)
Fixpoint str_in (sub s : string) : bool :=
  if String.prefix sub s then true
  else match s with
       | EmptyString => false
       | String _ t => str_in sub t
       end.

(** [s.split(sep, 1)] for a one-character separator: one element when
    [sep] does not occur, two otherwise (cut at the first occurrence). *)
Fixpoint split1 (sep : ascii) (s : string) : list string :=
  match s with
  | EmptyString => [EmptyString]
  | String a t =>
      if Ascii.eqb a sep then [EmptyString; t]
      else match split1 sep t with
           | [] => []
           | k :: rest => String a k :: rest
           end
  end.

Definition ascii_lower (a : ascii) : ascii :=
  let n := N_of_ascii a in
  if (65 <=? n)%N && (n <=? 90)%N then ascii_of_N (n + 32) else a.

(** [s.lower()] on ASCII letters. *)
Fixpoint str_lower (s : string) : string :=
  match s with
  | EmptyString => EmptyString
  | String a t => String (ascii_lower a) (str_lower t)
  end.

(** [s.encode()] and [b.decode()]: a [str] is modelled by its UTF-8 bytes. *)
Definition encode (s : string) : list byte := list_byte_of_string s.
Definition decode (b : list byte) : string := string_of_list_byte b.

(** [b.rstrip(c)] on a bytes object, for a one-byte set. *)
Fixpoint bytes_rstrip (c : byte) (b : list byte) : list byte :=
  match b with
  | [] => []
  | x :: t =>
      match bytes_rstrip c t with
      | [] => if Byte.eqb x c then [] else [x]
      | t' => x :: t'
      end
  end.

(* ================================================================== *)
(** * Python values: what [json.loads] returns and what [json=] accepts *)
(* ================================================================== *)

(** An insertion-ordered [dict] with [str] keys. *)
Definition dict (A : Type) : Type := list (string * A).

Fixpoint dict_get {A} (d : dict A) (k : string) : option A :=
  match d with
  | [] => None
  | (k', v) :: t => if String.eqb k' k then Some v else dict_get t k
  end.

(** [d[k] = v]: an existing key keeps its place, a new key goes last. *)
Fixpoint dict_set {A} (d : dict A) (k : string) (v : A) : dict A :=
  match d with
  | [] => [(k, v)]
  | (k', v') :: t =>
      if String.eqb k' k then (k', v) :: t else (k', v') :: dict_set t k v
  end.

(** [d.update(e)]. *)
Definition dict_update {A} (d e : dict A) : dict A :=
  fold_left (fun acc kv => dict_set acc (fst kv) (snd kv)) e d.

Definition dict_keys {A} (d : dict A) : list string := map fst d.

Definition dict_map {A B} (f : A -> B) (d : dict A) : dict B :=
  map (fun kv => (fst kv, f (snd kv))) d.

#[local] Set Warnings "-register-all".

Inductive value : Type :=
| VNone
| VBool (b : bool)
| VInt (n : Z)
| VFloat (f : spec_float)
| VStr (s : string)
| VList (xs : list value)
| VDict (kvs : list (string * value)).

(** Truth value of an object, as [if not x] tests it. *)
Definition truthy (v : value) : bool :=
  match v with
  | VNone => false
  | VBool b => b
  | VInt n => negb (n =? 0)
  | VFloat (S754_zero _) => false
  | VFloat _ => true
  | VStr s => negb (String.eqb s EmptyString)
  | VList xs => match xs with [] => false | _ => true end
  | VDict kvs => match kvs with [] => false | _ => true end
  end.

Definition str_dict (d : dict string) : value := VDict (dict_map VStr d).

(* ================================================================== *)
(** * Exceptions *)
(* ================================================================== *)

Inductive exn : Type :=
| SystemExit (code : Z)
| JSONDecodeError
| AttributeError
| KeyError
| IndexError
| ValueError
| OverflowError
| RequestException (what : string).

Inductive result (A : Type) : Type :=
| Ok (a : A)
| Raise (e : exn).
Arguments Ok {A} a.
Arguments Raise {A} e.

(** [v.get(key, default)]: only a [dict] has the method. *)
Definition value_get (v : value) (key : string) (default : value) : result value :=
  match v with
  | VDict d => Ok (match dict_get d key with Some x => x | None => default end)
  | _ => Raise AttributeError
  end.

(* ================================================================== *)
(** * [base64] *)
(* ================================================================== *)

Definition b64_table : list byte :=
  encode "ABCDEFGHIJKLMNOPQRSTUVWXYZabcdefghijklmnopqrstuvwxyz0123456789+/".

Definition b64_pad : byte := "="%byte.

(** The table entry of a 6-bit group. *)
Definition b64_digit (table : list byte) (i : N) : byte :=
  nth (N.to_nat (N.land i 63)) table b64_pad.

(** [base64.b64encode]: three bytes give four digits; a tail of one or two
    bytes gives two or three digits and is padded with ['=']. *)
Fixpoint b64encode (b : list byte) : list byte :=
  match b with
  | [] => []
  | [x] =>
      let n := Byte.to_N x in
      [b64_digit b64_table (N.shiftr n 2);
       b64_digit b64_table (N.shiftl (N.land n 3) 4);
       b64_pad; b64_pad]
  | [x; y] =>
      let n := N.lor (N.shiftl (Byte.to_N x) 8) (Byte.to_N y) in
      [b64_digit b64_table (N.shiftr n 10);
       b64_digit b64_table (N.shiftr n 4);
       b64_digit b64_table (N.shiftl (N.land n 15) 2);
       b64_pad]
  | x :: y :: z :: t =>
      let n := N.lor (N.shiftl (Byte.to_N x) 16)
                     (N.lor (N.shiftl (Byte.to_N y) 8) (Byte.to_N z)) in
      b64_digit b64_table (N.shiftr n 18)
        :: b64_digit b64_table (N.shiftr n 12)
        :: b64_digit b64_table (N.shiftr n 6)
        :: b64_digit b64_table n
        :: b64encode t
  end.

(** [bytes.maketrans(b'+/', b'-_')]. *)
Definition urlsafe_translate (c : byte) : byte :=
  if Byte.eqb c "+"%byte then "-"%byte
  else if Byte.eqb c "/"%byte then "_"%byte
  else c.

(** [base64.urlsafe_b64encode]. *)
Definition urlsafe_b64encode (b : list byte) : list byte :=
  map urlsafe_translate (b64encode b).

(* ================================================================== *)
(** * [datetime] *)
(* ================================================================== *)

Record datetime : Type := mk_datetime {
  year : Z; month : Z; day : Z;
  hour : Z; minute : Z; second : Z; microsecond : Z }.

(** A [timedelta], normalised: [0 <= seconds < 86400] and
    [0 <= microseconds < 1000000]. *)
Record timedelta : Type := mk_timedelta {
  td_days : Z; td_seconds : Z; td_microseconds : Z }.

Definition timedelta_norm (d s us : Z) : timedelta :=
  let s := s + us / 1000000 in
  {| td_days := d + s / 86400;
     td_seconds := s mod 86400;
     td_microseconds := us mod 1000000 |}.

(** [timedelta(hours=h)]. *)
Definition timedelta_hours (h : Z) : timedelta := timedelta_norm 0 (h * 3600) 0.

(** [timedelta(minutes=n)]; a magnitude of more than 999999999 days
    raises [OverflowError]. *)
Definition timedelta_minutes (n : Z) : result timedelta :=
  let d := timedelta_norm 0 (n * 60) 0 in
  if 999999999 <? Z.abs (td_days d) then Raise OverflowError else Ok d.

Definition timedelta_neg (t : timedelta) : timedelta :=
  timedelta_norm (- td_days t) (- td_seconds t) (- td_microseconds t).

Definition timedelta_add (a b : timedelta) : timedelta :=
  timedelta_norm (td_days a + td_days b) (td_seconds a + td_seconds b)
                 (td_microseconds a + td_microseconds b).

Definition is_leap (y : Z) : bool :=
  (y mod 4 =? 0) && (negb (y mod 100 =? 0) || (y mod 400 =? 0)).

Definition days_before_year (y : Z) : Z :=
  let y := y - 1 in y * 365 + y / 4 - y / 100 + y / 400.

Definition DAYS_IN_MONTH : list Z :=
  [-1; 31; 28; 31; 30; 31; 30; 31; 31; 30; 31; 30; 31].

Definition DAYS_BEFORE_MONTH : list Z :=
  [-1; 0; 31; 59; 90; 120; 151; 181; 212; 243; 273; 304; 334].

Definition days_in_month (y m : Z) : Z :=
  if (m =? 2) && is_leap y then 29 else nth (Z.to_nat m) DAYS_IN_MONTH 0.

Definition days_before_month (y m : Z) : Z :=
  nth (Z.to_nat m) DAYS_BEFORE_MONTH 0 + (if (2 <? m) && is_leap y then 1 else 0).

(** Proleptic Gregorian ordinal of a date: 0001-01-01 is day 1. *)
Definition ymd2ord (y m d : Z) : Z :=
  days_before_year y + days_before_month y m + d.

Definition DI400Y : Z := 146097.
Definition DI100Y : Z := 36524.
Definition DI4Y : Z := 1461.
Definition MAXORDINAL : Z := 3652059.

(** The date of an ordinal. *)
Definition ord2ymd (n : Z) : Z * Z * Z :=
  let n := n - 1 in
  let n400 := n / DI400Y in
  let n := n mod DI400Y in
  let y := n400 * 400 + 1 in
  let n100 := n / DI100Y in
  let n := n mod DI100Y in
  let n4 := n / DI4Y in
  let n := n mod DI4Y in
  let n1 := n / 365 in
  let n := n mod 365 in
  let y := y + n100 * 100 + n4 * 4 + n1 in
  if (n1 =? 4) || (n100 =? 4) then (y - 1, 12, 31)
  else
    let leapyear := (n1 =? 3) && (negb (n4 =? 24) || (n100 =? 3)) in
    let m := Z.shiftr (n + 50) 5 in
    let preceding :=
      nth (Z.to_nat m) DAYS_BEFORE_MONTH 0
      + (if (2 <? m) && leapyear then 1 else 0) in
    if n <? preceding then
      let m := m - 1 in
      let preceding :=
        preceding - (nth (Z.to_nat m) DAYS_IN_MONTH 0
                     + (if (m =? 2) && leapyear then 1 else 0)) in
      (y, m, n - preceding + 1)
    else (y, m, n - preceding + 1).

Definition toordinal (t : datetime) : Z := ymd2ord (year t) (month t) (day t).

(** [t + d]; out of the range of years 1..9999 it raises [OverflowError]. *)
Definition datetime_add (t : datetime) (d : timedelta) : result datetime :=
  let delta :=
    timedelta_add
      (timedelta_norm (toordinal t)
         (hour t * 3600 + minute t * 60 + second t) (microsecond t)) d in
  let h := td_seconds delta / 3600 in
  let rem := td_seconds delta mod 3600 in
  if (0 <? td_days delta) && (td_days delta <=? MAXORDINAL) then
    let '(y, m, dd) := ord2ymd (td_days delta) in
    Ok {| year := y; month := m; day := dd;
          hour := h; minute := rem / 60; second := rem mod 60;
          microsecond := td_microseconds delta |}
  else Raise OverflowError.

(** [t - d]. *)
Definition datetime_sub (t : datetime) (d : timedelta) : result datetime :=
  datetime_add t (timedelta_neg d).

Definition digit (n : Z) : ascii := ascii_of_N (48 + Z.to_N (n mod 10)).

(** A number zero-padded to two and to four decimal digits. *)
Definition pad2 (n : Z) : string :=
  String (digit (n / 10)) (String (digit n) EmptyString).
Definition pad4 (n : Z) : string :=
  String (digit (n / 1000)) (String (digit (n / 100)) (pad2 n)).

(** The year as the C library (glibc) prints it for [%Y]: in decimal,
    on as many digits as it has and no more.  A [datetime] has a year
    from 1 to 9999, so a year before 1000 comes out on fewer than four
    digits. *)
Definition year_digits (n : Z) : string :=
  if n <? 10 then String (digit n) EmptyString
  else if n <? 100 then pad2 n
  else if n <? 1000 then String (digit (n / 100)) (pad2 n)
  else pad4 n.

(** What a [strftime] directive stands for, for the directives the
    scripts use; any other is left as it is written.  [strftime] hands
    the format to the C library: the year is not padded, the other
    fields are on two digits. *)
Definition strftime_directive (c : ascii) (t : datetime) : string :=
  if Ascii.eqb c "Y" then year_digits (year t)
  else if Ascii.eqb c "m" then pad2 (month t)
  else if Ascii.eqb c "d" then pad2 (day t)
  else if Ascii.eqb c "H" then pad2 (hour t)
  else if Ascii.eqb c "M" then pad2 (minute t)
  else if Ascii.eqb c "S" then pad2 (second t)
  else if Ascii.eqb c "%" then "%"
  else String "%" (String c EmptyString).

(** [t.strftime(fmt)]. *)
Fixpoint strftime (fmt : string) (t : datetime) : string :=
  match fmt with
  | EmptyString => EmptyString
  | String a rest =>
      if Ascii.eqb a "%" then
        match rest with
        | EmptyString => "%"
        | String c rest' => strftime_directive c t ++ strftime rest' t
        end
      else String a (strftime rest t)
  end.

(** A well-formed [datetime] object. *)
Definition valid_datetime (t : datetime) : Prop :=
  1 <= year t <= 9999 /\ 1 <= month t <= 12
  /\ 1 <= day t <= days_in_month (year t) (month t)
  /\ 0 <= hour t < 24 /\ 0 <= minute t < 60 /\ 0 <= second t < 60
  /\ 0 <= microsecond t < 1000000.

(** Whole seconds from the start of day 0 of the calendar to [t]. *)
Definition seconds_of (t : datetime) : Z :=
  toordinal t * 86400 + hour t * 3600 + minute t * 60 + second t.

(** The month and the day of day [n] (counted from 0) of a year: the
    last part of [ord2ymd], set apart so that it can be tested on its
    own for each of the two kinds of year. *)
Definition month_day (leapyear : bool) (n : Z) : Z * Z :=
  let m := Z.shiftr (n + 50) 5 in
  let preceding :=
    nth (Z.to_nat m) DAYS_BEFORE_MONTH 0
    + (if (2 <? m) && leapyear then 1 else 0) in
  if n <? preceding then
    let m := m - 1 in
    let preceding :=
      preceding - (nth (Z.to_nat m) DAYS_IN_MONTH 0
                   + (if (m =? 2) && leapyear then 1 else 0)) in
    (m, n - preceding + 1)
  else (m, n - preceding + 1).

(** The test that [month_day] gives a date of the calendar whose day of
    the year is [n + 1] (year 1 is a common year, year 4 a leap year);
    and a test run over [count] numbers from [n] on. *)
Definition month_day_ok (leapyear : bool) (n : Z) : bool :=
  let '(m, d) := month_day leapyear n in
  let y := if leapyear then 4 else 1 in
  (1 <=? m) && (m <=? 12) && (1 <=? d) && (d <=? days_in_month y m)
  && (days_before_month y m + d =? n + 1).

Fixpoint all_upto (p : Z -> bool) (count : nat) (n : Z) : bool :=
  match count with
  | O => true
  | S c => p n && all_upto p c (n + 1)
  end.

(* ================================================================== *)
(** * [requests]: calls and responses *)
(* ================================================================== *)

Inductive Method : Type := GET | PUT | PATCH | POST.

(** Keyword arguments of a [requests] call, as the caller wrote them. *)
Inductive kwarg : Type :=
| Params (p : dict string)
| Data (d : dict value)
| Json (v : value)
| Auth (user password : string)
| Headers (h : dict string)
| AllowRedirects (b : bool)
| Timeout (seconds : Z).

(** A [requests.Session] object, identified by its creation number. *)
Definition Session : Type := nat.

(** One call into the HTTP library.  [via] is the session object the
    call was made on ([session.get(...)]), or [None] for a module-level
    call ([requests.post(...)]), which carries no cookie context.  [url]
    is the object the caller passed, a [str] or whatever a JSON body
    held in its place. *)
Record Request : Type := mk_Request {
  via : option Session;
  method : Method;
  url : value;
  kwargs : list kwarg }.

(** The [timeout=] a call was given; [None] when the caller gave none,
    in which case the library waits without a bound. *)
Fixpoint kwargs_timeout (kw : list kwarg) : option Z :=
  match kw with
  | [] => None
  | Timeout s :: _ => Some s
  | _ :: t => kwargs_timeout t
  end.

Fixpoint kwargs_json (kw : list kwarg) : option value :=
  match kw with
  | [] => None
  | Json v :: _ => Some v
  | _ :: t => kwargs_json t
  end.

Fixpoint kwargs_data (kw : list kwarg) : option (dict value) :=
  match kw with
  | [] => None
  | Data d :: _ => Some d
  | _ :: t => kwargs_data t
  end.

Fixpoint kwargs_params (kw : list kwarg) : option (dict string) :=
  match kw with
  | [] => None
  | Params d :: _ => Some d
  | _ :: t => kwargs_params t
  end.

(** A [requests.Response].  [text] is the raw body; [content_json] is
    what [r.json()] decodes it to, [None] when the body is not JSON (the
    decoder itself is not modelled: an answer comes with both). *)
Record Response : Type := mk_Response {
  status_code : Z;
  text : string;
  content_json : option value;
  headers : dict string }.

(** [r.ok]: the status is not a 4xx or 5xx. *)
Definition ok (r : Response) : bool :=
  negb ((400 <=? status_code r) && (status_code r <? 600)).

(** [r.headers.get(name, default)]; header names compare without case. *)
Fixpoint headers_get (h : dict string) (name default : string) : string :=
  match h with
  | [] => default
  | (k, v) :: t =>
      if String.eqb (str_lower k) (str_lower name) then v
      else headers_get t name default
  end.

(** [r.headers[name]]: a missing header raises [KeyError]. *)
Fixpoint headers_getitem (h : dict string) (name : string) : result string :=
  match h with
  | [] => Raise KeyError
  | (k, v) :: t =>
      if String.eqb (str_lower k) (str_lower name) then Ok v
      else headers_getitem t name
  end.

(* ================================================================== *)
(** * The world and the monad of scripts *)
(* ================================================================== *)

(** A piece of a printed line: literal text of an f-string, or a
    replacement field [{v}]. *)
Inductive piece : Type :=
| Lit (s : string)
| Fmt (v : value).

Definition line : Type := list piece.

(** The world a script runs in.  [net k] is what the HTTP library answers
    to the [k]-th call still to come: a response, or the exception of a
    transport failure.  [rng] is the bytes the OS random source will
    yield and [clock] the successive readings of the UTC clock.  [sent]
    logs the calls made so far, oldest first.

    The scripts are sequential and deterministic, so a run against any
    server, however its answers depend on what it is asked and on what
    it was asked before, is the run in the world whose [net] lists the
    answers that server gave.  A statement proved for every world thus
    holds against every server. *)
Record World : Type := mk_World {
  net : nat -> result Response;
  rng : nat -> byte;
  clock : nat -> datetime;
  sessions : nat;
  sent : list Request;
  stdout : list line;
  stderr : list line }.

(** The world after a line is printed on standard output. *)
Definition printed (l : line) (w : World) : World :=
  {| net := net w; rng := rng w; clock := clock w; sessions := sessions w;
     sent := sent w; stdout := (stdout w ++ [l])%list; stderr := stderr w |}.

(** The world after a line is printed on standard error. *)
Definition complained (l : line) (w : World) : World :=
  {| net := net w; rng := rng w; clock := clock w; sessions := sessions w;
     sent := sent w; stdout := stdout w; stderr := (stderr w ++ [l])%list |}.

(** The world after a call: the call is logged and its answer consumed. *)
Definition called (rq : Request) (w : World) : World :=
  {| net := fun k => net w (S k); rng := rng w; clock := clock w;
     sessions := sessions w; sent := (sent w ++ [rq])%list;
     stdout := stdout w; stderr := stderr w |}.

(** The world after a session object is created. *)
Definition session_made (w : World) : World :=
  {| net := net w; rng := rng w; clock := clock w; sessions := S (sessions w);
     sent := sent w; stdout := stdout w; stderr := stderr w |}.

(** The world after [n] random bytes are drawn. *)
Definition drawn (n : nat) (w : World) : World :=
  {| net := net w; rng := fun k => rng w (n + k)%nat; clock := clock w;
     sessions := sessions w; sent := sent w;
     stdout := stdout w; stderr := stderr w |}.

(** The world after the clock is read. *)
Definition ticked (w : World) : World :=
  {| net := net w; rng := rng w; clock := fun k => clock w (S k);
     sessions := sessions w; sent := sent w;
     stdout := stdout w; stderr := stderr w |}.

Definition M (A : Type) : Type := World -> result A * World.

Definition ret {A} (a : A) : M A := fun w => (Ok a, w).

Definition raise {A} (e : exn) : M A := fun w => (Raise e, w).

Definition bind {A B} (m : M A) (k : A -> M B) : M B :=
  fun w =>
    match m w with
    | (Ok a, w') => k a w'
    | (Raise e, w') => (Raise e, w')
    end.

Notation "x <- m ;; k" := (bind m (fun x => k))
  (at level 61, m at next level, right associativity).
Notation "m ;; k" := (bind m (fun _ => k))
  (at level 61, right associativity).

(** A pure step that may raise. *)
Definition lift {A} (r : result A) : M A := fun w => (r, w).

(** [if c: body], where [body] ends the run or falls through. *)
Definition when (c : bool) (body : M unit) : M unit :=
  if c then body else ret tt.

(** [sys.exit(code)]. *)
Definition sys_exit {A} (code : Z) : M A := raise (SystemExit code).

(** [print(line)] and [print(line, file=sys.stderr)]. *)
Definition print (l : line) : M unit := fun w => (Ok tt, printed l w).

Definition print_stderr (l : line) : M unit := fun w => (Ok tt, complained l w).

(** The one step that reaches the network: log the call, take the next
    answer. *)
Definition http (rq : Request) : M Response := fun w => (net w 0%nat, called rq w).

(** [requests.Session()]. *)
Definition requests_Session : M Session := fun w => (Ok (sessions w), session_made w).

Definition Session_get (s : Session) (u : value) (kw : list kwarg) : M Response :=
  http {| via := Some s; method := GET; url := u; kwargs := kw |}.
Definition Session_put (s : Session) (u : value) (kw : list kwarg) : M Response :=
  http {| via := Some s; method := PUT; url := u; kwargs := kw |}.
Definition Session_patch (s : Session) (u : value) (kw : list kwarg) : M Response :=
  http {| via := Some s; method := PATCH; url := u; kwargs := kw |}.
Definition Session_post (s : Session) (u : value) (kw : list kwarg) : M Response :=
  http {| via := Some s; method := POST; url := u; kwargs := kw |}.

Definition requests_post (u : value) (kw : list kwarg) : M Response :=
  http {| via := None; method := POST; url := u; kwargs := kw |}.

Definition requests_get (u : value) (kw : list kwarg) : M Response :=
  http {| via := None; method := GET; url := u; kwargs := kw |}.

(** [r.json()]. *)
Definition Response_json (r : Response) : M value :=
  match content_json r with
  | Some v => ret v
  | None => raise JSONDecodeError
  end.

(** [secrets.token_bytes(n)]: the next [n] bytes of the random source. *)
Definition token_bytes (n : nat) : M (list byte) := fun w =>
  (Ok (map (rng w) (seq 0 n)), drawn n w).

(** [secrets.token_urlsafe(n)]. *)
Definition token_urlsafe (n : nat) : M string :=
  tok <- token_bytes n ;;
  ret (decode (bytes_rstrip b64_pad (urlsafe_b64encode tok))).

(** [datetime.now(timezone.utc)]: the next reading of the clock. *)
Definition datetime_now_utc : M datetime := fun w => (Ok (clock w 0%nat), ticked w).

(* ================================================================== *)
(** * What the commands take from their host *)
(* ================================================================== *)

(** Rendering functions of the library whose code is not part of the
    scripts.  The development is parametric in them. *)
Class Rendering : Type := {
  (** [str(v)] of an object that is not a [str] *)
  str_of_object : value -> string;
  (** [json.dumps(v, indent=2)] *)
  json_dumps_indent2 : value -> string }.

(** [str(v)], which is what a replacement field [{v}] of an f-string
    puts in its place: a [str] stands for itself. *)
Definition py_str {R : Rendering} (v : value) : string :=
  match v with
  | VStr s => s
  | _ => str_of_object v
  end.

(** What becomes of [json.load(f)] under [with open(path) as f]: the
    decoded value; an [OSError] or a [json.JSONDecodeError], of which
    only the message [str(e)] is used; or some other exception, such as
    the [ValueError] of a file that is not UTF-8. *)
Inductive loaded : Type :=
| Loaded (config : value)
| Unreadable (e : string)
| Failed (e : exn).

(** The files the [set] command finds, by path. *)
Class Files : Type := {
  json_load : string -> loaded }.

(** Truth value of an optional command-line argument: false when the
    flag was not given ([None]) or was given empty. *)
Definition given (arg : option string) : bool :=
  match arg with
  | Some s => truthy (VStr s)
  | None => false
  end.

(** How a run ends that no exception of [exn] ends: it returns, or it
    raises the [TypeError] of a [for] over an object that cannot be
    iterated, which [exn] does not list. *)
Inductive ending : Type :=
| Returned
| TypeError.

(* ================================================================== *)
(** * [scripts/alert.py] *)
(* ================================================================== *)

Module alert.

(** The [argparse] namespace of the [push] and [resolve] subcommands.
    A [nargs="*"] flag that was not given is [None]; [resolve] has no
    [annotations]. *)
Record Namespace : Type := mk_Namespace {
  arg_url : string;
  key : string;
  secret : string;
  alertname : string;
  severity : string;
  labels : option (list string);
  annotations : option (list string) }.

(** The body of the [for pair in pairs or []] loop, folded over the
    pairs (each one [kv] here) with the [result] dict built so far. *)
Fixpoint parse_kv_loop (pairs : list string) (result : dict string) : M (dict string) :=
  match pairs with
  | [] => ret result
  | kv :: rest =>
      when (negb (str_in "=" kv))
        (print_stderr [Lit "Error: invalid key=value pair: "; Fmt (VStr kv)] ;;
         sys_exit 1) ;;
      match split1 "=" kv with
      | [k; v] => parse_kv_loop rest (dict_set result k v)
      | _ => raise ValueError
      end
  end.

(** Parse a list of 'key=value' strings into a dict. *)
Definition parse_kv (pairs : option (list string)) : M (dict string) :=
  parse_kv_loop (match pairs with Some l => l | None => [] end) [].

Definition TIME_FORMAT : string := "%Y-%m-%dT%H:%M:%SZ".

(** Push (fire) an alert. *)
Definition push_alert (args : Namespace) : M unit :=
  let labels0 :=
    [("alertname", alertname args);
     ("severity", severity args);
     ("system_key", key args)] in
  extra <- parse_kv (labels args) ;;
  let labels := dict_update labels0 extra in
  annotations <- parse_kv (annotations args) ;;
  now <- datetime_now_utc ;;
  let payload :=
    VList [VDict [("labels", str_dict labels);
                  ("annotations", str_dict annotations);
                  ("generatorURL", VStr ("http://" ++ key args ++ "/alert"));
                  ("startsAt", VStr (strftime TIME_FORMAT now));
                  ("endsAt", VStr "0001-01-01T00:00:00Z")]] in
  let url := rstrip "/" (arg_url args) ++ "/alertmanager/api/v2/alerts" in
  resp <- requests_post (VStr url)
            [Json payload;
             Auth (key args) (secret args);
             Headers [("Accept", "application/json")];
             Timeout 30] ;;
  if ok resp then
    print [Lit "Alert '"; Fmt (VStr (alertname args));
           Lit "' pushed successfully (HTTP "; Fmt (VInt (status_code resp)); Lit ")"]
  else
    print_stderr [Lit "Failed to push alert (HTTP "; Fmt (VInt (status_code resp));
                  Lit "): "; Fmt (VStr (text resp))] ;;
    sys_exit 1.

(** Resolve an alert by sending it with endsAt in the past. *)
Definition resolve_alert (args : Namespace) : M unit :=
  let labels0 :=
    [("alertname", alertname args);
     ("severity", severity args);
     ("system_key", key args)] in
  extra <- parse_kv (labels args) ;;
  let labels := dict_update labels0 extra in
  now <- datetime_now_utc ;;
  starts <- lift (datetime_sub now (timedelta_hours 1)) ;;
  let payload :=
    VList [VDict [("labels", str_dict labels);
                  ("annotations", VDict [("summary", VStr "resolved")]);
                  ("generatorURL", VStr ("http://" ++ key args ++ "/alert"));
                  ("startsAt", VStr (strftime TIME_FORMAT starts));
                  ("endsAt", VStr (strftime TIME_FORMAT now))]] in
  let url := rstrip "/" (arg_url args) ++ "/alertmanager/api/v2/alerts" in
  resp <- requests_post (VStr url)
            [Json payload;
             Auth (key args) (secret args);
             Headers [("Accept", "application/json")];
             Timeout 30] ;;
  if ok resp then
    print [Lit "Alert '"; Fmt (VStr (alertname args));
           Lit "' resolved successfully (HTTP "; Fmt (VInt (status_code resp)); Lit ")"]
  else
    print_stderr [Lit "Failed to resolve alert (HTTP "; Fmt (VInt (status_code resp));
                  Lit "): "; Fmt (VStr (text resp))] ;;
    sys_exit 1.

(** The [argparse] namespace of the [silence] subcommand; [--duration]
    is read with [type=int]. *)
Record SilenceNamespace : Type := mk_SilenceNamespace {
  s_url : string;
  s_key : string;
  s_secret : string;
  s_alertname : string;
  s_labels : option (list string);
  duration : Z;
  comment : string;
  created_by : string }.

(** Create a silence for an alert. *)
Definition silence_alert (args : SilenceNamespace) : M unit :=
  now <- datetime_now_utc ;;
  delta <- lift (timedelta_minutes (duration args)) ;;
  ends_at <- lift (datetime_add now delta) ;;

  let matchers :=
    [VDict [("name", VStr "alertname"); ("value", VStr (s_alertname args));
            ("isRegex", VBool false)]] in
  extra <- parse_kv (s_labels args) ;;
  let matchers :=
    fold_left
      (fun (matchers : list value) kv =>
         (matchers ++ [VDict [("name", VStr (fst kv)); ("value", VStr (snd kv));
                              ("isRegex", VBool false)]])%list)
      extra matchers in

  let payload :=
    VDict [("matchers", VList matchers);
           ("startsAt", VStr (strftime TIME_FORMAT now));
           ("endsAt", VStr (strftime TIME_FORMAT ends_at));
           ("comment", VStr (comment args));
           ("createdBy", VStr (created_by args))] in

  let url := rstrip "/" (s_url args) ++ "/alertmanager/api/v2/silences" in
  resp <- requests_post (VStr url)
            [Json payload;
             Auth (s_key args) (s_secret args);
             Headers [("Content-Type", "application/json");
                      ("Accept", "application/json")];
             Timeout 30] ;;

  if ok resp then
    data <- Response_json resp ;;
    silence_id <- lift (value_get data "silenceID" (VStr "unknown")) ;;
    print [Lit "Silence created for '"; Fmt (VStr (s_alertname args));
           Lit "' (ID: "; Fmt silence_id;
           Lit ", duration: "; Fmt (VInt (duration args)); Lit "m)"]
  else
    print_stderr [Lit "Failed to create silence (HTTP "; Fmt (VInt (status_code resp));
                  Lit "): "; Fmt (VStr (text resp))] ;;
    sys_exit 1.

(** The [argparse] namespace of the [list] subcommand. *)
Record ListNamespace : Type := mk_ListNamespace {
  l_url : string;
  l_key : string;
  l_secret : string;
  l_state : option string;
  l_severity : option string }.

(** The items a [for a in v] goes through, [None] for an object that
    cannot be iterated: a list gives its elements and a dict its keys.
    A [str] gives its characters, here its bytes: each of them a
    one-character [str] either way. *)
Definition iter (v : value) : option (list value) :=
  match v with
  | VList xs => Some xs
  | VDict d => Some (map VStr (dict_keys d))
  | VStr s => Some (map (fun c => VStr (String c EmptyString)) (list_ascii_of_string s))
  | _ => None
  end.

(** [a.get(outer, {}).get(inner) == wanted]. *)
Definition nested_is (outer inner wanted : string) (a : value) : result bool :=
  match value_get a outer (VDict []) with
  | Ok o =>
      match value_get o inner VNone with
      | Ok (VStr s) => Ok (String.eqb s wanted)
      | Ok _ => Ok false
      | Raise e => Raise e
      end
  | Raise e => Raise e
  end.

(** [[a for a in items if test(a)]]: the first item whose test raises
    ends the comprehension. *)
Fixpoint comprehension (test : value -> result bool) (items : list value)
    : result (list value) :=
  match items with
  | [] => Ok []
  | a :: rest =>
      match test a with
      | Ok keep =>
          match comprehension test rest with
          | Ok kept => Ok (if keep then a :: kept else kept)
          | Raise e => Raise e
          end
      | Raise e => Raise e
      end
  end.

(** One optional filter:
    [if wanted: alerts = [a for a in alerts if a.get(outer, {}).get(inner) == wanted]].
    [None] is the [TypeError] of iterating over [alerts]. *)
Definition select (outer inner : string) (wanted : option string) (alerts : value)
    : option (result value) :=
  match wanted with
  | Some s =>
      if given wanted then
        match iter alerts with
        | Some items =>
            Some (match comprehension (nested_is outer inner s) items with
                  | Ok kept => Ok (VList kept)
                  | Raise e => Raise e
                  end)
        | None => None
        end
      else Some (Ok alerts)
  | None => Some (Ok alerts)
  end.

Section List.

Context {R : Rendering}.

(** List active alerts. *)
Definition list_alerts (args : ListNamespace) : M ending :=
  let url := rstrip "/" (l_url args) ++ "/alertmanager/api/v2/alerts" in
  resp <- requests_get (VStr url)
            [Auth (l_key args) (l_secret args);
             Headers [("Accept", "application/json")];
             Timeout 30] ;;

  when (negb (ok resp))
    (print_stderr [Lit "Failed to list alerts (HTTP "; Fmt (VInt (status_code resp));
                   Lit "): "; Fmt (VStr (text resp))] ;;
     sys_exit 1) ;;

  alerts <- Response_json resp ;;

  (* Optional filters *)
  match select "status" "state" (l_state args) alerts with
  | None => ret TypeError
  | Some by_state =>
      alerts <- lift by_state ;;
      match select "labels" "severity" (l_severity args) alerts with
      | None => ret TypeError
      | Some by_severity =>
          alerts <- lift by_severity ;;
          if negb (truthy alerts) then
            print [Lit "No alerts found."] ;;
            ret Returned
          else
            print [Fmt (VStr (json_dumps_indent2 alerts))] ;;
            ret Returned
      end
  end.

End List.

End alert.

(* ================================================================== *)
(** * [scripts/alerting_config.py] *)
(* ================================================================== *)

(** The pure library functions the login flow calls and whose code is
    not part of the scripts.  The development is parametric in them. *)
Class Platform : Type := {
  (** [hashlib.sha256(b).digest()] *)
  sha256_digest : list byte -> list byte;
  (** [urlparse(u).query]; [urlparse] raises [ValueError] on some
      malformed network locations. *)
  urlparse_query : string -> result string;
  (** [parse_qs(q)]: the values of each parameter, in order. *)
  parse_qs : string -> dict (list string) }.

Module alerting_config.

(** Logto app configuration for the MY platform. *)
Definition _LOGTO_ENDPOINT : string := "https://qa.id.nethesis.it".
Definition _LOGTO_APP_ID : string := "amz2744kof0iq3a6i7csu".
Definition _LOGTO_REDIRECT_URI_PATH : string := "login-redirect".

Section Login.

Context {P : Platform}.

(** Authenticate via Logto OIDC + backend token exchange.
    Returns the custom JWT for use with the backend API. *)
Definition _logto_login (base_url email password : string) : M value :=
  let redirect_uri := rstrip "/" base_url ++ "/" ++ _LOGTO_REDIRECT_URI_PATH in
  let backend_url := rstrip "/" base_url ++ "/backend/api" in

  session <- requests_Session ;;

  (* PKCE setup *)
  code_verifier <- token_urlsafe 64 ;;
  let code_challenge :=
    decode (bytes_rstrip b64_pad
              (urlsafe_b64encode (sha256_digest (encode code_verifier)))) in
  state <- token_urlsafe 16 ;;

  (* Step 1: Start OIDC authorization flow *)
  _ <- Session_get session (VStr (_LOGTO_ENDPOINT ++ "/oidc/auth"))
         [Params [("client_id", _LOGTO_APP_ID);
                  ("redirect_uri", redirect_uri);
                  ("response_type", "code");
                  ("scope", "openid profile email offline_access "
                            ++ "urn:logto:scope:organizations urn:logto:scope:organization_roles");
                  ("state", state);
                  ("code_challenge", code_challenge);
                  ("code_challenge_method", "S256")];
          AllowRedirects false] ;;

  (* Step 2: Logto interaction API - sign in with email/password *)
  _ <- Session_put session (VStr (_LOGTO_ENDPOINT ++ "/api/interaction"))
         [Json (VDict [("event", VStr "SignIn")])] ;;
  r <- Session_patch session (VStr (_LOGTO_ENDPOINT ++ "/api/interaction/identifiers"))
         [Json (VDict [("email", VStr email); ("password", VStr password)])] ;;
  when (status_code r =? 422)
    (body <- Response_json r ;;
     message <- lift (value_get body "message" (VStr (text r))) ;;
     print_stderr [Lit "Authentication failed: "; Fmt message] ;;
     sys_exit 1) ;;
  when (negb (ok r))
    (print_stderr [Lit "Authentication error ("; Fmt (VInt (status_code r));
                   Lit "): "; Fmt (VStr (text r))] ;;
     sys_exit 1) ;;

  (* Step 3: Submit sign-in *)
  r4 <- Session_post session (VStr (_LOGTO_ENDPOINT ++ "/api/interaction/submit")) [] ;;
  body4 <- Response_json r4 ;;
  redirect_to <- lift (value_get body4 "redirectTo" VNone) ;;
  when (negb (truthy redirect_to))
    (print_stderr [Lit "Unexpected sign-in response: "; Fmt (VStr (text r4))] ;;
     sys_exit 1) ;;

  (* Step 4: Handle optional consent screen *)
  r5 <- Session_get session redirect_to [AllowRedirects false] ;;
  redirect_to <-
    (if str_in "consent" (headers_get (headers r5) "Location" "") then
       location <- lift (headers_getitem (headers r5) "Location") ;;
       _ <- Session_get session (VStr (_LOGTO_ENDPOINT ++ location))
              [AllowRedirects false] ;;
       r_consent <- Session_post session
                      (VStr (_LOGTO_ENDPOINT ++ "/api/interaction/consent")) [] ;;
       body_consent <- Response_json r_consent ;;
       lift (value_get body_consent "redirectTo" VNone)
     else ret redirect_to) ;;

  (* Step 5: Follow final redirect to get the auth code *)
  r_final <- Session_get session redirect_to [AllowRedirects false] ;;
  let callback_url := headers_get (headers r_final) "Location" "" in
  query <- lift (urlparse_query callback_url) ;;
  let qs := parse_qs query in
  code <- match dict_get qs "code" with
          | None => ret VNone
          | Some [] => raise IndexError
          | Some (c :: _) => ret (VStr c)
          end ;;
  when (negb (truthy code))
    (print_stderr [Lit "Failed to obtain authorization code from: ";
                   Fmt (VStr callback_url)] ;;
     sys_exit 1) ;;

  (* Step 6: Exchange code for Logto access token *)
  r6 <- requests_post (VStr (_LOGTO_ENDPOINT ++ "/oidc/token"))
          [Data [("grant_type", VStr "authorization_code");
                 ("code", code);
                 ("redirect_uri", VStr redirect_uri);
                 ("client_id", VStr _LOGTO_APP_ID);
                 ("code_verifier", VStr code_verifier)]] ;;
  body6 <- Response_json r6 ;;
  logto_token <- lift (value_get body6 "access_token" VNone) ;;
  when (negb (truthy logto_token))
    (print_stderr [Lit "Failed to get Logto access token: "; Fmt (VStr (text r6))] ;;
     sys_exit 1) ;;

  (* Step 7: Exchange Logto token for custom backend JWT *)
  r7 <- requests_post (VStr (backend_url ++ "/auth/exchange"))
          [Json (VDict [("access_token", logto_token)]);
           Headers [("Content-Type", "application/json")]] ;;
  body7 <- Response_json r7 ;;
  data <- lift (value_get body7 "data" (VDict [])) ;;
  token <- lift (value_get data "token" VNone) ;;
  when (negb (truthy token))
    (print_stderr [Lit "Failed to exchange token: "; Fmt (VStr (text r7))] ;;
     sys_exit 1) ;;

  ret token.

End Login.

(** The [argparse] namespace of the subcommands: every one has [url],
    [email], [password] and [org]; [set] has [config] besides, and
    [alerts] has [state], [severity] and [system_key].  An optional flag
    that was not given is [None]. *)
Record Namespace : Type := mk_Namespace {
  arg_url : string;
  arg_email : string;
  arg_password : string;
  arg_org : option string;
  arg_config : string;
  arg_state : option string;
  arg_severity : option string;
  arg_system_key : option string }.

(** [if arg: params[name] = arg]. *)
Definition set_if_given (params : dict string) (name : string) (arg : option string)
    : dict string :=
  match arg with
  | Some v => if given arg then dict_set params name v else params
  | None => params
  end.

Section Commands.

Context {P : Platform} {R : Rendering} {F : Files}.

Definition cmd_get (args : Namespace) : M unit :=
  jwt <- _logto_login (arg_url args) (arg_email args) (arg_password args) ;;
  let backend_url := rstrip "/" (arg_url args) ++ "/backend/api" in
  let headers := [("Authorization", "Bearer " ++ py_str jwt)] in

  let params := [] in
  let params := set_if_given params "organization_id" (arg_org args) in

  r <- requests_get (VStr (backend_url ++ "/alerting/config"))
         [Headers headers; Params params] ;;
  data <- Response_json r ;;
  when (negb (ok r))
    (message <- lift (value_get data "message" (VStr (text r))) ;;
     print_stderr [Lit "Error ("; Fmt (VInt (status_code r)); Lit "): "; Fmt message] ;;
     sys_exit 1) ;;

  inner <- lift (value_get data "data" (VDict [])) ;;
  config_yaml <- lift (value_get inner "config" (VStr "")) ;;
  print [Fmt config_yaml].

Definition cmd_set (args : Namespace) : M unit :=
  jwt <- _logto_login (arg_url args) (arg_email args) (arg_password args) ;;
  let backend_url := rstrip "/" (arg_url args) ++ "/backend/api" in
  let headers := [("Authorization", "Bearer " ++ py_str jwt);
                  ("Content-Type", "application/json")] in

  config <- match json_load (arg_config args) with
            | Loaded config => ret config
            | Unreadable e =>
                print_stderr [Lit "Error reading config file: "; Fmt (VStr e)] ;;
                sys_exit 1
            | Failed e => raise e
            end ;;

  let params := [] in
  let params := set_if_given params "organization_id" (arg_org args) in

  r <- requests_post (VStr (backend_url ++ "/alerting/config"))
         [Headers headers; Params params; Json config] ;;
  data <- Response_json r ;;
  when (negb (ok r))
    (message <- lift (value_get data "message" (VStr (text r))) ;;
     print_stderr [Lit "Error ("; Fmt (VInt (status_code r)); Lit "): "; Fmt message] ;;
     sys_exit 1) ;;

  print [Lit "Alerting configuration updated successfully."].

Definition cmd_alerts (args : Namespace) : M unit :=
  jwt <- _logto_login (arg_url args) (arg_email args) (arg_password args) ;;
  let backend_url := rstrip "/" (arg_url args) ++ "/backend/api" in
  let headers := [("Authorization", "Bearer " ++ py_str jwt)] in

  let params := [] in
  let params := set_if_given params "organization_id" (arg_org args) in
  let params := set_if_given params "state" (arg_state args) in
  let params := set_if_given params "severity" (arg_severity args) in
  let params := set_if_given params "system_key" (arg_system_key args) in

  r <- requests_get (VStr (backend_url ++ "/alerting/alerts"))
         [Headers headers; Params params] ;;
  data <- Response_json r ;;
  when (negb (ok r))
    (message <- lift (value_get data "message" (VStr (text r))) ;;
     print_stderr [Lit "Error ("; Fmt (VInt (status_code r)); Lit "): "; Fmt message] ;;
     sys_exit 1) ;;

  inner <- lift (value_get data "data" (VDict [])) ;;
  alerts <- lift (value_get inner "alerts" (VList [])) ;;
  if negb (truthy alerts) then
    print [Lit "No alerts found."]
  else
    print [Fmt (VStr (json_dumps_indent2 alerts))].

End Commands.

End alerting_config.

(* ================================================================== *)
(** * Reading the call log *)
(* ================================================================== *)

(** The calls a run made: those of the final world that were not yet in
    the world it started from. *)
Definition calls_of {A} (m : M A) (w : World) : list Request :=
  skipn (List.length (sent w)) (sent (snd (m w))).

(** The alert objects of a call posting a JSON array of alerts. *)
Definition posted_alerts (rq : Request) : option (list value) :=
  match kwargs_json (kwargs rq) with
  | Some (VList alerts) => Some alerts
  | _ => None
  end.

(** A field of a JSON object. *)
Definition field (v : value) (name : string) : option value :=
  match v with
  | VDict d => dict_get d name
  | _ => None
  end.

Definition is_digit (a : ascii) : bool :=
  let n := N_of_ascii a in (48 <=? n)%N && (n <=? 57)%N.

(** The shape [YYYY-MM-DDTHH:MM:SSZ]. *)
Definition iso_shape (s : string) : bool :=
  match list_ascii_of_string s with
  | [y1; y2; y3; y4; s1; m1; m2; s2; d1; d2; t; h1; h2; c1; n1; n2; c2; e1; e2; z] =>
      forallb is_digit [y1; y2; y3; y4; m1; m2; d1; d2; h1; h2; n1; n2; e1; e2]
      && Ascii.eqb s1 "-" && Ascii.eqb s2 "-" && Ascii.eqb t "T"
      && Ascii.eqb c1 ":" && Ascii.eqb c2 ":" && Ascii.eqb z "Z"
  | _ => false
  end%list.

(** The world after the listed calls, made in order. *)
Definition after_calls (calls : list Request) (w : World) : World :=
  fold_left (fun w rq => called rq w) calls w.

(** Every call a run of [m] makes, from any world, satisfies [P]; and a
    run only ever adds to the log. *)
Definition Calls {A} (P : Request -> Prop) (m : M A) : Prop :=
  forall w, exists new,
    sent (snd (m w)) = (sent w ++ new)%list /\ Forall P new.

(** The outcome [x] of a run begun in [w] has logged the calls [made],
    in that order, and after them only calls that satisfy [P]. *)
Definition Logged {A} (P : Request -> Prop) (made : list Request) (w : World)
    (x : result A * World) : Prop :=
  exists rest,
    sent (snd x) = (sent w ++ made ++ rest)%list /\ Forall P rest.

(** The characters of a URL-safe token: letters, digits, ['-'] and ['_']. *)
Definition urlsafe_char (a : ascii) : bool :=
  let n := N_of_ascii a in
  ((65 <=? n) && (n <=? 90) || (97 <=? n) && (n <=? 122)
   || (48 <=? n) && (n <=? 57) || (n =? 45) || (n =? 95))%N.

Fixpoint str_forall (p : ascii -> bool) (s : string) : bool :=
  match s with
  | EmptyString => true
  | String a t => p a && str_forall p t
  end.

Definition b64url_table : list byte :=
  encode "ABCDEFGHIJKLMNOPQRSTUVWXYZabcdefghijklmnopqrstuvwxyz0123456789-_".

(** Base64url without padding, as PKCE asks for it: the digits of the
    URL-safe alphabet for each group of three bytes, two or three digits
    for a tail of one or two bytes, and no ['=']. *)
Fixpoint base64url_nopad (b : list byte) : list byte :=
  match b with
  | [] => []
  | [x] =>
      let n := Byte.to_N x in
      [b64_digit b64url_table (N.shiftr n 2);
       b64_digit b64url_table (N.shiftl (N.land n 3) 4)]
  | [x; y] =>
      let n := N.lor (N.shiftl (Byte.to_N x) 8) (Byte.to_N y) in
      [b64_digit b64url_table (N.shiftr n 10);
       b64_digit b64url_table (N.shiftr n 4);
       b64_digit b64url_table (N.shiftl (N.land n 15) 2)]
  | x :: y :: z :: t =>
      let n := N.lor (N.shiftl (Byte.to_N x) 16)
                     (N.lor (N.shiftl (Byte.to_N y) 8) (Byte.to_N z)) in
      b64_digit b64url_table (N.shiftr n 18)
        :: b64_digit b64url_table (N.shiftr n 12)
        :: b64_digit b64url_table (N.shiftr n 6)
        :: b64_digit b64url_table n
        :: base64url_nopad t
  end.

(** The [code_verifier] and the [state] a login started in [w] draws
    from the random source: 64 bytes, then 16. *)
Definition drawn_verifier (w : World) : string :=
  decode (bytes_rstrip b64_pad (urlsafe_b64encode (map (rng w) (seq 0 64)))).

Definition drawn_state (w : World) : string :=
  decode (bytes_rstrip b64_pad
            (urlsafe_b64encode (map (fun k => rng w (64 + k)%nat) (seq 0 16)))).

Definition digit_value (a : ascii) : Z := Z.of_N (N_of_ascii a) - 48.

Definition read_digits (cs : list ascii) : Z :=
  fold_left (fun n c => 10 * n + digit_value c) cs 0.

(** The time a string of the shape [YYYY-MM-DDTHH:MM:SSZ] denotes, to
    the second. *)
Definition read_iso (s : string) : option datetime :=
  if iso_shape s then
    match list_ascii_of_string s with
    | [y1; y2; y3; y4; _; m1; m2; _; d1; d2; _; h1; h2; _; n1; n2; _; e1; e2; _] =>
        Some {| year := read_digits [y1; y2; y3; y4];
                month := read_digits [m1; m2];
                day := read_digits [d1; d2];
                hour := read_digits [h1; h2];
                minute := read_digits [n1; n2];
                second := read_digits [e1; e2];
                microsecond := 0 |}
    | _ => None
    end%list
  else None.

(** A time cut to the whole second. *)
Definition to_the_second (t : datetime) : datetime :=
  {| year := year t; month := month t; day := day t;
     hour := hour t; minute := minute t; second := second t; microsecond := 0 |}.

(** A well-formed pair cut at its first ['=']. *)
Definition split_pair (kv : string) : string * string :=
  match split1 "=" kv with
  | [k; v] => (k, v)
  | _ => (kv, EmptyString)
  end%list.

Definition pairs_or_empty (pairs : option (list string)) : list string :=
  match pairs with Some l => l | None => [] end.

Definition well_formed_pairs (pairs : option (list string)) : bool :=
  forallb (str_in "=") (pairs_or_empty pairs).

(** What [parse_kv] builds from well-formed pairs, as a pure function:
    each pair is assigned in turn. *)
Definition parsed_pairs (pairs : option (list string)) : dict string :=
  dict_update [] (map split_pair (pairs_or_empty pairs)).

(** The value the last of the bindings [e] with key [k] gives. *)
Fixpoint dict_last {A} (e : dict A) (k : string) : option A :=
  match e with
  | [] => None
  | (k', v) :: t =>
      match dict_last t k with
      | Some x => Some x
      | None => if String.eqb k' k then Some v else None
      end
  end.

(* ================================================================== *)
(** * Worlds for concrete runs *)
(* ================================================================== *)

Module mock.

(** A server that answers every call with an empty [200]. *)
Definition ok_response : Response :=
  {| status_code := 200; text := EmptyString; content_json := None; headers := [] |}.

(** The world at process start: nothing sent, nothing printed. *)
Definition start (answers : list (result Response)) (noon : datetime) : World :=
  {| net := fun k => nth k answers (Raise (RequestException "connection refused"));
     rng := fun k => match Byte.of_N (N.of_nat (k * 37 + 11) mod 256) with
                     | Some b => b
                     | None => x00
                     end;
     clock := fun _ => noon;
     sessions := 0;
     sent := [];
     stdout := [];
     stderr := [] |}.

Definition march_first : datetime := mk_datetime 2024 3 1 0 30 5 123456.

(** [alert.py push --alertname HighCPU --severity critical
    --labels host=server-01]. *)
Definition high_cpu : alert.Namespace :=
  {| alert.arg_url := "https://my.nethesis.it/collect/api/services/mimir/";
     alert.key := "NOC-XXXX-XXXX";
     alert.secret := "my_pub.secretpart";
     alert.alertname := "HighCPU";
     alert.severity := "critical";
     alert.labels := Some ["host=server-01"]%list;
     alert.annotations := None |}.

(** The same with [--labels host=server-01 severity=info]. *)
Definition high_cpu_relabelled : alert.Namespace :=
  {| alert.arg_url := "https://my.nethesis.it/collect/api/services/mimir/";
     alert.key := "NOC-XXXX-XXXX";
     alert.secret := "my_pub.secretpart";
     alert.alertname := "HighCPU";
     alert.severity := "critical";
     alert.labels := Some ["host=server-01"; "severity=info"]%list;
     alert.annotations := None |}.

End mock.

Module mock_alert.

(** The world of an [alert.py] run whose one call is answered [200]. *)
Definition world : World := mock.start [Ok mock.ok_response] mock.march_first.

(** The call [push] makes in [world] for [mock.high_cpu_relabelled]. *)
Definition relabelled_call : Request :=
  {| via := None;
     method := POST;
     url := VStr "https://my.nethesis.it/collect/api/services/mimir/alertmanager/api/v2/alerts";
     kwargs :=
       [Json (VList [VDict [("labels",
                             VDict [("alertname", VStr "HighCPU");
                                    ("severity", VStr "info");
                                    ("system_key", VStr "NOC-XXXX-XXXX");
                                    ("host", VStr "server-01")]);
                            ("annotations", VDict []);
                            ("generatorURL", VStr "http://NOC-XXXX-XXXX/alert");
                            ("startsAt", VStr "2024-03-01T00:30:05Z");
                            ("endsAt", VStr "0001-01-01T00:00:00Z")]]);
        Auth "NOC-XXXX-XXXX" "my_pub.secretpart";
        Headers [("Accept", "application/json")];
        Timeout 30] |}.

End mock_alert.

Module mock_login.

(** Text before and after the first occurrence of a character. *)
Fixpoint before (c : ascii) (s : string) : string :=
  match s with
  | EmptyString => EmptyString
  | String a t => if Ascii.eqb a c then EmptyString else String a (before c t)
  end.

Fixpoint after (c : ascii) (s : string) : string :=
  match s with
  | EmptyString => EmptyString
  | String a t => if Ascii.eqb a c then t else after c t
  end.

Fixpoint split_all (c : ascii) (s : string) : list string :=
  match s with
  | EmptyString => [EmptyString]
  | String a t =>
      if Ascii.eqb a c then EmptyString :: split_all c t
      else match split_all c t with
           | [] => [String a EmptyString]
           | x :: rest => String a x :: rest
           end
  end.

(** A stand-in platform for concrete runs.  The query of a URL is the
    text between the first ['?'] and the first ['#']; a query is cut at
    ['&'] and ['='], blank values dropped, with no percent-decoding; the
    digest is a placeholder of the right length.  Nothing proved below
    depends on these choices. *)
#[export] Instance platform : Platform := {
  sha256_digest b := firstn 32 (b ++ repeat x00 32);
  urlparse_query u := Ok (after "?" (before "#" u));
  parse_qs q :=
    fold_left
      (fun (d : dict (list string)) nv =>
         let name := before "=" nv in
         let v := after "=" nv in
         if String.eqb v EmptyString then d
         else match dict_get d name with
              | Some vs => dict_set d name (vs ++ [v])%list
              | None => dict_set d name [v]
              end)
      (split_all "&" q) [] }.

Definition redirect : string := "https://qa.id.nethesis.it/oidc/auth/ZiaVxTqmQ".
Definition callback : string :=
  "https://my.example.org/login-redirect?code=AUTHCODE&state=xyz&iss=https%3A%2F%2Fqa.id.nethesis.it%2Foidc".

Definition json_response (status : Z) (body : string) (v : value) : Response :=
  {| status_code := status; text := body; content_json := Some v; headers := [] |}.

Definition redirect_response (location : string) : Response :=
  {| status_code := 303; text := EmptyString; content_json := None;
     headers := [("location", location)] |}.

Definition r_auth : Response := redirect_response "/sign-in".
Definition r_put : Response :=
  {| status_code := 204; text := EmptyString; content_json := None; headers := [] |}.
Definition r_patch : Response := r_put.
Definition r_submit : Response :=
  json_response 200 "{redirectTo: https://qa.id.nethesis.it/oidc/auth/ZiaVxTqmQ}"
    (VDict [("redirectTo", VStr redirect)]).
Definition r_callback : Response := redirect_response callback.
Definition r_token : Response :=
  json_response 200 "{access_token: logto-access, token_type: Bearer}"
    (VDict [("access_token", VStr "logto-access"); ("token_type", VStr "Bearer")]).
Definition r_exchange : Response :=
  json_response 200 "{code: 200, data: {token: backend.jwt}}"
    (VDict [("code", VInt 200); ("data", VDict [("token", VStr "backend.jwt")])]).

Definition base_url : string := "https://my.example.org/".
Definition email : string := "admin@example.com".
Definition password : string := "s3cr3t".

(** A login without a consent screen: eight calls. *)
Definition world : World :=
  mock.start (map Ok [r_auth; r_put; r_patch; r_submit; r_callback; r_callback;
                      r_token; r_exchange])
             mock.march_first.

Definition redirect_after_consent : string :=
  "https://qa.id.nethesis.it/oidc/auth/Rk2pLw0s".
Definition r_to_consent : Response := redirect_response "/consent".
Definition r_consent_page : Response :=
  {| status_code := 200; text := "<html>consent</html>"; content_json := None;
     headers := [] |}.
Definition r_consent_submit : Response :=
  json_response 200 "{redirectTo: https://qa.id.nethesis.it/oidc/auth/Rk2pLw0s}"
    (VDict [("redirectTo", VStr redirect_after_consent)]).

(** A login that meets the consent screen: ten calls. *)
Definition world_consent : World :=
  mock.start (map Ok [r_auth; r_put; r_patch; r_submit; r_to_consent;
                      r_consent_page; r_consent_submit; r_callback;
                      r_token; r_exchange])
             mock.march_first.

Definition r_422 : Response :=
  json_response 422
    "{code: session.invalid_credentials, message: Incorrect account or password.}"
    (VDict [("code", VStr "session.invalid_credentials");
            ("message", VStr "Incorrect account or password.")]).

(** Wrong password: the provider answers the PATCH with a JSON 422. *)
Definition world_422 : World :=
  mock.start (map Ok [r_auth; r_put; r_422]) mock.march_first.

Definition r_422_html : Response :=
  {| status_code := 422; text := "<html>Unprocessable Entity</html>";
     content_json := None; headers := [] |}.

(** The PATCH is answered 422 by something that does not speak JSON. *)
Definition world_422_html : World :=
  mock.start (map Ok [r_auth; r_put; r_422_html]) mock.march_first.

Definition r_submit_empty : Response := json_response 200 "{}" (VDict []).

(** The submit call is answered by an object without [redirectTo]. *)
Definition world_no_redirect : World :=
  mock.start (map Ok [r_auth; r_put; r_patch; r_submit_empty]) mock.march_first.

Definition denied : string :=
  "https://my.example.org/login-redirect?error=access_denied&state=xyz".
Definition r_denied : Response := redirect_response denied.

(** The final redirect carries an error instead of a code. *)
Definition world_no_code : World :=
  mock.start (map Ok [r_auth; r_put; r_patch; r_submit; r_denied; r_denied])
             mock.march_first.

Definition r_submit_html : Response :=
  {| status_code := 200; text := "<html>Bad Gateway</html>";
     content_json := None; headers := [] |}.

(** The submit call is answered by something that does not speak JSON. *)
Definition world_submit_html : World :=
  mock.start (map Ok [r_auth; r_put; r_patch; r_submit_html]) mock.march_first.

Definition r_submit_list : Response := json_response 200 "[]" (VList []).

(** The submit call is answered by JSON that is no object. *)
Definition world_submit_list : World :=
  mock.start (map Ok [r_auth; r_put; r_patch; r_submit_list]) mock.march_first.

Definition is_letter (a : ascii) : bool :=
  let n := N_of_ascii a in
  ((65 <=? n) && (n <=? 90) || (97 <=? n) && (n <=? 122))%N.

Definition scheme_char (a : ascii) : bool :=
  is_letter a || is_digit a
  || Ascii.eqb a "+" || Ascii.eqb a "-" || Ascii.eqb a ".".

(** A URL without its scheme: the text before the first [':'] is cut
    off, with the colon, when it begins with a letter and is made of
    scheme characters. *)
Definition without_scheme (u : string) : string :=
  match before ":" u with
  | String a _ as head =>
      if str_in ":" u && is_letter a && str_forall scheme_char head
      then after ":" u else u
  | EmptyString => u
  end.

Definition ends_host (a : ascii) : bool :=
  Ascii.eqb a "/" || Ascii.eqb a "?" || Ascii.eqb a "#".

Fixpoint host_part (s : string) : string :=
  match s with
  | EmptyString => EmptyString
  | String a t => if ends_host a then EmptyString else String a (host_part t)
  end.

Fixpoint after_host (s : string) : string :=
  match s with
  | EmptyString => EmptyString
  | String a t => if ends_host a then s else after_host t
  end.

(** A stand-in for [urlparse(u).query] that refuses what [urlsplit]
    refuses: when the URL, after its scheme, begins with two slashes,
    the network location runs to the first ['/'], ['?'] or ['#'], and
    one that has a square bracket of one kind and none of the other is
    answered with [ValueError] (Invalid IPv6 URL).  The query is the
    text between the first ['?'] and the first ['#'] of what is left. *)
Definition urlsplit_query (u : string) : result string :=
  match without_scheme u with
  | String "/" (String "/" rest) =>
      let netloc := host_part rest in
      if xorb (str_in "[" netloc) (str_in "]" netloc) then Raise ValueError
      else Ok (after "?" (before "#" (after_host rest)))
  | url => Ok (after "?" (before "#" url))
  end.

(** The stand-in platform with this [urlparse]. *)
Definition platform_urlsplit : Platform := {|
  sha256_digest := @sha256_digest platform;
  urlparse_query := urlsplit_query;
  parse_qs := @parse_qs platform |}.

Definition bad_location : string := "http://[::1/cb?error=access_denied".
Definition r_bad_location : Response := redirect_response bad_location.

(** The final redirect carries a [Location] that [urlparse] refuses. *)
Definition world_bad_location : World :=
  mock.start (map Ok [r_auth; r_put; r_patch; r_submit; r_denied; r_bad_location])
             mock.march_first.

End mock_login.

(* ================================================================== *)
(** * The login flow as the specification lays it out *)
(* ================================================================== *)

(** The calls of the login sequence, step by step, and the conditions
    under which a run gets from one step to the next.  The theorems
    compare the log of [_logto_login] with these. *)
Module flow.

Import alerting_config.

Section Flow.

Context {P : Platform}.

Variable base_url email password : string.

Definition redirect_uri : string := rstrip "/" base_url ++ "/login-redirect".
Definition backend_url : string := rstrip "/" base_url ++ "/backend/api".

(** Step 3, start authorization: [GET /oidc/auth] with the PKCE
    challenge of [verifier], redirects not followed. *)
Definition start_authorization (session : Session) (verifier state : string) : Request :=
  {| via := Some session; method := GET;
     url := VStr "https://qa.id.nethesis.it/oidc/auth";
     kwargs :=
       [Params [("client_id", _LOGTO_APP_ID);
                ("redirect_uri", redirect_uri);
                ("response_type", "code");
                ("scope", "openid profile email offline_access urn:logto:scope:organizations urn:logto:scope:organization_roles");
                ("state", state);
                ("code_challenge",
                 decode (base64url_nopad (sha256_digest (encode verifier))));
                ("code_challenge_method", "S256")];
        AllowRedirects false] |}.

(** Step 4, begin the sign-in interaction: [PUT /api/interaction]. *)
Definition begin_sign_in (session : Session) : Request :=
  {| via := Some session; method := PUT;
     url := VStr "https://qa.id.nethesis.it/api/interaction";
     kwargs := [Json (VDict [("event", VStr "SignIn")])] |}.

(** Step 5, submit credentials: [PATCH /api/interaction/identifiers]. *)
Definition submit_credentials (session : Session) : Request :=
  {| via := Some session; method := PATCH;
     url := VStr "https://qa.id.nethesis.it/api/interaction/identifiers";
     kwargs := [Json (VDict [("email", VStr email); ("password", VStr password)])] |}.

(** Step 6, submit the interaction: [POST /api/interaction/submit]. *)
Definition submit_interaction (session : Session) : Request :=
  {| via := Some session; method := POST;
     url := VStr "https://qa.id.nethesis.it/api/interaction/submit";
     kwargs := [] |}.

(** Steps 7 and 8, a redirect fetch: [GET target], redirects not followed. *)
Definition fetch (session : Session) (target : value) : Request :=
  {| via := Some session; method := GET; url := target;
     kwargs := [AllowRedirects false] |}.

(** Step 7, consent submission: [POST /api/interaction/consent]. *)
Definition submit_consent (session : Session) : Request :=
  {| via := Some session; method := POST;
     url := VStr "https://qa.id.nethesis.it/api/interaction/consent";
     kwargs := [] |}.

(** Step 9, exchange the code for the provider token: [POST /oidc/token],
    outside the session. *)
Definition token_request (code : value) (verifier : string) : Request :=
  {| via := None; method := POST;
     url := VStr "https://qa.id.nethesis.it/oidc/token";
     kwargs :=
       [Data [("grant_type", VStr "authorization_code");
              ("code", code);
              ("redirect_uri", VStr redirect_uri);
              ("client_id", VStr _LOGTO_APP_ID);
              ("code_verifier", VStr verifier)]] |}.

(** Step 10, exchange the provider token for the backend token:
    [POST <backend_url>/auth/exchange], outside the session. *)
Definition backend_exchange (access_token : value) : Request :=
  {| via := None; method := POST;
     url := VStr (backend_url ++ "/auth/exchange");
     kwargs := [Json (VDict [("access_token", access_token)]);
                Headers [("Content-Type", "application/json")]] |}.

(** The world in which the first call of a login begun in [w] is made:
    the session object exists and the verifier and the state are drawn. *)
Definition started (w : World) : World := drawn 16 (drawn 64 (session_made w)).

(** The first four calls, in order. *)
Definition sign_in_calls (w : World) : list Request :=
  [start_authorization (sessions w) (drawn_verifier w) (drawn_state w);
   begin_sign_in (sessions w);
   submit_credentials (sessions w);
   submit_interaction (sessions w)].

(** The [Location] header of a response, [""] when it has none. *)
Definition location (r : Response) : string :=
  headers_get (headers r) "Location" "".

(** The consent calls the interim redirect response [r5] asks for. *)
Definition consent_calls (w : World) (r5 : Response) : list Request :=
  if str_in "consent" (location r5)
  then [fetch (sessions w) (VStr ("https://qa.id.nethesis.it" ++ location r5));
        submit_consent (sessions w)]
  else [].

(** The run gets through sign-in: the first three calls are answered,
    the credentials are accepted, and the answer [r4] to the submit call
    is a JSON object with a usable [redirectTo]. *)
Definition signs_in (w : World) (redirect_to : value) : Prop :=
  exists r1 r2 r3 r4 body,
    net w 0%nat = Ok r1 /\ net w 1%nat = Ok r2
    /\ net w 2%nat = Ok r3 /\ status_code r3 <> 422 /\ ok r3 = true
    /\ net w 3%nat = Ok r4 /\ content_json r4 = Some (VDict body)
    /\ dict_get body "redirectTo" = Some redirect_to
    /\ truthy redirect_to = true.

(** The interim redirect is answered by [r5] and, when [r5] asks for
    consent, so are the two consent calls, the second with a JSON object.
    [target] is then the final redirect target and [k] the number of
    calls made before it is fetched. *)
Definition resolves_redirect
    (w : World) (redirect_to : value) (r5 : Response) (target : value) (k : nat) : Prop :=
  net w 4%nat = Ok r5
  /\ if str_in "consent" (location r5)
     then exists rc1 rc2 body,
            net w 5%nat = Ok rc1 /\ net w 6%nat = Ok rc2
            /\ content_json rc2 = Some (VDict body)
            /\ target = match dict_get body "redirectTo" with
                        | Some v => v
                        | None => VNone
                        end
            /\ k = 7%nat
     else target = redirect_to /\ k = 5%nat.

(** The parsed query of a [Location] has no parameter [name]. *)
Definition lacks_parameter (loc name : string) : Prop :=
  exists q, urlparse_query loc = Ok q /\ dict_get (parse_qs q) name = None.

(** The first value of parameter [name] in the parsed query of a
    [Location] is [c]. *)
Definition first_parameter (loc name c : string) : Prop :=
  exists q more,
    urlparse_query loc = Ok q /\ dict_get (parse_qs q) name = Some (c :: more).

(** One of the two calls that follow the final fetch: the token request,
    with the verifier drawn at the start of the run begun in [w], or the
    backend exchange. *)
Definition exchanges (w : World) (rq : Request) : Prop :=
  (exists code, rq = token_request code (drawn_verifier w))
  \/ (exists access_token, rq = backend_exchange access_token).

End Flow.

End flow.

(* ================================================================== *)
(** * Reading what the other commands send and print *)
(* ================================================================== *)

(** An exact-match matcher of a silence. *)
Definition matcher (name v : string) : value :=
  VDict [("name", VStr name); ("value", VStr v); ("isRegex", VBool false)].

(** [now + timedelta(minutes=n)]. *)
Definition minutes_later (now : datetime) (n : Z) : result datetime :=
  match timedelta_minutes n with
  | Ok delta => datetime_add now delta
  | Raise e => Raise e
  end.

(** The seconds, counted as [seconds_of] counts them, that fall in the
    years 1 to 9999. *)
Definition in_calendar (seconds : Z) : bool :=
  (86400 <=? seconds) && (seconds <? 86400 * (MAXORDINAL + 1)).

(** The call [silence] makes when it gets to make one: [now] is the
    reading of the clock and [ends_at] the end of the silence. *)
Definition silence_call (args : alert.SilenceNamespace) (now ends_at : datetime) : Request :=
  {| via := None; method := POST;
     url := VStr (rstrip "/" (alert.s_url args) ++ "/alertmanager/api/v2/silences");
     kwargs :=
       [Json (VDict [("matchers",
                      VList (matcher "alertname" (alert.s_alertname args)
                             :: map (fun kv => matcher (fst kv) (snd kv))
                                  (parsed_pairs (alert.s_labels args))));
                     ("startsAt", VStr (strftime alert.TIME_FORMAT now));
                     ("endsAt", VStr (strftime alert.TIME_FORMAT ends_at));
                     ("comment", VStr (alert.comment args));
                     ("createdBy", VStr (alert.created_by args))]);
        Auth (alert.s_key args) (alert.s_secret args);
        Headers [("Content-Type", "application/json"); ("Accept", "application/json")];
        Timeout 30] |}.

(** The call [list] makes. *)
Definition list_call (args : alert.ListNamespace) : Request :=
  {| via := None; method := GET;
     url := VStr (rstrip "/" (alert.l_url args) ++ "/alertmanager/api/v2/alerts");
     kwargs := [Auth (alert.l_key args) (alert.l_secret args);
                Headers [("Accept", "application/json")];
                Timeout 30] |}.

(** The alert [a] has an object [outer] whose [inner] is the string
    [wanted]. *)
Definition has_nested (outer inner wanted : string) (a : value) : bool :=
  match field a outer with
  | Some o =>
      match field o inner with
      | Some (VStr s) => String.eqb s wanted
      | _ => false
      end
  | None => false
  end.

(** The alert [a] passes an optional filter: one that was not given, or
    was given empty, lets every alert pass. *)
Definition passes (outer inner : string) (wanted : option string) (a : value) : bool :=
  match wanted with
  | Some s => if given wanted then has_nested outer inner s a else true
  | None => true
  end.

(** A JSON object whose [outer], when it has one, is an object. *)
Definition object_with (outer : string) (a : value) : bool :=
  match a with
  | VDict d =>
      match dict_get d outer with
      | Some (VDict _) | None => true
      | Some _ => false
      end
  | _ => false
  end.

(** An alert as Alertmanager lists it, as far as [list] looks at it. *)
Definition alert_shaped (a : value) : bool :=
  object_with "status" a && object_with "labels" a.

(** The parameter an optional argument gives, if any. *)
Definition optional (name : string) (arg : option string) : dict string :=
  match arg with
  | Some v => if given arg then [(name, v)] else []
  | None => []
  end.

(** A call to the backend API: made outside any session, with the token
    the login returned as bearer, and without [timeout=]. *)
Definition backend_call {R : Rendering} (m : Method) (base_url path : string)
    (jwt : value) (more_headers : dict string) (params : dict string)
    (body : list kwarg) : Request :=
  {| via := None; method := m;
     url := VStr ((rstrip "/" base_url ++ "/backend/api") ++ path);
     kwargs := Headers (("Authorization", "Bearer " ++ py_str jwt) :: more_headers)
               :: Params params :: body |}.

(** The line a refused backend call is reported with. *)
Definition backend_error (r : Response) (message : value) : line :=
  [Lit "Error ("; Fmt (VInt (status_code r)); Lit "): "; Fmt message].

(** A [--labels] or [--annotations] pair as it is written on the
    command line. *)
Definition written (kv : string * string) : string := fst kv ++ "=" ++ snd kv.

(** A run of [n] slashes. *)
Fixpoint slashes (n : nat) : string :=
  match n with
  | O => EmptyString
  | S k => String "/" (slashes k)
  end.

(** [m] takes the answers of the network in order, one for each call
    it logs, and lets a transport failure through: a call that was
    answered by an exception was its last, and the exception is its
    outcome. *)
Definition Propagates {A} (m : M A) : Prop :=
  forall w, exists new,
    sent (snd (m w)) = (sent w ++ new)%list
    /\ (forall k, net (snd (m w)) k = net w (List.length new + k)%nat)
    /\ (forall i e,
          (i < List.length new)%nat -> net w i = Raise e ->
          S i = List.length new /\ fst (m w) = Raise e).

(** In the world [w], a transport failure ends the run of [m]: when
    the answer to one of the calls of the run is an exception, that call
    is the last one and the run ends with that exception. *)
Definition failure_ends_run {A} (m : M A) (w : World) : Prop :=
  forall i e,
    (i < List.length (calls_of m w))%nat -> net w i = Raise e ->
    S i = List.length (calls_of m w) /\ fst (m w) = Raise e.

(** [m] makes no call. *)
Definition Silent {A} (m : M A) : Prop :=
  forall w, sent (snd (m w)) = sent w.

(** [m] makes at most [n] calls. *)
Definition Within (n : nat) {A} (m : M A) : Prop :=
  forall w, exists new,
    sent (snd (m w)) = (sent w ++ new)%list /\ (List.length new <= n)%nat.

(** [m] prints nothing on standard output, and on standard error
    either nothing or one line, after which it exits with status 1. *)
Definition Reports {A} (m : M A) : Prop :=
  forall w,
    stdout (snd (m w)) = stdout w
    /\ (stderr (snd (m w)) = stderr w
        \/ exists l, stderr (snd (m w)) = (stderr w ++ [l])%list
                     /\ fst (m w) = Raise (SystemExit 1)).

(** What [m] returns, when it returns, satisfies [Q]. *)
Definition Returns {A} (Q : A -> Prop) (m : M A) : Prop :=
  forall w a, fst (m w) = Ok a -> Q a.

(** The calls of [m] are first calls on the session [s], then at most
    [n] POSTs outside any session. *)
Definition Phased (s : Session) (n : nat) {A} (m : M A) : Prop :=
  forall w, exists on_session outside,
    sent (snd (m w)) = (sent w ++ on_session ++ outside)%list
    /\ Forall (fun rq => via rq = Some s) on_session
    /\ Forall (fun rq => via rq = None /\ method rq = POST) outside
    /\ (List.length outside <= n)%nat.

(* ================================================================== *)
(** * More worlds for concrete runs *)
(* ================================================================== *)

Module mock_silence.

(** [alert.py silence --alertname HighCPU --duration 120
    --labels host=server-01 alertname=Other host=server-02
    --comment "Maintenance window"]. *)
Definition maintenance : alert.SilenceNamespace :=
  {| alert.s_url := "https://my.nethesis.it/collect/api/services/mimir";
     alert.s_key := "NOC-XXXX-XXXX";
     alert.s_secret := "my_pub.secretpart";
     alert.s_alertname := "HighCPU";
     alert.s_labels := Some ["host=server-01"; "alertname=Other"; "host=server-02"]%list;
     alert.duration := 120;
     alert.comment := "Maintenance window";
     alert.created_by := "alert.py" |}.

(** The same for a given [--duration], without [--labels]. *)
Definition lasting (minutes : Z) : alert.SilenceNamespace :=
  {| alert.s_url := "https://my.nethesis.it/collect/api/services/mimir";
     alert.s_key := "NOC-XXXX-XXXX";
     alert.s_secret := "my_pub.secretpart";
     alert.s_alertname := "HighCPU";
     alert.s_labels := None;
     alert.duration := minutes;
     alert.comment := "Maintenance window";
     alert.created_by := "alert.py" |}.

Definition r_created : Response :=
  {| status_code := 200; text := "{silenceID: 4c1f0a3e}";
     content_json := Some (VDict [("silenceID", VStr "4c1f0a3e")]); headers := [] |}.

(** The silence is created and its identifier returned. *)
Definition world : World := mock.start [Ok r_created] mock.march_first.

End mock_silence.

Module mock_list.

(** A stand-in for the rendering functions.  Nothing proved below
    depends on what they return. *)
#[export] Instance rendering : Rendering := {
  str_of_object _ := "<object>";
  json_dumps_indent2 _ := "<json>" }.

Definition firing (name severity state : string) : value :=
  VDict [("labels", VDict [("alertname", VStr name); ("severity", VStr severity)]);
         ("status", VDict [("state", VStr state)])].

(** An alert that lacks [status], as a proxy might strip it. *)
Definition bare (name severity : string) : value :=
  VDict [("labels", VDict [("alertname", VStr name); ("severity", VStr severity)])].

Definition listed : list value :=
  [firing "HighCPU" "critical" "active";
   firing "DiskFull" "warning" "active";
   bare "Ping" "critical";
   firing "HighLoad" "critical" "suppressed";
   firing "NoBackup" "critical" "active"].

Definition r_listed : Response :=
  {| status_code := 200; text := "[...]"; content_json := Some (VList listed);
     headers := [] |}.

Definition world : World := mock.start [Ok r_listed] mock.march_first.

(** [alert.py list --state active --severity critical]. *)
Definition active_critical : alert.ListNamespace :=
  {| alert.l_url := "https://my.nethesis.it/collect/api/services/mimir";
     alert.l_key := "NOC-XXXX-XXXX";
     alert.l_secret := "my_pub.secretpart";
     alert.l_state := Some "active";
     alert.l_severity := Some "critical" |}.

(** [alert.py list]. *)
Definition everything : alert.ListNamespace :=
  {| alert.l_url := "https://my.nethesis.it/collect/api/services/mimir";
     alert.l_key := "NOC-XXXX-XXXX";
     alert.l_secret := "my_pub.secretpart";
     alert.l_state := None;
     alert.l_severity := None |}.

Definition r_null : Response :=
  {| status_code := 200; text := "null"; content_json := Some VNone; headers := [] |}.

(** The proxy answers [null]. *)
Definition world_null : World := mock.start [Ok r_null] mock.march_first.

Definition r_unauthorized : Response :=
  {| status_code := 401; text := "unauthorized"; content_json := None; headers := [] |}.

Definition world_unauthorized : World :=
  mock.start [Ok r_unauthorized] mock.march_first.

End mock_list.

Module mock_config.

Import mock_login.

(** The configuration file of the documentation, and two paths that do
    not lead to one. *)
Definition config_json : value :=
  VDict [("critical",
          VDict [("emails", VList [VStr "oncall@example.com"]);
                 ("exceptions", VList [VStr "NETH-XXXX-XXXX"])]);
         ("warning", VDict [("emails", VList [VStr "team@example.com"])])].

#[export] Instance files : Files := {
  json_load path :=
    if String.eqb path "config.json" then Loaded config_json
    else if String.eqb path "notes.txt"
         then Unreadable "Expecting value: line 1 column 1 (char 0)"
         else Unreadable "[Errno 2] No such file or directory" }.

Definition r_config : Response :=
  json_response 200 "{code: 200, data: {config: route: ...}}"
    (VDict [("code", VInt 200);
            ("data", VDict [("config", VStr "route:\n  receiver: blackhole\n")])]).

Definition r_bad_gateway : Response :=
  {| status_code := 502; text := "<html>Bad Gateway</html>"; content_json := None;
     headers := [] |}.

Definition r_forbidden : Response :=
  json_response 403 "{code: 403, message: access denied}"
    (VDict [("code", VInt 403); ("message", VStr "access denied")]).

Definition r_alerts : Response :=
  json_response 200 "{code: 200, data: {alerts: [...]}}"
    (VDict [("code", VInt 200);
            ("data", VDict [("alerts", VList mock_list.listed)])]).

(** A login without consent screen, then one answer of the backend. *)
Definition after_login (answer : Response) : World :=
  mock.start (map Ok [r_auth; r_put; r_patch; r_submit; r_callback; r_callback;
                      r_token; r_exchange; answer])
             mock.march_first.

(** [alerting_config.py ... --org veg2rx4p6lmo], for every subcommand;
    [config] is the file of [set] and [state] the filter of [alerts]. *)
Definition invocation (config : string) (state : option string)
    : alerting_config.Namespace :=
  {| alerting_config.arg_url := base_url;
     alerting_config.arg_email := email;
     alerting_config.arg_password := password;
     alerting_config.arg_org := Some "veg2rx4p6lmo";
     alerting_config.arg_config := config;
     alerting_config.arg_state := state;
     alerting_config.arg_severity := None;
     alerting_config.arg_system_key := None |}.

End mock_config.

Module mock_refusals.

Import mock_login.

Definition r_unavailable : Response :=
  {| status_code := 503; text := "Service Unavailable"; content_json := None;
     headers := [] |}.

(** The provider is down when the credentials are submitted. *)
Definition world_unavailable : World :=
  mock.start (map Ok [r_auth; r_put; r_unavailable]) mock.march_first.

Definition r_invalid_grant : Response :=
  json_response 400 "{error: invalid_grant}" (VDict [("error", VStr "invalid_grant")]).

(** The token endpoint refuses the authorization code. *)
Definition world_invalid_grant : World :=
  mock.start (map Ok [r_auth; r_put; r_patch; r_submit; r_callback; r_callback;
                      r_invalid_grant])
             mock.march_first.

Definition r_not_exchanged : Response :=
  json_response 401 "{code: 401, message: invalid token}"
    (VDict [("code", VInt 401); ("message", VStr "invalid token")]).

(** The backend refuses to exchange the provider's token. *)
Definition world_not_exchanged : World :=
  mock.start (map Ok [r_auth; r_put; r_patch; r_submit; r_callback; r_callback;
                      r_token; r_not_exchanged])
             mock.march_first.

(** The connection is lost after the credentials were accepted. *)
Definition world_cut_off : World :=
  mock.start [Ok r_auth; Ok r_put; Ok r_patch; Raise (RequestException "connection reset")]
             mock.march_first.

End mock_refusals.

(* ================================================================== *)
(** * Checks of the library models against known values *)
(* ================================================================== *)

Example b64encode_f : decode (b64encode (encode "f")) = "Zg==".
Proof. reflexivity. Qed.
Example b64encode_fo : decode (b64encode (encode "fo")) = "Zm8=".
Proof. reflexivity. Qed.
Example b64encode_foobar : decode (b64encode (encode "foobar")) = "Zm9vYmFy".
Proof. reflexivity. Qed.
Example urlsafe_b64encode_ff : decode (urlsafe_b64encode [xfb; xff; xfe]) = "-__-".
Proof. reflexivity. Qed.

Example ord2ymd_epoch : ord2ymd 719163 = (1970, 1, 1).
Proof. reflexivity. Qed.
Example ord2ymd_leap_day : ord2ymd (ymd2ord 2024 2 29) = (2024, 2, 29).
Proof. reflexivity. Qed.
Example ord2ymd_last : ord2ymd MAXORDINAL = (9999, 12, 31).
Proof. reflexivity. Qed.

Example strftime_iso :
  strftime "%Y-%m-%dT%H:%M:%SZ" (mk_datetime 2024 3 1 0 30 5 123456)
  = "2024-03-01T00:30:05Z".
Proof. reflexivity. Qed.

(** One hour before half past midnight on 1 March of a leap year. *)
Example datetime_sub_hour_leap :
  datetime_sub (mk_datetime 2024 3 1 0 30 5 123456) (timedelta_hours 1)
  = Ok (mk_datetime 2024 2 29 23 30 5 123456).
Proof. reflexivity. Qed.

Example datetime_sub_hour_new_year :
  datetime_sub (mk_datetime 2025 1 1 0 0 0 0) (timedelta_hours 1)
  = Ok (mk_datetime 2024 12 31 23 0 0 0).
Proof. reflexivity. Qed.

Example datetime_sub_hour_overflow :
  datetime_sub (mk_datetime 1 1 1 0 59 59 0) (timedelta_hours 1)
  = Raise OverflowError.
Proof. reflexivity. Qed.

(* ================================================================== *)
(** * Strings and dicts *)
(* ================================================================== *)

Lemma str_in_char (c a : ascii) (t : string) :
  str_in (String c EmptyString) (String a t)
  = if Ascii.eqb a c then true else str_in (String c EmptyString) t.
Proof.
  cbn [str_in String.prefix].
  destruct (ascii_dec c a) as [->|Hne].
  - rewrite Ascii.eqb_refl. now destruct t.
  - destruct (Ascii.eqb_spec a c); [congruence|reflexivity].
Qed.

Lemma split1_two (c : ascii) (s : string) :
  str_in (String c EmptyString) s = true ->
  exists k v, split1 c s = [k; v].
Proof.
  induction s as [|a t IH].
  - discriminate.
  - rewrite str_in_char. cbn [split1].
    destruct (Ascii.eqb a c); [eauto|].
    intros H. destruct (IH H) as (k & v & ->). eauto.
Qed.

Lemma dict_get_set_eq {A} (d : dict A) k v :
  dict_get (dict_set d k v) k = Some v.
Proof.
  induction d as [|[k' v'] t IH]; simpl.
  - now rewrite String.eqb_refl.
  - destruct (String.eqb_spec k' k) as [->|Hne]; simpl.
    + now rewrite String.eqb_refl.
    + destruct (String.eqb_spec k' k); [congruence|exact IH].
Qed.

Lemma dict_get_set_ne {A} (d : dict A) k k' v :
  k <> k' -> dict_get (dict_set d k v) k' = dict_get d k'.
Proof.
  intros Hne. induction d as [|[k0 v0] t IH]; simpl.
  - destruct (String.eqb_spec k k'); [congruence|reflexivity].
  - destruct (String.eqb_spec k0 k) as [->|Hk]; simpl.
    + destruct (String.eqb_spec k k'); [congruence|reflexivity].
    + destruct (String.eqb_spec k0 k'); [reflexivity|exact IH].
Qed.

(** [d.update(e)] read key by key: the last binding of [e] for the key
    wins, and a key [e] does not bind keeps the value it had in [d]. *)
Lemma dict_get_update {A} (e d : dict A) k :
  dict_get (dict_update d e) k
  = match dict_last e k with
    | Some v => Some v
    | None => dict_get d k
    end.
Proof.
  unfold dict_update. revert d.
  induction e as [|[k1 v1] e IH]; intros d; cbn [fold_left dict_last fst snd].
  - reflexivity.
  - rewrite IH. destruct (dict_last e k); [reflexivity|].
    destruct (String.eqb_spec k1 k) as [->|Hne].
    + apply dict_get_set_eq.
    + now apply dict_get_set_ne.
Qed.

Lemma dict_get_not_in {A} (d : dict A) k :
  ~ In k (dict_keys d) -> dict_get d k = None.
Proof.
  induction d as [|[k' v'] t IH]; simpl; intros H; [reflexivity|].
  destruct (String.eqb_spec k' k) as [->|Hne]; [tauto|].
  apply IH. tauto.
Qed.

Lemma in_keys_set {A} (d : dict A) k v x :
  In x (dict_keys (dict_set d k v)) <-> x = k \/ In x (dict_keys d).
Proof.
  induction d as [|[k' v'] t IH]; simpl.
  - intuition congruence.
  - destruct (String.eqb_spec k' k) as [->|Hne]; simpl.
    + intuition congruence.
    + rewrite IH. intuition congruence.
Qed.

(** Assignment keeps the keys of a dict distinct. *)
Lemma dict_set_NoDup {A} (d : dict A) k v :
  NoDup (dict_keys d) -> NoDup (dict_keys (dict_set d k v)).
Proof.
  induction d as [|[k' v'] t IH]; simpl; intros H.
  - constructor; [intros []|constructor].
  - inversion H as [|? ? Hnin Hnd]; subst.
    destruct (String.eqb_spec k' k) as [->|Hne]; simpl.
    + constructor; assumption.
    + constructor; [|now apply IH].
      change (~ In k' (dict_keys (dict_set t k v))).
      rewrite in_keys_set. intuition congruence.
Qed.

Lemma dict_update_NoDup {A} (e d : dict A) :
  NoDup (dict_keys d) -> NoDup (dict_keys (dict_update d e)).
Proof.
  unfold dict_update. revert d.
  induction e as [|[k v] e IH]; intros d H; simpl; [exact H|].
  apply IH. now apply dict_set_NoDup.
Qed.

(** In a dict, whose keys are distinct, the last binding of a key is its
    only one. *)
Lemma dict_last_get {A} (d : dict A) k :
  NoDup (dict_keys d) -> dict_last d k = dict_get d k.
Proof.
  induction d as [|[k' v'] t IH]; simpl; intros H; [reflexivity|].
  inversion H as [|? ? Hnin Hnd]; subst.
  rewrite (IH Hnd).
  destruct (String.eqb_spec k' k) as [->|Hne].
  - now rewrite (dict_get_not_in t k Hnin).
  - now destruct (dict_get t k).
Qed.

(* ================================================================== *)
(** * The call log *)
(* ================================================================== *)

(** Reduce the projections of a world that a step has just rebuilt. *)
Ltac world :=
  cbn [net rng clock sessions sent stdout stderr fst snd
       printed complained called session_made drawn ticked].

Lemma skipn_length_app {A} (l l' : list A) :
  skipn (List.length l) (l ++ l')%list = l'.
Proof. induction l; simpl; auto. Qed.

Lemma calls_of_app {A} (m : M A) (w : World) (new : list Request) :
  sent (snd (m w)) = (sent w ++ new)%list -> calls_of m w = new.
Proof. unfold calls_of. intros ->. apply skipn_length_app. Qed.

Lemma calls_of_same {A} (m : M A) (w : World) :
  sent (snd (m w)) = sent w -> calls_of m w = [].
Proof.
  intros H. apply calls_of_app. now rewrite app_nil_r.
Qed.

(* ================================================================== *)
(** * The calendar *)
(* ================================================================== *)

Lemma all_upto_spec (p : Z -> bool) (count : nat) (n : Z) :
  all_upto p count n = true ->
  forall i, n <= i < n + Z.of_nat count -> p i = true.
Proof.
  revert n. induction count as [|c IH]; intros n H i Hi; [lia|].
  cbn [all_upto] in H. apply andb_prop in H as [Hn Hrest].
  destruct (Z.eq_dec i n) as [->|Hne]; [exact Hn|].
  apply (IH (n + 1) Hrest). lia.
Qed.

(** [ord2ymd] with its year digits named and its last part as [month_day]. *)
Lemma ord2ymd_month_day (n : Z) :
  ord2ymd n
  = let a := (n - 1) / DI400Y in
    let r1 := (n - 1) mod DI400Y in
    let b := r1 / DI100Y in
    let r2 := r1 mod DI100Y in
    let c := r2 / DI4Y in
    let r3 := r2 mod DI4Y in
    let d := r3 / 365 in
    let r4 := r3 mod 365 in
    let y := a * 400 + 1 + b * 100 + c * 4 + d in
    if (d =? 4) || (b =? 4) then (y - 1, 12, 31)
    else let '(m, dd) := month_day ((d =? 3) && (negb (c =? 24) || (b =? 3))) r4 in
         (y, m, dd).
Proof.
  unfold ord2ymd, month_day. cbv zeta.
  destruct ((_ =? 4) || (_ =? 4)); [reflexivity|].
  destruct (_ <? _); reflexivity.
Qed.

(** The days of a common year and of a leap year, checked one by one. *)
Lemma month_days_ok :
  all_upto (month_day_ok false) 365 0 && all_upto (month_day_ok true) 366 0 = true.
Proof. vm_compute. reflexivity. Qed.

Lemma month_day_spec (leapyear : bool) (y n : Z) :
  is_leap y = leapyear ->
  0 <= n < 365 + (if leapyear then 1 else 0) ->
  let '(m, d) := month_day leapyear n in
  1 <= m <= 12 /\ 1 <= d <= days_in_month y m /\ days_before_month y m + d = n + 1.
Proof.
  intros Hleap Hn.
  pose proof month_days_ok as H. apply andb_prop in H as [H0 H1].
  assert (Hok : month_day_ok leapyear n = true).
  { destruct leapyear.
    - apply (all_upto_spec _ _ _ H1). change (0 <= n < 0 + 366). lia.
    - apply (all_upto_spec _ _ _ H0). change (0 <= n < 0 + 365). lia. }
  unfold month_day_ok in Hok.
  destruct (month_day leapyear n) as [m d].
  rewrite !andb_true_iff in Hok.
  destruct Hok as ((((Hm1 & Hm12) & Hd1) & Hdim) & Hdoy).
  apply Z.leb_le in Hm1, Hm12, Hd1, Hdim. apply Z.eqb_eq in Hdoy.
  assert (E1 : days_in_month y m = days_in_month (if leapyear then 4 else 1) m).
  { unfold days_in_month. rewrite Hleap. now destruct leapyear. }
  assert (E2 : days_before_month y m = days_before_month (if leapyear then 4 else 1) m).
  { unfold days_before_month. rewrite Hleap. now destruct leapyear. }
  rewrite E1, E2. lia.
Qed.

(** A year written in the digits of the 400-, 100-, 4- and 1-year cycles. *)
Lemma days_before_year_digits (a b c k : Z) :
  0 <= b <= 3 -> 0 <= c <= 24 -> 0 <= k <= 3 ->
  days_before_year (a * 400 + 1 + b * 100 + c * 4 + k)
  = 146097 * a + 36524 * b + 1461 * c + 365 * k.
Proof.
  intros Hb Hc Hk. unfold days_before_year. cbv zeta.
  set (y1 := a * 400 + 1 + b * 100 + c * 4 + k - 1).
  assert (E4 : y1 / 4 = 100 * a + 25 * b + c).
  { symmetry. apply (Z.div_unique y1 4 _ k); subst y1; lia. }
  assert (E100 : y1 / 100 = 4 * a + b).
  { symmetry. apply (Z.div_unique y1 100 _ (4 * c + k)); subst y1; lia. }
  assert (E400 : y1 / 400 = a).
  { symmetry. apply (Z.div_unique y1 400 _ (100 * b + 4 * c + k)); subst y1; lia. }
  rewrite E4, E100, E400. subst y1. lia.
Qed.

Lemma is_leap_digits (a b c k : Z) :
  0 <= b <= 3 -> 0 <= c <= 24 -> 0 <= k <= 3 ->
  is_leap (a * 400 + 1 + b * 100 + c * 4 + k)
  = (k =? 3) && (negb (c =? 24) || (b =? 3)).
Proof.
  intros Hb Hc Hk. unfold is_leap.
  set (y := a * 400 + 1 + b * 100 + c * 4 + k).
  assert (E4 : y mod 4 = (k + 1) mod 4).
  { replace y with (k + 1 + (100 * a + 25 * b + c) * 4) by (subst y; ring).
    apply Z.mod_add. discriminate. }
  assert (E100 : y mod 100 = (4 * c + k + 1) mod 100).
  { replace y with (4 * c + k + 1 + (4 * a + b) * 100) by (subst y; ring).
    apply Z.mod_add. discriminate. }
  assert (E400 : y mod 400 = (100 * b + 4 * c + k + 1) mod 400).
  { replace y with (100 * b + 4 * c + k + 1 + a * 400) by (subst y; ring).
    apply Z.mod_add. discriminate. }
  rewrite E4, E100, E400.
  destruct (Z.eqb_spec k 3) as [->|Hk3].
  - change ((3 + 1) mod 4 =? 0) with true. cbn [andb].
    destruct (Z.eqb_spec c 24) as [->|Hc24].
    + change ((4 * 24 + 3 + 1) mod 100 =? 0) with true. cbn [negb orb].
      destruct (Z.eqb_spec b 3) as [->|Hb3]; [reflexivity|].
      rewrite Z.mod_small by lia.
      destruct (Z.eqb_spec (100 * b + 4 * 24 + 3 + 1) 0); [lia|reflexivity].
    + rewrite (Z.mod_small (4 * c + 3 + 1)) by lia.
      destruct (Z.eqb_spec (4 * c + 3 + 1) 0); [lia|reflexivity].
  - assert (H : (k + 1) mod 4 <> 0) by (rewrite Z.mod_small; lia).
    destruct (Z.eqb_spec ((k + 1) mod 4) 0); [contradiction|reflexivity].
Qed.

(** The last day of a year. *)
Lemma ymd2ord_dec31 (y : Z) :
  ymd2ord y 12 31 = days_before_year y + 365 + (if is_leap y then 1 else 0).
Proof.
  unfold ymd2ord, days_before_month.
  change (nth (Z.to_nat 12) DAYS_BEFORE_MONTH 0) with 334.
  change (2 <? 12) with true.
  destruct (is_leap y); cbn [andb]; lia.
Qed.

Lemma days_in_december (y : Z) : days_in_month y 12 = 31.
Proof. unfold days_in_month. destruct (is_leap y); reflexivity. Qed.

(** Every ordinal in range is the ordinal of its own date, and that
    date is a date of the calendar. *)
Lemma ord2ymd_ymd2ord (n : Z) :
  1 <= n <= MAXORDINAL ->
  let '(y, m, d) := ord2ymd n in
  ymd2ord y m d = n
  /\ 1 <= y <= 9999 /\ 1 <= m <= 12 /\ 1 <= d <= days_in_month y m.
Proof.
  intros Hn. rewrite ord2ymd_month_day. cbv zeta.
  unfold DI400Y, DI100Y, DI4Y, MAXORDINAL in *.
  pose proof (Z.div_mod (n - 1) 146097 ltac:(discriminate)) as E1.
  pose proof (Z.mod_pos_bound (n - 1) 146097 ltac:(reflexivity)) as B1.
  revert E1 B1. generalize ((n - 1) / 146097) ((n - 1) mod 146097).
  intros a r1 E1 B1.
  pose proof (Z.div_mod r1 36524 ltac:(discriminate)) as E2.
  pose proof (Z.mod_pos_bound r1 36524 ltac:(reflexivity)) as B2.
  revert E2 B2. generalize (r1 / 36524) (r1 mod 36524).
  intros b r2 E2 B2.
  pose proof (Z.div_mod r2 1461 ltac:(discriminate)) as E3.
  pose proof (Z.mod_pos_bound r2 1461 ltac:(reflexivity)) as B3.
  revert E3 B3. generalize (r2 / 1461) (r2 mod 1461).
  intros c r3 E3 B3.
  pose proof (Z.div_mod r3 365 ltac:(discriminate)) as E4.
  pose proof (Z.mod_pos_bound r3 365 ltac:(reflexivity)) as B4.
  revert E4 B4. generalize (r3 / 365) (r3 mod 365).
  intros d r4 E4 B4.
  assert (Ha : 0 <= a) by lia.
  assert (Hb : 0 <= b <= 4) by lia.
  assert (Hc : 0 <= c <= 24) by lia.
  assert (Hd : 0 <= d <= 4) by lia.
  destruct (Z.eqb_spec d 4) as [Hd4|Hd4]; cbn [orb].
  - (* the last day of a leap year that ends a four-year cycle *)
    assert (Hb3 : 0 <= b <= 3) by lia.
    assert (Hc23 : 0 <= c <= 23) by lia.
    replace (a * 400 + 1 + b * 100 + c * 4 + d - 1)
      with (a * 400 + 1 + b * 100 + c * 4 + 3) by lia.
    rewrite ymd2ord_dec31, days_in_december.
    rewrite days_before_year_digits, is_leap_digits by lia.
    destruct (Z.eqb_spec c 24); [lia|].
    change (3 =? 3) with true. cbn [andb orb negb]. lia.
  - destruct (Z.eqb_spec b 4) as [Hb4|Hb4].
    + (* the last day of a 400-year cycle *)
      replace (a * 400 + 1 + b * 100 + c * 4 + d - 1)
        with (a * 400 + 1 + 3 * 100 + 24 * 4 + 3) by lia.
      rewrite ymd2ord_dec31, days_in_december.
      rewrite days_before_year_digits, is_leap_digits by lia.
      change (3 =? 3) with true. change (24 =? 24) with true.
      cbn [andb orb negb]. lia.
    + assert (Hb3 : 0 <= b <= 3) by lia.
      assert (Hd3 : 0 <= d <= 3) by lia.
      pose proof (is_leap_digits a b c d Hb3 Hc Hd3) as Hleap.
      pose proof (month_day_spec _ _ r4 Hleap) as Hmd.
      destruct (month_day _ r4) as [m dd].
      destruct Hmd as (Hm & Hdd & Hdoy).
      { destruct ((d =? 3) && (negb (c =? 24) || (b =? 3))); lia. }
      unfold ymd2ord. rewrite days_before_year_digits by lia.
      repeat split; try lia.
Qed.

Lemma days_before_next_year (y : Z) :
  days_before_year (y + 1) = days_before_year y + 365 + (if is_leap y then 1 else 0).
Proof.
  unfold days_before_year, is_leap. cbv zeta.
  replace (y + 1 - 1) with y by lia.
  destruct (Z.eqb_spec (y mod 4) 0), (Z.eqb_spec (y mod 100) 0), (Z.eqb_spec (y mod 400) 0);
    cbn [negb andb orb]; Z.div_mod_to_equations; lia.
Qed.

Lemma days_before_year_range (y : Z) :
  1 <= y <= 9999 -> 0 <= days_before_year y /\ days_before_year (y + 1) <= MAXORDINAL.
Proof.
  unfold days_before_year, MAXORDINAL. cbv zeta. intros H.
  replace (y + 1 - 1) with y by lia. Z.div_mod_to_equations; lia.
Qed.

(** Look up the month tables at a known month. *)
Ltac month_tables :=
  repeat match goal with
         | |- context [nth ?n ?l ?d] =>
             let v := eval vm_compute in (nth n l d) in change (nth n l d) with v
         | H : context [nth ?n ?l ?d] |- _ =>
             let v := eval vm_compute in (nth n l d) in change (nth n l d) with v in H
         | |- context [Z.ltb ?a ?b] =>
             let v := eval vm_compute in (Z.ltb a b) in change (Z.ltb a b) with v
         | |- context [Z.eqb ?a ?b] =>
             let v := eval vm_compute in (Z.eqb a b) in change (Z.eqb a b) with v
         | H : context [Z.eqb ?a ?b] |- _ =>
             let v := eval vm_compute in (Z.eqb a b) in change (Z.eqb a b) with v in H
         end;
  cbn [andb] in *.

Lemma day_of_year_range (y m d : Z) :
  1 <= m <= 12 -> 1 <= d <= days_in_month y m ->
  1 <= days_before_month y m + d <= 365 + (if is_leap y then 1 else 0).
Proof.
  intros Hm Hd. unfold days_before_month, days_in_month in *.
  assert (C : m = 1 \/ m = 2 \/ m = 3 \/ m = 4 \/ m = 5 \/ m = 6 \/ m = 7 \/ m = 8
              \/ m = 9 \/ m = 10 \/ m = 11 \/ m = 12) by lia.
  destruct (is_leap y);
    repeat (destruct C as [->|C]; [month_tables; lia|]); subst; month_tables; lia.
Qed.

Lemma toordinal_range (t : datetime) :
  valid_datetime t -> 1 <= toordinal t <= MAXORDINAL.
Proof.
  intros (Hy & Hm & Hd & _). unfold toordinal, ymd2ord.
  pose proof (day_of_year_range _ _ _ Hm Hd) as Hdoy.
  pose proof (days_before_year_range _ Hy) as [Hlo Hhi].
  rewrite days_before_next_year in Hhi. lia.
Qed.

Lemma timedelta_neg_hour :
  timedelta_neg (timedelta_hours 1)
  = {| td_days := -1; td_seconds := 82800; td_microseconds := 0 |}.
Proof. reflexivity. Qed.

(** Subtracting [timedelta(hours=1)] from a well-formed time gives, when
    it gives a time at all, the well-formed time 3600 seconds earlier. *)
Lemma datetime_sub_hour_exact (t t' : datetime) :
  valid_datetime t ->
  datetime_sub t (timedelta_hours 1) = Ok t' ->
  valid_datetime t'
  /\ seconds_of t' = seconds_of t - 3600
  /\ microsecond t' = microsecond t.
Proof.
  intros (Hy & Hm & Hd & Hh & Hmi & Hs & Hus).
  unfold datetime_sub. rewrite timedelta_neg_hour.
  unfold datetime_add, timedelta_add, timedelta_norm.
  cbn [td_days td_seconds td_microseconds].
  set (secs := hour t * 3600 + minute t * 60 + second t).
  assert (Hsecs : 0 <= secs < 86400) by (subst secs; lia).
  rewrite (Z.div_small (microsecond t) 1000000) by lia.
  rewrite (Z.mod_small (microsecond t) 1000000) by lia.
  rewrite Z.add_0_r.
  rewrite (Z.div_small secs 86400), (Z.mod_small secs 86400) by lia.
  rewrite !Z.add_0_r.
  rewrite (Z.div_small (microsecond t) 1000000) by lia.
  rewrite (Z.mod_small (microsecond t) 1000000) by lia.
  rewrite Z.add_0_r.
  set (total := secs + 82800).
  set (days := toordinal t + -1 + total / 86400).
  destruct ((0 <? days) && (days <=? MAXORDINAL)) eqn:Hrange; [|discriminate].
  apply andb_prop in Hrange as [Hlo Hhi].
  apply Z.ltb_lt in Hlo. apply Z.leb_le in Hhi.
  pose proof (ord2ymd_ymd2ord days) as Hrt.
  destruct (ord2ymd days) as [[y m] d].
  destruct Hrt as (Hord & Hy' & Hm' & Hd'); [lia|].
  intros [= <-].
  assert (Hrem : 0 <= total mod 86400 < 86400) by (apply Z.mod_pos_bound; lia).
  set (rem := total mod 86400) in *.
  assert (H3600 : rem = 3600 * (rem / 3600) + rem mod 3600) by (apply Z.div_mod; lia).
  assert (H60 : rem mod 3600 = 60 * (rem mod 3600 / 60) + (rem mod 3600) mod 60)
    by (apply Z.div_mod; lia).
  assert (Hb1 : 0 <= rem mod 3600 < 3600) by (apply Z.mod_pos_bound; lia).
  assert (Hb2 : 0 <= (rem mod 3600) mod 60 < 60) by (apply Z.mod_pos_bound; lia).
  assert (Htot : total = 86400 * (total / 86400) + rem) by (apply Z.div_mod; lia).
  unfold valid_datetime, seconds_of, toordinal.
  cbn [year month day hour minute second microsecond].
  rewrite Hord.
  assert (Hh1 : 0 <= rem / 3600 < 24).
  { split; [apply Z.div_pos; lia|apply Z.div_lt_upper_bound; lia]. }
  assert (Hm1 : 0 <= rem mod 3600 / 60 < 60).
  { split; [apply Z.div_pos; lia|apply Z.div_lt_upper_bound; lia]. }
  repeat split; try lia.
  subst days. unfold toordinal. lia.
Qed.

(** From one hour into year 1 on, the subtraction gives a time. *)
Lemma datetime_sub_hour_defined (t : datetime) :
  valid_datetime t ->
  86400 + 3600 <= seconds_of t ->
  exists t', datetime_sub t (timedelta_hours 1) = Ok t'.
Proof.
  intros Hv Hafter.
  pose proof (toordinal_range t Hv) as Hord.
  destruct Hv as (Hy & Hm & Hd & Hh & Hmi & Hs & Hus).
  unfold seconds_of in Hafter.
  unfold datetime_sub. rewrite timedelta_neg_hour.
  unfold datetime_add, timedelta_add, timedelta_norm.
  cbn [td_days td_seconds td_microseconds].
  set (secs := hour t * 3600 + minute t * 60 + second t) in *.
  assert (Hsecs : 0 <= secs < 86400) by (subst secs; lia).
  rewrite (Z.div_small (microsecond t) 1000000) by lia.
  rewrite (Z.mod_small (microsecond t) 1000000) by lia.
  rewrite Z.add_0_r.
  rewrite (Z.div_small secs 86400), (Z.mod_small secs 86400) by lia.
  rewrite !Z.add_0_r.
  rewrite (Z.div_small (microsecond t) 1000000) by lia.
  rewrite Z.add_0_r.
  set (total := secs + 82800).
  assert (Hq : (if 3600 <=? secs then 1 else 0) = total / 86400).
  { destruct (Z.leb_spec 3600 secs).
    - apply (Z.div_unique total 86400 1 (total - 86400)); subst total; lia.
    - symmetry. apply Z.div_small. subst total. lia. }
  rewrite <- Hq.
  assert (G : (0 <? toordinal t + -1 + (if 3600 <=? secs then 1 else 0))
              && (toordinal t + -1 + (if 3600 <=? secs then 1 else 0) <=? MAXORDINAL)
              = true).
  { apply andb_true_intro. split; [apply Z.ltb_lt|apply Z.leb_le];
      destruct (Z.leb_spec 3600 secs); lia. }
  rewrite G.
  destruct (ord2ymd _) as [[y m] d]. eauto.
Qed.

Lemma digit_value_digit (n : Z) : digit_value (digit n) = n mod 10.
Proof.
  unfold digit_value, digit.
  assert (H : 0 <= n mod 10 < 10) by (apply Z.mod_pos_bound; lia).
  rewrite N_ascii_embedding by lia. lia.
Qed.

Lemma read_digits_4 (n : Z) :
  0 <= n <= 9999 ->
  read_digits [digit (n / 1000); digit (n / 100); digit (n / 10); digit n] = n.
Proof.
  intros H. unfold read_digits. cbn [fold_left]. rewrite !digit_value_digit.
  Z.div_mod_to_equations. lia.
Qed.

Lemma read_digits_2 (n : Z) :
  0 <= n <= 99 -> read_digits [digit (n / 10); digit n] = n.
Proof.
  intros H. unfold read_digits. cbn [fold_left]. rewrite !digit_value_digit.
  Z.div_mod_to_equations. lia.
Qed.

(* ================================================================== *)
(** * [alert.py]: [parse_kv] *)
(* ================================================================== *)

Lemma parse_kv_loop_ok (pairs : list string) (result : dict string) (w : World) :
  forallb (str_in "=") pairs = true ->
  alert.parse_kv_loop pairs result w
  = (Ok (dict_update result (map split_pair pairs)), w).
Proof.
  revert result. induction pairs as [|kv rest IH]; intros result H.
  - reflexivity.
  - cbn [forallb] in H. apply andb_prop in H as [Hkv Hrest].
    cbn [alert.parse_kv_loop map]. unfold bind at 1. rewrite Hkv. cbn [negb when ret].
    destruct (split1_two "=" kv Hkv) as (k & v & E).
    unfold dict_update. cbn [fold_left]. unfold split_pair. rewrite E.
    cbn [fst snd]. apply IH, Hrest.
Qed.

(** A pair without ['='] stops the script before anything else happens:
    one line on standard error, exit status 1, the rest of the world as
    it was. *)
Lemma parse_kv_loop_bad (pairs : list string) (result : dict string) (w : World) :
  forallb (str_in "=") pairs = false ->
  exists bad w',
    alert.parse_kv_loop pairs result w = (Raise (SystemExit 1), w')
    /\ In bad pairs /\ str_in "=" bad = false
    /\ sent w' = sent w
    /\ stdout w' = stdout w
    /\ stderr w' = (stderr w ++ [[Lit "Error: invalid key=value pair: "; Fmt (VStr bad)]])%list.
Proof.
  revert result. induction pairs as [|kv rest IH]; intros result H.
  - discriminate.
  - cbn [forallb] in H. cbn [alert.parse_kv_loop]. unfold bind at 1.
    destruct (str_in "=" kv) eqn:Hkv.
    + cbn [andb] in H. cbn [negb when ret].
      destruct (split1_two "=" kv Hkv) as (k & v & ->).
      destruct (IH (dict_set result k v) H) as (bad & w' & E & Hin & Hbad & Hs).
      exists bad, w'. rewrite E. repeat split; try tauto. now right.
    + exists kv. eexists. cbn. repeat split; auto.
Qed.

Lemma parse_kv_ok pairs w :
  well_formed_pairs pairs = true ->
  alert.parse_kv pairs w = (Ok (parsed_pairs pairs), w).
Proof. intros H. apply parse_kv_loop_ok, H. Qed.

Lemma parse_kv_bad pairs w :
  well_formed_pairs pairs = false ->
  exists w', alert.parse_kv pairs w = (Raise (SystemExit 1), w')
             /\ sent w' = sent w.
Proof.
  intros H. destruct (parse_kv_loop_bad _ [] w H) as (bad & w' & E & _ & _ & Hs & _).
  exists w'. split; [exact E|exact Hs].
Qed.

(* ================================================================== *)
(** * [alert.py]: what [push] and [resolve] post *)
(* ================================================================== *)

Lemma is_digit_digit (n : Z) : is_digit (digit n) = true.
Proof.
  unfold is_digit, digit.
  assert (H : 0 <= n mod 10 < 10) by (apply Z.mod_pos_bound; lia).
  rewrite N_ascii_embedding by lia.
  apply andb_true_intro. split; apply N.leb_le; lia.
Qed.

(** From the year 1000 on, a year is printed on four digits. *)
Lemma year_digits_pad4 (n : Z) : 1000 <= n -> year_digits n = pad4 n.
Proof.
  intros H. unfold year_digits.
  destruct (Z.ltb_spec n 10); [lia|].
  destruct (Z.ltb_spec n 100); [lia|].
  destruct (Z.ltb_spec n 1000); [lia|reflexivity].
Qed.

(** The script's time format prints the shape [YYYY-MM-DDTHH:MM:SSZ],
    twenty characters, from the year 1000 on, and never before: the
    string of an earlier year is shorter. *)
Lemma strftime_iso_shape (t : datetime) :
  iso_shape (strftime alert.TIME_FORMAT t) = (1000 <=? year t).
Proof.
  destruct (Z.leb_spec 1000 (year t)) as [H|H].
  - unfold iso_shape. cbn -[year_digits]. rewrite year_digits_pad4 by exact H.
    cbn. rewrite !is_digit_digit. reflexivity.
  - unfold iso_shape. cbn -[year_digits]. unfold year_digits.
    destruct (year t <? 10); [reflexivity|].
    destruct (year t <? 100); [reflexivity|].
    destruct (Z.ltb_spec (year t) 1000); [reflexivity|lia].
Qed.

(** Read back, the string printed from the year 1000 on denotes the
    time it was printed from, cut to the second; the string of an
    earlier year is not read back at all. *)
Lemma read_strftime (t : datetime) :
  valid_datetime t ->
  read_iso (strftime alert.TIME_FORMAT t)
  = if 1000 <=? year t then Some (to_the_second t) else None.
Proof.
  intros (Hy & Hm & Hd & Hh & Hmi & Hs & _).
  unfold read_iso. rewrite strftime_iso_shape.
  destruct (Z.leb_spec 1000 (year t)) as [Hk|Hk]; [|reflexivity].
  assert (Hd' : 1 <= day t <= 31).
  { split; [lia|]. unfold days_in_month in Hd.
    assert (C : month t = 1 \/ month t = 2 \/ month t = 3 \/ month t = 4
                \/ month t = 5 \/ month t = 6 \/ month t = 7 \/ month t = 8
                \/ month t = 9 \/ month t = 10 \/ month t = 11 \/ month t = 12) by lia.
    destruct (is_leap (year t));
      repeat (destruct C as [C|C]; [rewrite C in Hd; month_tables; lia|]);
      rewrite C in Hd; month_tables; lia. }
  cbn -[digit read_digits Z.div year_digits].
  rewrite year_digits_pad4 by exact Hk.
  cbn -[digit read_digits Z.div].
  rewrite read_digits_4 by lia. rewrite !read_digits_2 by lia.
  reflexivity.
Qed.

Section PushResolve.

Variable args : alert.Namespace.
Variable w : World.

Let labels0 : dict string :=
  [("alertname", alert.alertname args);
   ("severity", alert.severity args);
   ("system_key", alert.key args)].

Let alerts_url : value :=
  VStr (rstrip "/" (alert.arg_url args) ++ "/alertmanager/api/v2/alerts").

Let call_kwargs (alert : value) : list kwarg :=
  [Json (VList [alert]);
   Auth (alert.key args) (alert.secret args);
   Headers [("Accept", "application/json")];
   Timeout 30].

(** With well-formed pairs, [push] makes exactly one call. *)
Lemma push_alert_calls :
  well_formed_pairs (alert.labels args) = true ->
  well_formed_pairs (alert.annotations args) = true ->
  calls_of (alert.push_alert args) w =
  [ {| via := None; method := POST; url := alerts_url;
       kwargs := call_kwargs
         (VDict [("labels",
                  str_dict (dict_update labels0 (parsed_pairs (alert.labels args))));
                 ("annotations", str_dict (parsed_pairs (alert.annotations args)));
                 ("generatorURL", VStr ("http://" ++ alert.key args ++ "/alert"));
                 ("startsAt", VStr (strftime alert.TIME_FORMAT (clock w 0%nat)));
                 ("endsAt", VStr "0001-01-01T00:00:00Z")]) |} ].
Proof.
  intros Hl Ha. apply calls_of_app.
  unfold alert.push_alert.
  unfold bind at 1. rewrite (parse_kv_ok _ _ Hl).
  unfold bind at 1. rewrite (parse_kv_ok _ _ Ha).
  unfold bind at 1. cbn [datetime_now_utc].
  unfold bind at 1. cbn [requests_post http]. world.
  destruct (net w 0%nat) as [resp|e]; [|reflexivity].
  destruct (ok resp); [reflexivity|].
  unfold bind, print_stderr, sys_exit, raise. reflexivity.
Qed.

(** With a malformed pair, [push] exits with status 1 and calls nothing. *)
Lemma push_alert_rejects :
  well_formed_pairs (alert.labels args) && well_formed_pairs (alert.annotations args) = false ->
  calls_of (alert.push_alert args) w = []
  /\ fst (alert.push_alert args w) = Raise (SystemExit 1).
Proof.
  intros H. unfold alert.push_alert.
  destruct (well_formed_pairs (alert.labels args)) eqn:Hl.
  - cbn [andb] in H.
    destruct (parse_kv_bad _ w H) as (w' & E & Hs).
    split; [apply calls_of_same|];
      unfold bind at 1; rewrite (parse_kv_ok _ _ Hl);
      unfold bind at 1; rewrite E; [exact Hs|reflexivity].
  - destruct (parse_kv_bad _ w Hl) as (w' & E & Hs).
    split; [apply calls_of_same|];
      unfold bind at 1; rewrite E; [exact Hs|reflexivity].
Qed.

(** With well-formed pairs and a clock at least one hour into year 1,
    [resolve] makes exactly one call. *)
Lemma resolve_alert_calls (earlier : datetime) :
  well_formed_pairs (alert.labels args) = true ->
  datetime_sub (clock w 0%nat) (timedelta_hours 1) = Ok earlier ->
  calls_of (alert.resolve_alert args) w =
  [ {| via := None; method := POST; url := alerts_url;
       kwargs := call_kwargs
         (VDict [("labels",
                  str_dict (dict_update labels0 (parsed_pairs (alert.labels args))));
                 ("annotations", VDict [("summary", VStr "resolved")]);
                 ("generatorURL", VStr ("http://" ++ alert.key args ++ "/alert"));
                 ("startsAt", VStr (strftime alert.TIME_FORMAT earlier));
                 ("endsAt", VStr (strftime alert.TIME_FORMAT (clock w 0%nat)))]) |} ].
Proof.
  intros Hl He. apply calls_of_app.
  unfold alert.resolve_alert.
  unfold bind at 1. rewrite (parse_kv_ok _ _ Hl).
  unfold bind at 1. cbn [datetime_now_utc].
  unfold bind at 1. unfold lift. rewrite He.
  unfold bind at 1. cbn [requests_post http]. world.
  destruct (net w 0%nat) as [resp|e]; [|reflexivity].
  destruct (ok resp); [reflexivity|].
  unfold bind, print_stderr, sys_exit, raise. reflexivity.
Qed.

Lemma resolve_alert_rejects :
  well_formed_pairs (alert.labels args) = false ->
  calls_of (alert.resolve_alert args) w = []
  /\ fst (alert.resolve_alert args w) = Raise (SystemExit 1).
Proof.
  intros Hl. unfold alert.resolve_alert.
  destruct (parse_kv_bad _ w Hl) as (w' & E & Hs).
  split; [apply calls_of_same|];
    unfold bind at 1; rewrite E; [exact Hs|reflexivity].
Qed.

Lemma resolve_alert_overflow (e : exn) :
  well_formed_pairs (alert.labels args) = true ->
  datetime_sub (clock w 0%nat) (timedelta_hours 1) = Raise e ->
  calls_of (alert.resolve_alert args) w = []
  /\ fst (alert.resolve_alert args w) = Raise e.
Proof.
  intros Hl He. unfold alert.resolve_alert.
  split; [apply calls_of_same|];
    unfold bind at 1; rewrite (parse_kv_ok _ _ Hl);
    unfold bind at 1; cbn [datetime_now_utc];
    unfold bind at 1; unfold lift; rewrite He; reflexivity.
Qed.

End PushResolve.

(** The spec's end-to-end scenario:
    [alert.py push --alertname HighCPU --severity critical --labels host=server-01]. *)
Example push_high_cpu_labels :
  exists rq a,
    calls_of (alert.push_alert mock.high_cpu) mock_alert.world = [rq]
    /\ posted_alerts rq = Some [a]
    /\ field a "labels"
       = Some (VDict [("alertname", VStr "HighCPU");
                      ("severity", VStr "critical");
                      ("system_key", VStr "NOC-XXXX-XXXX");
                      ("host", VStr "server-01")]).
Proof. do 2 eexists. vm_compute. repeat split. Qed.

(** C8. For every push invocation, the single alert object in the POST
    body has its [endsAt] field equal to the literal string
    ["0001-01-01T00:00:00Z"]: with well-formed [--labels] and
    [--annotations] pairs the run makes exactly one call, a POST whose
    JSON body is a one-element array, and that element's [endsAt] is the
    literal; with a malformed pair the run makes no call at all. *)
Theorem push_alert_endsAt_literal (args : alert.Namespace) (w : World) :
  if well_formed_pairs (alert.labels args) && well_formed_pairs (alert.annotations args)
  then exists rq a,
         calls_of (alert.push_alert args) w = [rq]
         /\ method rq = POST
         /\ posted_alerts rq = Some [a]
         /\ field a "endsAt" = Some (VStr "0001-01-01T00:00:00Z")
  else calls_of (alert.push_alert args) w = []
       /\ fst (alert.push_alert args w) = Raise (SystemExit 1).
Proof.
  destruct (well_formed_pairs (alert.labels args)) eqn:Hl;
    [destruct (well_formed_pairs (alert.annotations args)) eqn:Ha|]; cbn [andb].
  - do 2 eexists. rewrite (push_alert_calls args w Hl Ha).
    repeat split.
  - apply push_alert_rejects. now rewrite Hl, Ha.
  - apply push_alert_rejects. now rewrite Hl.
Qed.

(** C9. For every resolve invocation, the single alert object in the
    POST body has [endsAt] equal to the current UTC time (the reading
    [now] of the clock the script takes) and [startsAt] equal to that
    time minus one hour, both printed with the format
    [%Y-%m-%dT%H:%M:%SZ].  The run makes exactly one call, a POST of a
    one-element array.  A string so printed has the shape
    [YYYY-MM-DDTHH:MM:SSZ] exactly when its year is 1000 or later (the
    year is not padded: before the year 1000 the string is shorter).
    For a well-formed [now], [startsAt] is the well-formed time 3600
    seconds before [now], and each of the two strings, read back,
    denotes its time to the second, from the year 1000 on.  The run
    makes no call when a [--labels] pair is malformed, or when the
    subtraction overflows, which for a well-formed [now] means less than
    one hour into year 1. *)
Theorem resolve_alert_times (args : alert.Namespace) (w : World) :
  let now := clock w 0%nat in
  if well_formed_pairs (alert.labels args) then
    match datetime_sub now (timedelta_hours 1) with
    | Ok earlier =>
        (exists rq a,
           calls_of (alert.resolve_alert args) w = [rq]
           /\ method rq = POST
           /\ posted_alerts rq = Some [a]
           /\ field a "endsAt" = Some (VStr (strftime "%Y-%m-%dT%H:%M:%SZ" now))
           /\ field a "startsAt" = Some (VStr (strftime "%Y-%m-%dT%H:%M:%SZ" earlier)))
        /\ iso_shape (strftime "%Y-%m-%dT%H:%M:%SZ" now) = (1000 <=? year now)
        /\ iso_shape (strftime "%Y-%m-%dT%H:%M:%SZ" earlier) = (1000 <=? year earlier)
        /\ (valid_datetime now ->
            valid_datetime earlier
            /\ seconds_of earlier = seconds_of now - 3600
            /\ read_iso (strftime "%Y-%m-%dT%H:%M:%SZ" now)
               = (if 1000 <=? year now then Some (to_the_second now) else None)
            /\ read_iso (strftime "%Y-%m-%dT%H:%M:%SZ" earlier)
               = (if 1000 <=? year earlier then Some (to_the_second earlier) else None))
    | Raise e =>
        calls_of (alert.resolve_alert args) w = []
        /\ fst (alert.resolve_alert args w) = Raise e
        /\ (valid_datetime now -> seconds_of now < 86400 + 3600)
    end
  else calls_of (alert.resolve_alert args) w = []
       /\ fst (alert.resolve_alert args w) = Raise (SystemExit 1).
Proof.
  intros now. subst now.
  destruct (well_formed_pairs (alert.labels args)) eqn:Hl.
  - destruct (datetime_sub (clock w 0%nat) (timedelta_hours 1)) as [earlier|e] eqn:He.
    + split; [|split; [|split]].
      * do 2 eexists. rewrite (resolve_alert_calls args w earlier Hl He).
        repeat split.
      * apply strftime_iso_shape.
      * apply strftime_iso_shape.
      * intros Hv.
        destruct (datetime_sub_hour_exact _ _ Hv He) as (Hv' & Hsec & _).
        split; [exact Hv'|]. split; [exact Hsec|].
        split; apply read_strftime; assumption.
    + destruct (resolve_alert_overflow args w e Hl He) as [E1 E2].
      split; [exact E1|]. split; [exact E2|].
      intros Hv.
      destruct (Z.lt_ge_cases (seconds_of (clock w 0%nat)) (86400 + 3600)) as [Hlt|Hge];
        [exact Hlt|].
      destruct (datetime_sub_hour_defined _ Hv Hge) as [t' Ht'].
      rewrite Ht' in He. discriminate.
  - now apply resolve_alert_rejects.
Qed.

Lemma march_first_valid : valid_datetime mock.march_first.
Proof. vm_compute. repeat split; discriminate. Defined.

(** Half past midnight on 1 March 2024: the alert is said to have
    started at 23:30:05 on 29 February. *)
Lemma resolve_alert_times_witness :
  (exists rq a,
     calls_of (alert.resolve_alert mock.high_cpu) mock_alert.world = [rq]
     /\ method rq = POST
     /\ posted_alerts rq = Some [a]
     /\ field a "endsAt" = Some (VStr "2024-03-01T00:30:05Z")
     /\ field a "startsAt" = Some (VStr "2024-02-29T23:30:05Z"))
  /\ iso_shape "2024-03-01T00:30:05Z" = true
  /\ iso_shape "2024-02-29T23:30:05Z" = true
  /\ valid_datetime (mk_datetime 2024 2 29 23 30 5 123456)
  /\ seconds_of (mk_datetime 2024 2 29 23 30 5 123456)
     = seconds_of mock.march_first - 3600
  /\ read_iso "2024-03-01T00:30:05Z" = Some (to_the_second mock.march_first)
  /\ read_iso "2024-02-29T23:30:05Z"
     = Some (to_the_second (mk_datetime 2024 2 29 23 30 5 123456)).
Proof.
  destruct (resolve_alert_times mock.high_cpu mock_alert.world)
    as (Hcall & Hnow & Hearlier & Htimes).
  split; [exact Hcall|]. split; [exact Hnow|]. split; [exact Hearlier|].
  exact (Htimes march_first_valid).
Defined.

(** Before the year 1000 the year is printed as it is, on fewer than
    four digits: at half past midnight on 1 June 999 the alert posted
    says so. *)
Example resolve_alert_year_999 :
  map (fun rq => match posted_alerts rq with
                 | Some [a] => (field a "startsAt", field a "endsAt")
                 | _ => (None, None)
                 end)
      (calls_of (alert.resolve_alert mock.high_cpu)
         (mock.start [Ok mock.ok_response] (mk_datetime 999 6 1 0 30 5 0)))
  = [(Some (VStr "999-05-31T23:30:05Z"), Some (VStr "999-06-01T00:30:05Z"))].
Proof. vm_compute. reflexivity. Qed.

(** C10. For every push or resolve invocation, the labels object of the
    posted alert is built by starting from
    [{alertname: --alertname, severity: --severity, system_key: --key}]
    and then inserting every [--labels] key=value pair afterwards: read
    key by key, the last [--labels] pair with that key gives the value,
    and only a key that no pair names keeps the value of its flag.  So a
    pair whose key is [alertname], [severity] or [system_key] replaces the
    flag-derived value.  Both commands post the alert with these labels
    in their one call: [push] whenever the [--labels] and
    [--annotations] pairs are well formed, [resolve] whenever the
    [--labels] pairs are and the time one hour back exists; otherwise
    the command calls nothing. *)
Theorem alert_labels_merge (args : alert.Namespace) (w : World) :
  let flags := [("alertname", alert.alertname args);
                ("severity", alert.severity args);
                ("system_key", alert.key args)] in
  let pairs := map split_pair (pairs_or_empty (alert.labels args)) in
  let merged := dict_update flags (dict_update [] pairs) in
  let posts (calls : list Request) :=
    exists rq a,
      calls = [rq]
      /\ posted_alerts rq = Some [a]
      /\ field a "labels" = Some (str_dict merged) in
  (forall k, dict_get merged k
             = match dict_last pairs k with
               | Some v => Some v
               | None => dict_get flags k
               end)
  /\ (if well_formed_pairs (alert.labels args)
         && well_formed_pairs (alert.annotations args)
      then posts (calls_of (alert.push_alert args) w)
      else calls_of (alert.push_alert args) w = [])
  /\ (if well_formed_pairs (alert.labels args)
      then match datetime_sub (clock w 0%nat) (timedelta_hours 1) with
           | Ok _ => posts (calls_of (alert.resolve_alert args) w)
           | Raise _ => calls_of (alert.resolve_alert args) w = []
           end
      else calls_of (alert.resolve_alert args) w = []).
Proof.
  intros flags pairs merged posts. subst posts merged.
  split; [|split].
  - intros k. rewrite dict_get_update.
    rewrite dict_last_get by (apply dict_update_NoDup; constructor).
    rewrite dict_get_update. now destruct (dict_last pairs k).
  - destruct (well_formed_pairs (alert.labels args)) eqn:Hl;
      [destruct (well_formed_pairs (alert.annotations args)) eqn:Ha|]; cbn [andb].
    + rewrite (push_alert_calls args w Hl Ha). do 2 eexists. repeat split.
    + apply push_alert_rejects. now rewrite Hl, Ha.
    + apply push_alert_rejects. now rewrite Hl.
  - destruct (well_formed_pairs (alert.labels args)) eqn:Hl.
    + destruct (datetime_sub (clock w 0%nat) (timedelta_hours 1)) as [earlier|e] eqn:He.
      * rewrite (resolve_alert_calls args w earlier Hl He). do 2 eexists. repeat split.
      * now apply (resolve_alert_overflow args w e).
    + now apply resolve_alert_rejects.
Qed.

(** [--severity critical --labels host=server-01 severity=info]: the
    alert that [push] posts, and the one that [resolve] posts, say
    [severity: info]. *)
Lemma alert_labels_merge_witness :
  let flags := [("alertname", "HighCPU"); ("severity", "critical");
                ("system_key", "NOC-XXXX-XXXX")] in
  let pairs := [("host", "server-01"); ("severity", "info")] in
  let labels := VDict [("alertname", VStr "HighCPU"); ("severity", VStr "info");
                       ("system_key", VStr "NOC-XXXX-XXXX");
                       ("host", VStr "server-01")] in
  (forall k, dict_get (dict_update flags (dict_update [] pairs)) k
             = match dict_last pairs k with
               | Some v => Some v
               | None => dict_get flags k
               end)
  /\ (exists rq a,
        calls_of (alert.push_alert mock.high_cpu_relabelled) mock_alert.world = [rq]
        /\ posted_alerts rq = Some [a]
        /\ field a "labels" = Some labels)
  /\ (exists rq a,
        calls_of (alert.resolve_alert mock.high_cpu_relabelled) mock_alert.world = [rq]
        /\ posted_alerts rq = Some [a]
        /\ field a "labels" = Some labels).
Proof.
  exact (alert_labels_merge mock.high_cpu_relabelled mock_alert.world).
Defined.

(** The call that [push] makes with these arguments, written out. *)
Example push_relabelled_call :
  calls_of (alert.push_alert mock.high_cpu_relabelled) mock_alert.world
  = [mock_alert.relabelled_call].
Proof. vm_compute. reflexivity. Qed.

(* ================================================================== *)
(** * Rules for [Calls] *)
(* ================================================================== *)

Section CallsRules.

Variable P : Request -> Prop.

Lemma Calls_silent {A} (m : M A) :
  (forall w, sent (snd (m w)) = sent w) -> Calls P m.
Proof.
  intros H w. exists []. rewrite H, app_nil_r. auto.
Qed.

Lemma Calls_ret {A} (a : A) : Calls P (ret a).
Proof. now apply Calls_silent. Qed.

Lemma Calls_raise {A} (e : exn) : Calls P (raise e : M A).
Proof. now apply Calls_silent. Qed.

Lemma Calls_sys_exit {A} (c : Z) : Calls P (sys_exit c : M A).
Proof. now apply Calls_silent. Qed.

Lemma Calls_lift {A} (r : result A) : Calls P (lift r).
Proof. now apply Calls_silent. Qed.

Lemma Calls_print l : Calls P (print l).
Proof. now apply Calls_silent. Qed.

Lemma Calls_print_stderr l : Calls P (print_stderr l).
Proof. now apply Calls_silent. Qed.

Lemma Calls_Session : Calls P requests_Session.
Proof. now apply Calls_silent. Qed.

Lemma Calls_token_urlsafe n : Calls P (token_urlsafe n).
Proof. now apply Calls_silent. Qed.

Lemma Calls_now : Calls P datetime_now_utc.
Proof. now apply Calls_silent. Qed.

Lemma Calls_Response_json r : Calls P (Response_json r).
Proof. unfold Response_json. destruct (content_json r); now apply Calls_silent. Qed.

Lemma Calls_http rq : P rq -> Calls P (http rq).
Proof.
  intros H w. exists [rq]. split; [reflexivity|]. constructor; auto.
Qed.

Lemma Calls_bind {A B} (m : M A) (k : A -> M B) :
  Calls P m -> (forall a, Calls P (k a)) -> Calls P (bind m k).
Proof.
  intros Hm Hk w. unfold bind.
  destruct (Hm w) as (new1 & E1 & F1).
  destruct (m w) as [[a|e] w1]; cbn [snd] in *.
  - destruct (Hk a w1) as (new2 & E2 & F2).
    exists (new1 ++ new2)%list. split.
    + now rewrite E2, E1, app_assoc.
    + apply Forall_app. auto.
  - exists new1. auto.
Qed.

Lemma Calls_when c (body : M unit) : Calls P body -> Calls P (when c body).
Proof. intros H. destruct c; [exact H|apply Calls_ret]. Qed.

End CallsRules.

(** Break a [Calls] goal down along the structure of the program. *)
Ltac calls :=
  repeat first
    [ apply Calls_bind; [|intros]
    | apply Calls_when
    | apply Calls_ret | apply Calls_raise | apply Calls_sys_exit
    | apply Calls_lift | apply Calls_print | apply Calls_print_stderr
    | apply Calls_Session | apply Calls_token_urlsafe | apply Calls_now
    | apply Calls_Response_json
    | apply Calls_http
    | match goal with
      | |- Calls _ (if ?c then _ else _) => destruct c
      | |- Calls _ (match ?x with _ => _ end) => destruct x
      end ].

(** A call at the head of what remains to run is logged whatever its
    answer; after it come only calls of the continuation. *)
Lemma Logged_http {B} (P : Request -> Prop) (rq : Request) (k : Response -> M B)
      (made : list Request) (w W : World) :
  (forall r, Calls P (k r)) ->
  sent W = (sent w ++ made)%list ->
  Logged P (made ++ [rq]) w (bind (http rq) k W).
Proof.
  intros Hk HW. unfold Logged, bind, http.
  destruct (net W 0%nat) as [r|e].
  - destruct (Hk r (called rq W)) as (rest & E & F).
    exists rest. split; [|exact F].
    rewrite E. cbn [sent called]. rewrite HW. now rewrite <- !app_assoc.
  - exists []. split; [|constructor].
    cbn [snd sent called]. rewrite HW. now rewrite <- !app_assoc.
Qed.

Lemma Logged_calls_of {A} (P : Request -> Prop) (made : list Request) (m : M A)
      (w : World) :
  Logged P made w (m w) ->
  exists rest, calls_of m w = (made ++ rest)%list /\ Forall P rest.
Proof.
  intros (rest & E & F). exists rest. split; [|exact F].
  now apply calls_of_app.
Qed.

Lemma Calls_calls_of {A} (P : Request -> Prop) (m : M A) (w : World) :
  Calls P m -> Forall P (calls_of m w).
Proof.
  intros H. destruct (H w) as (new & E & F).
  now rewrite (calls_of_app m w new E).
Qed.

(* ================================================================== *)
(** * Base64 and the URL-safe tokens *)
(* ================================================================== *)

Lemma list_ind3 {A} (Q : list A -> Prop) :
  Q [] -> (forall x, Q [x]) -> (forall x y, Q [x; y]) ->
  (forall x y z t, Q t -> Q (x :: y :: z :: t)) ->
  forall l, Q l.
Proof.
  intros H0 H1 H2 H3.
  fix IH 1. intros [|x [|y [|z t]]];
    [exact H0 | apply H1 | apply H2 | apply H3, IH].
Qed.

Lemma land_63_lt (i : N) : (N.to_nat (N.land i 63) < 64)%nat.
Proof.
  change 63%N with (N.ones 6). rewrite N.land_ones.
  assert (H : (i mod 2 ^ 6 < 64)%N) by (apply N.mod_lt; discriminate).
  lia.
Qed.

(** A property of all sixty-four digits of a table, checked digit by digit. *)
Lemma b64_digit_all (Q : byte -> byte -> Prop) :
  (forall j, (j < 64)%nat ->
             Q (nth j b64_table b64_pad) (nth j b64url_table b64_pad)) ->
  forall i, Q (b64_digit b64_table i) (b64_digit b64url_table i).
Proof.
  intros H i. unfold b64_digit. apply H, land_63_lt.
Qed.

Lemma b64_digits_checked (q : byte -> byte -> bool) :
  forallb (fun j => q (nth j b64_table b64_pad) (nth j b64url_table b64_pad))
          (seq 0 64) = true ->
  forall i, q (b64_digit b64_table i) (b64_digit b64url_table i) = true.
Proof.
  intros H. apply (b64_digit_all (fun a b => q a b = true)).
  intros j Hj. rewrite forallb_forall in H. apply H, in_seq. lia.
Qed.

(** The translation of a standard digit is the URL-safe digit. *)
Lemma urlsafe_translate_digit (i : N) :
  urlsafe_translate (b64_digit b64_table i) = b64_digit b64url_table i.
Proof.
  apply Byte.byte_dec_bl.
  apply (b64_digits_checked (fun a b => Byte.eqb (urlsafe_translate a) b)).
  vm_compute. reflexivity.
Qed.

(** No URL-safe digit is the padding character. *)
Lemma b64url_digit_not_pad (i : N) :
  Byte.eqb (b64_digit b64url_table i) b64_pad = false.
Proof.
  apply negb_true_iff.
  apply (b64_digits_checked (fun _ b => negb (Byte.eqb b b64_pad))).
  vm_compute. reflexivity.
Qed.

(** Every URL-safe digit is a letter, a digit, ['-'] or ['_']. *)
Lemma b64url_digit_urlsafe (i : N) :
  urlsafe_char (ascii_of_byte (b64_digit b64url_table i)) = true.
Proof.
  apply (b64_digits_checked (fun _ b => urlsafe_char (ascii_of_byte b))).
  vm_compute. reflexivity.
Qed.

Lemma bytes_rstrip_no_pad (c : byte) (l : list byte) :
  forallb (fun x => negb (Byte.eqb x c)) l = true -> bytes_rstrip c l = l.
Proof.
  induction l as [|x t IH]; cbn [forallb bytes_rstrip]; [reflexivity|].
  intros H. apply andb_prop in H as [Hx Ht]. rewrite (IH Ht).
  destruct t; [|reflexivity].
  apply negb_true_iff in Hx. now rewrite Hx.
Qed.

Lemma bytes_rstrip_app_pad (c : byte) (l : list byte) (n : nat) :
  bytes_rstrip c (l ++ repeat c n) = bytes_rstrip c l.
Proof.
  assert (R : bytes_rstrip c (repeat c n) = []).
  { induction n as [|n IH]; cbn [repeat bytes_rstrip]; [reflexivity|].
    rewrite IH. assert (E : Byte.eqb c c = true) by now apply Byte.byte_dec_lb.
    now rewrite E. }
  induction l as [|x t IH]; cbn [app bytes_rstrip]; [exact R|].
  now rewrite IH.
Qed.

Lemma base64url_nopad_no_pad (b : list byte) :
  forallb (fun x => negb (Byte.eqb x b64_pad)) (base64url_nopad b) = true.
Proof.
  induction b as [|x|x y|x y z t IH] using list_ind3;
    cbn [base64url_nopad forallb]; rewrite ?b64url_digit_not_pad; auto.
Qed.

(** The encoder's output is the unpadded URL-safe encoding followed by
    padding only. *)
Lemma urlsafe_b64encode_padded (b : list byte) :
  exists n, urlsafe_b64encode b = (base64url_nopad b ++ repeat b64_pad n)%list.
Proof.
  unfold urlsafe_b64encode.
  induction b as [|x|x y|x y z t IH] using list_ind3;
    cbn [b64encode base64url_nopad map]; rewrite ?urlsafe_translate_digit.
  - now exists 0%nat.
  - now exists 2%nat.
  - now exists 1%nat.
  - destruct IH as [n ->]. now exists n.
Qed.

(** Stripping the trailing ['='] of [urlsafe_b64encode] gives base64url
    without padding. *)
Lemma rstrip_urlsafe_b64encode (b : list byte) :
  bytes_rstrip b64_pad (urlsafe_b64encode b) = base64url_nopad b.
Proof.
  destruct (urlsafe_b64encode_padded b) as [n ->].
  rewrite bytes_rstrip_app_pad. apply bytes_rstrip_no_pad, base64url_nopad_no_pad.
Qed.

Lemma base64url_nopad_length (b : list byte) :
  List.length (base64url_nopad b) = ((4 * List.length b + 2) / 3)%nat.
Proof.
  induction b as [|x|x y|x y z t IH] using list_ind3; try reflexivity.
  cbn [base64url_nopad List.length]. rewrite IH.
  replace (4 * S (S (S (List.length t))) + 2)%nat
    with ((4 * List.length t + 2) + 4 * 3)%nat by lia.
  rewrite Nat.div_add by discriminate. lia.
Qed.

Lemma decode_length (b : list byte) : String.length (decode b) = List.length b.
Proof.
  unfold decode, string_of_list_byte.
  induction b as [|x t IH]; cbn; [reflexivity|now rewrite IH].
Qed.

Lemma base64url_nopad_urlsafe (b : list byte) :
  str_forall urlsafe_char (decode (base64url_nopad b)) = true.
Proof.
  unfold decode, string_of_list_byte.
  induction b as [|x|x y|x y z t IH] using list_ind3;
    cbn [base64url_nopad map string_of_list_ascii str_forall];
    rewrite ?b64url_digit_urlsafe; auto.
Qed.

(** What [secrets.token_urlsafe(n)] returns: the unpadded base64url of
    the [n] bytes it draws. *)
Lemma token_urlsafe_run (n : nat) (w : World) :
  token_urlsafe n w
  = (Ok (decode (bytes_rstrip b64_pad (urlsafe_b64encode (map (rng w) (seq 0 n))))),
     drawn n w).
Proof. reflexivity. Qed.

Lemma drawn_verifier_nopad (w : World) :
  drawn_verifier w = decode (base64url_nopad (map (rng w) (seq 0 64))).
Proof. unfold drawn_verifier. now rewrite rstrip_urlsafe_b64encode. Qed.

(** The verifier has 86 characters, all of them URL-safe. *)
Lemma drawn_verifier_length (w : World) : String.length (drawn_verifier w) = 86%nat.
Proof.
  rewrite drawn_verifier_nopad, decode_length, base64url_nopad_length.
  rewrite length_map, length_seq. reflexivity.
Qed.

Lemma drawn_verifier_urlsafe (w : World) :
  str_forall urlsafe_char (drawn_verifier w) = true.
Proof. rewrite drawn_verifier_nopad. apply base64url_nopad_urlsafe. Qed.

(* ================================================================== *)
(** * [alerting_config.py]: the login flow *)
(* ================================================================== *)

Lemma bind_ok {A B} (m : M A) (k : A -> M B) (w w1 : World) (a : A) :
  m w = (Ok a, w1) -> bind m k w = k a w1.
Proof. unfold bind. now intros ->. Qed.

Lemma bind_raise {A B} (m : M A) (k : A -> M B) (w w1 : World) (e : exn) :
  m w = (Raise e, w1) -> bind m k w = (Raise e, w1).
Proof. unfold bind. now intros ->. Qed.

Lemma bind_assoc {A B C} (m : M A) (k : A -> M B) (h : B -> M C) (w : World) :
  bind (bind m k) h w = bind m (fun a => bind (k a) h) w.
Proof. unfold bind. destruct (m w) as [[a|e] w1]; reflexivity. Qed.

(** A header that [get] finds is there for [[]] too. *)
Lemma headers_getitem_get (h : dict string) (name default : string) :
  headers_getitem h name = Ok (headers_get h name default)
  \/ (headers_getitem h name = Raise KeyError /\ headers_get h name default = default).
Proof.
  induction h as [|[k v] t IH]; cbn [headers_getitem headers_get]; [now right|].
  destruct (String.eqb (str_lower k) (str_lower name)); [now left|exact IH].
Qed.

Lemma headers_getitem_consent (h : dict string) :
  str_in "consent" (headers_get h "Location" "") = true ->
  headers_getitem h "Location" = Ok (headers_get h "Location" "").
Proof.
  intros H. destruct (headers_getitem_get h "Location" "") as [E|[_ E]]; [exact E|].
  rewrite E in H. discriminate.
Qed.

(** ** Running a script against what is known of the world *)

(** Rewrite with a hypothesis whose left-hand side occurs in the goal. *)
Ltac use_hyp :=
  match goal with
  | H : net ?w ?k = _ |- context [net ?w ?k] => rewrite H
  | H : content_json ?r = _ |- context [content_json ?r] => rewrite H
  | H : dict_get ?d ?k = _ |- context [dict_get ?d ?k] => rewrite H
  | H : truthy ?v = _ |- context [truthy ?v] => rewrite H
  | H : ok ?r = _ |- context [ok ?r] => rewrite H
  | H : (status_code ?r =? 422) = _ |- context [status_code ?r =? 422] => rewrite H
  | H : str_in ?a ?b = _ |- context [str_in ?a ?b] => rewrite H
  | H : headers_getitem ?h ?n = _ |- context [headers_getitem ?h ?n] => rewrite H
  | H : urlparse_query ?u = _ |- context [urlparse_query ?u] => rewrite H
  | H : String.eqb ?a ?b = _ |- context [String.eqb ?a ?b] => rewrite H
  end.

Ltac norm :=
  repeat first [ progress cbn [when negb truthy value_get] | use_hyp ].

(** Solve [m w = (?r, ?w')] for a step [m] that is not a [bind]. *)
Ltac prim :=
  cbv beta;
  lazymatch goal with
  | |- token_urlsafe _ _ = _ => apply token_urlsafe_run
  | |- _ =>
      unfold requests_Session, Session_get, Session_put, Session_patch, Session_post,
        requests_post, http, Response_json, lift, ret, raise,
        sys_exit, print_stderr, print;
      world; norm; reflexivity
  end.

(** One step: the continuation is set aside while the step at the head
    is settled, so that the work is done on a small term. *)
Ltac run1 :=
  lazymatch goal with
  | |- context [bind ?m ?k ?w] =>
      let K := fresh "K" in
      set (K := k);
      world; norm;
      first [ rewrite bind_assoc
            | erewrite bind_ok by prim
            | erewrite bind_raise by prim ];
      subst K; cbv beta
  end.

(** Run as far as the hypotheses tell how each step ends. *)
Ltac run := repeat run1; world; norm.

(** The last step of a run, which has no continuation. *)
Ltac finish :=
  unfold ret, raise, sys_exit, lift; world.

Lemma after_calls_sent (calls : list Request) (w : World) :
  sent (after_calls calls w) = (sent w ++ calls)%list.
Proof.
  unfold after_calls. revert w.
  induction calls as [|rq t IH]; intros w; cbn [fold_left].
  - now rewrite app_nil_r.
  - rewrite IH. cbn [sent called]. now rewrite <- app_assoc.
Qed.

Lemma after_calls_stderr (calls : list Request) (w : World) :
  stderr (after_calls calls w) = stderr w.
Proof.
  unfold after_calls. revert w.
  induction calls as [|rq t IH]; intros w; cbn [fold_left]; [reflexivity|].
  now rewrite IH.
Qed.

(** Take apart the hypothesis that a run gets through sign-in. *)
Ltac sign_in_hyps H :=
  let r1 := fresh "r1" in let r2 := fresh "r2" in let r3 := fresh "r3" in
  let r4 := fresh "r4" in let body4 := fresh "body4" in
  let H422 := fresh "H422" in
  destruct H as (r1 & r2 & r3 & r4 & body4 & ? & ? & ? & H422 & ? & ? & ? & ? & ?);
  apply Z.eqb_neq in H422.

Section LoginFacts.

Context {P : Platform}.

Variable base_url email password : string.

Local Abbreviation login := (alerting_config._logto_login base_url email password).

Local Abbreviation s w := (sessions w).
Local Abbreviation started := flow.started.
Local Abbreviation after := after_calls.

(** The code's first call is the specification's step 3. *)
Lemma start_authorization_eq (w : World) :
  {| via := Some (sessions w); method := GET;
     url := VStr (alerting_config._LOGTO_ENDPOINT ++ "/oidc/auth");
     kwargs :=
       [Params
          [("client_id", alerting_config._LOGTO_APP_ID);
           ("redirect_uri",
            rstrip "/" base_url ++ "/" ++ alerting_config._LOGTO_REDIRECT_URI_PATH);
           ("response_type", "code");
           ("scope", "openid profile email offline_access "
                     ++ "urn:logto:scope:organizations urn:logto:scope:organization_roles");
           ("state", drawn_state w);
           ("code_challenge",
            decode (bytes_rstrip b64_pad
                      (urlsafe_b64encode (sha256_digest (encode (drawn_verifier w))))));
           ("code_challenge_method", "S256")];
        AllowRedirects false] |}
  = flow.start_authorization base_url (sessions w) (drawn_verifier w) (drawn_state w).
Proof.
  unfold flow.start_authorization. rewrite rstrip_urlsafe_b64encode. reflexivity.
Qed.

(** A run whose PATCH is answered 422 with a JSON object. *)
Lemma login_422_run (w : World) (r1 r2 r3 : Response) (body : dict value) :
  net w 0%nat = Ok r1 -> net w 1%nat = Ok r2 -> net w 2%nat = Ok r3 ->
  status_code r3 = 422 ->
  content_json r3 = Some (VDict body) ->
  login w
  = (Raise (SystemExit 1),
     complained
       [Lit "Authentication failed: ";
        Fmt (match dict_get body "message" with
             | Some m => m
             | None => VStr (text r3)
             end)]
       (after [flow.start_authorization base_url (s w) (drawn_verifier w) (drawn_state w);
               flow.begin_sign_in (s w);
               flow.submit_credentials email password (s w)]
              (started w))).
Proof.
  intros H1 H2 H3 Hs Hj.
  assert (Hs' : (status_code r3 =? 422) = true) by (now apply Z.eqb_eq).
  unfold alerting_config._logto_login.
  run. finish.
  fold (drawn_verifier w). fold (drawn_state w).
  rewrite start_authorization_eq. reflexivity.
Qed.

(** Whatever the body of a 422 answer to the PATCH, the run stops there. *)
Lemma login_422_stops (w : World) (r1 r2 r3 : Response) :
  net w 0%nat = Ok r1 -> net w 1%nat = Ok r2 -> net w 2%nat = Ok r3 ->
  status_code r3 = 422 ->
  exists e w',
    login w = (Raise e, w')
    /\ sent w'
       = sent (after [flow.start_authorization base_url (s w) (drawn_verifier w) (drawn_state w);
                      flow.begin_sign_in (s w);
                      flow.submit_credentials email password (s w)]
                     (started w)).
Proof.
  intros H1 H2 H3 Hs.
  assert (Hs' : (status_code r3 =? 422) = true) by (now apply Z.eqb_eq).
  unfold alerting_config._logto_login. run.
  fold (drawn_verifier w). fold (drawn_state w). rewrite start_authorization_eq.
  unfold Response_json at 1.
  destruct (content_json r3) as [[| | | | | |body]|]; run; finish;
    do 2 eexists; split; reflexivity.
Qed.

(** Reading the outcome of a run whose final world is known. *)
Lemma run_report {A} (m : M A) (w : World) (out : result A)
      (calls : list Request) (l : line) :
  m w = (out, complained l (after_calls calls (flow.started w))) ->
  fst (m w) = out
  /\ stderr (snd (m w)) = (stderr w ++ [l])%list
  /\ calls_of m w = calls.
Proof.
  intros E. rewrite E. cbn [fst snd]. split; [reflexivity|]. split.
  - cbn [stderr complained]. now rewrite after_calls_stderr.
  - apply calls_of_app. rewrite E. cbn [snd sent complained].
    now rewrite after_calls_sent.
Qed.

Lemma run_report_quiet {A} (m : M A) (w : World) (out : result A)
      (calls : list Request) :
  m w = (out, after_calls calls (flow.started w)) ->
  fst (m w) = out
  /\ stderr (snd (m w)) = stderr w
  /\ calls_of m w = calls.
Proof.
  intros E. rewrite E. cbn [fst snd]. split; [reflexivity|]. split.
  - now rewrite after_calls_stderr.
  - apply calls_of_app. rewrite E. cbn [snd]. now rewrite after_calls_sent.
Qed.

(** A run whose submit call is answered by a JSON object without a
    usable [redirectTo]. *)
Lemma login_no_redirect_run (w : World) (r1 r2 r3 r4 : Response) (body : dict value) :
  net w 0%nat = Ok r1 -> net w 1%nat = Ok r2 ->
  net w 2%nat = Ok r3 -> status_code r3 <> 422 -> ok r3 = true ->
  net w 3%nat = Ok r4 -> content_json r4 = Some (VDict body) ->
  truthy (match dict_get body "redirectTo" with Some v => v | None => VNone end) = false ->
  login w
  = (Raise (SystemExit 1),
     complained [Lit "Unexpected sign-in response: "; Fmt (VStr (text r4))]
       (after (flow.sign_in_calls base_url email password w) (started w))).
Proof.
  intros H1 H2 H3 Hs Hok H4 Hj Hr.
  apply Z.eqb_neq in Hs.
  unfold alerting_config._logto_login.
  run. finish.
  fold (drawn_verifier w). fold (drawn_state w).
  rewrite start_authorization_eq. reflexivity.
Qed.

(** A run that gets to the final redirect and finds no [code] there. *)
Lemma login_no_code_run (w : World) (rd target : value) (r5 rf : Response) (k : nat) :
  flow.signs_in w rd ->
  flow.resolves_redirect w rd r5 target k ->
  net w k = Ok rf ->
  flow.lacks_parameter (flow.location rf) "code" ->
  login w
  = (Raise (SystemExit 1),
     complained [Lit "Failed to obtain authorization code from: ";
                 Fmt (VStr (flow.location rf))]
       (after (flow.sign_in_calls base_url email password w
               ++ [flow.fetch (s w) rd]
               ++ flow.consent_calls w r5
               ++ [flow.fetch (s w) target])%list
              (started w))).
Proof.
  intros Hsign [H5 Hc] Hf (q & Hq & Hcode).
  sign_in_hyps Hsign.
  unfold flow.consent_calls. unfold flow.location in *.
  destruct (str_in "consent" (headers_get (headers r5) "Location" "")) eqn:Hcons.
  - destruct Hc as (rc1 & rc2 & bodyc & Hc1 & Hc2 & Hjc & -> & ->).
    pose proof (headers_getitem_consent _ Hcons) as Hget.
    unfold alerting_config._logto_login. run. finish.
    fold (drawn_verifier w). fold (drawn_state w).
    rewrite start_authorization_eq. reflexivity.
  - destruct Hc as [-> ->].
    unfold alerting_config._logto_login. run. finish.
    fold (drawn_verifier w). fold (drawn_state w).
    rewrite start_authorization_eq. reflexivity.
Qed.

(** A run in which every step is answered as expected. *)
Lemma login_success_run (w : World) (rd target : value) (r5 rf r6 r7 : Response)
      (k : nat) (code : string) (body6 body7 data : dict value)
      (access_token token : value) :
  flow.signs_in w rd ->
  flow.resolves_redirect w rd r5 target k ->
  net w k = Ok rf ->
  flow.first_parameter (flow.location rf) "code" code ->
  code <> EmptyString ->
  net w (k + 1)%nat = Ok r6 ->
  content_json r6 = Some (VDict body6) ->
  dict_get body6 "access_token" = Some access_token ->
  truthy access_token = true ->
  net w (k + 2)%nat = Ok r7 ->
  content_json r7 = Some (VDict body7) ->
  dict_get body7 "data" = Some (VDict data) ->
  dict_get data "token" = Some token ->
  truthy token = true ->
  login w
  = (Ok token,
     after (flow.sign_in_calls base_url email password w
            ++ [flow.fetch (s w) rd]
            ++ flow.consent_calls w r5
            ++ [flow.fetch (s w) target;
                flow.token_request base_url (VStr code) (drawn_verifier w);
                flow.backend_exchange base_url access_token])%list
           (started w)).
Proof.
  intros Hsign [H5 Hc] Hf (q & more & Hq & Hcode) Hne
         H6 Hj6 Hat Hatt H7 Hj7 Hdata Htok Htokt.
  sign_in_hyps Hsign.
  apply String.eqb_neq in Hne.
  unfold flow.consent_calls. unfold flow.location in *.
  destruct (str_in "consent" (headers_get (headers r5) "Location" "")) eqn:Hcons.
  - destruct Hc as (rc1 & rc2 & bodyc & Hc1 & Hc2 & Hjc & -> & ->).
    pose proof (headers_getitem_consent _ Hcons) as Hget.
    cbn [Nat.add] in H6, H7.
    unfold alerting_config._logto_login. run. finish.
    fold (drawn_verifier w). fold (drawn_state w).
    rewrite start_authorization_eq. reflexivity.
  - destruct Hc as [-> ->].
    cbn [Nat.add] in H6, H7.
    unfold alerting_config._logto_login. run. finish.
    fold (drawn_verifier w). fold (drawn_state w).
    rewrite start_authorization_eq. reflexivity.
Qed.

(** No call site of the login flow passes [timeout=]. *)
Lemma login_no_timeout :
  Calls (fun rq => kwargs_timeout (kwargs rq) = None) login.
Proof.
  unfold alerting_config._logto_login,
    Session_get, Session_put, Session_patch, Session_post, requests_post.
  calls; reflexivity.
Qed.

(** Every run makes the first call, and the verifier it sends later, if
    it gets that far, is the one whose challenge that call carries. *)
Lemma login_starts (w : World) :
  Logged (fun rq => forall d, kwargs_data (kwargs rq) = Some d ->
                              dict_get d "code_verifier" = Some (VStr (drawn_verifier w)))
         [flow.start_authorization base_url (s w) (drawn_verifier w) (drawn_state w)]
         w (login w).
Proof.
  unfold alerting_config._logto_login. run.
  unfold Session_get at 1.
  fold (drawn_verifier w). fold (drawn_state w).
  rewrite start_authorization_eq.
  apply (Logged_http _ _ _ []); [|now rewrite app_nil_r].
  intros r.
  unfold Session_get, Session_put, Session_patch, Session_post, requests_post.
  calls; try discriminate.
  cbn [kwargs kwargs_data]. intros d0 [= <-]. reflexivity.
Qed.

(** After sign-in and the interim redirect, with the consent screen
    answered when it is asked for: the calls up to the final fetch, and
    after them only the token request and the backend exchange. *)
Lemma login_fetches_exchanges (w : World) (rd target : value) (r5 : Response) (k : nat) :
  flow.signs_in w rd ->
  flow.resolves_redirect w rd r5 target k ->
  Logged (flow.exchanges base_url w)
         (flow.sign_in_calls base_url email password w
          ++ [flow.fetch (s w) rd]
          ++ flow.consent_calls w r5
          ++ [flow.fetch (s w) target])%list
         w (login w).
Proof.
  intros Hsign [H5 Hc].
  sign_in_hyps Hsign.
  unfold flow.consent_calls. unfold flow.location in *.
  destruct (str_in "consent" (headers_get (headers r5) "Location" "")) eqn:Hcons.
  - destruct Hc as (rc1 & rc2 & bodyc & Hc1 & Hc2 & Hjc & -> & ->).
    pose proof (headers_getitem_consent _ Hcons) as Hget.
    unfold alerting_config._logto_login. run.
    fold (drawn_verifier w). fold (drawn_state w).
    rewrite start_authorization_eq.
    unfold Session_get at 1.
    refine (Logged_http _ _ _
              (flow.sign_in_calls base_url email password w
               ++ [flow.fetch (s w) rd;
                   flow.fetch (s w)
                     (VStr ("https://qa.id.nethesis.it"
                            ++ headers_get (headers r5) "Location" ""));
                   flow.submit_consent (s w)])%list _ _ _ _).
    + intros r. unfold requests_post.
      calls; first [left; eexists; reflexivity | right; eexists; reflexivity].
    + world. now rewrite <- !app_assoc.
  - destruct Hc as [-> ->].
    unfold alerting_config._logto_login. run.
    fold (drawn_verifier w). fold (drawn_state w).
    rewrite start_authorization_eq.
    unfold Session_get at 1.
    refine (Logged_http _ _ _
              (flow.sign_in_calls base_url email password w
               ++ [flow.fetch (s w) rd])%list _ _ _ _).
    + intros r. unfold requests_post.
      calls; first [left; eexists; reflexivity | right; eexists; reflexivity].
    + world. now rewrite <- !app_assoc.
Qed.

(** When the interim redirect asks for consent, the consent screen is
    fetched, whatever the answers from there on. *)
Lemma login_fetches_consent (w : World) (rd : value) (r5 : Response) :
  flow.signs_in w rd ->
  net w 4%nat = Ok r5 ->
  str_in "consent" (flow.location r5) = true ->
  Logged (fun _ => True)
         (flow.sign_in_calls base_url email password w
          ++ [flow.fetch (s w) rd;
              flow.fetch (s w) (VStr ("https://qa.id.nethesis.it" ++ flow.location r5))])%list
         w (login w).
Proof.
  intros Hsign H5 Hcons.
  sign_in_hyps Hsign.
  unfold flow.location in *.
  pose proof (headers_getitem_consent _ Hcons) as Hget.
  unfold alerting_config._logto_login. run.
  fold (drawn_verifier w). fold (drawn_state w).
  rewrite start_authorization_eq.
  unfold Session_get at 1.
  refine (Logged_http _ _ _
            (flow.sign_in_calls base_url email password w
             ++ [flow.fetch (s w) rd])%list _ _ _ _).
  - intros r. unfold Session_get, Session_post, requests_post.
    calls; exact I.
  - world. now rewrite <- !app_assoc.
Qed.

(** A run that gets to the final redirect and whose [Location] is
    refused by [urlparse]. *)
Lemma login_unparsed_run (w : World) (rd target : value) (r5 rf : Response) (k : nat)
      (e : exn) :
  flow.signs_in w rd ->
  flow.resolves_redirect w rd r5 target k ->
  net w k = Ok rf ->
  urlparse_query (flow.location rf) = Raise e ->
  login w
  = (Raise e,
     after (flow.sign_in_calls base_url email password w
            ++ [flow.fetch (s w) rd]
            ++ flow.consent_calls w r5
            ++ [flow.fetch (s w) target])%list
           (started w)).
Proof.
  intros Hsign [H5 Hc] Hf Hq.
  sign_in_hyps Hsign.
  unfold flow.consent_calls. unfold flow.location in *.
  destruct (str_in "consent" (headers_get (headers r5) "Location" "")) eqn:Hcons.
  - destruct Hc as (rc1 & rc2 & bodyc & Hc1 & Hc2 & Hjc & -> & ->).
    pose proof (headers_getitem_consent _ Hcons) as Hget.
    unfold alerting_config._logto_login. run. finish.
    fold (drawn_verifier w). fold (drawn_state w).
    rewrite start_authorization_eq. reflexivity.
  - destruct Hc as [-> ->].
    unfold alerting_config._logto_login. run. finish.
    fold (drawn_verifier w). fold (drawn_state w).
    rewrite start_authorization_eq. reflexivity.
Qed.

(** A run whose submit call is answered by something that is not a JSON
    object: [r4.json().get] raises, and nothing is printed. *)
Lemma login_no_object_run (w : World) (r1 r2 r3 r4 : Response) :
  net w 0%nat = Ok r1 -> net w 1%nat = Ok r2 ->
  net w 2%nat = Ok r3 -> status_code r3 <> 422 -> ok r3 = true ->
  net w 3%nat = Ok r4 ->
  match content_json r4 with
  | Some (VDict _) => True
  | Some _ =>
      login w = (Raise AttributeError,
                 after (flow.sign_in_calls base_url email password w) (started w))
  | None =>
      login w = (Raise JSONDecodeError,
                 after (flow.sign_in_calls base_url email password w) (started w))
  end.
Proof.
  intros H1 H2 H3 Hs Hok H4.
  apply Z.eqb_neq in Hs.
  destruct (content_json r4) as [[| | | | | |body]|] eqn:Hj; [..|exact I|];
    unfold alerting_config._logto_login;
    run; finish;
    fold (drawn_verifier w); fold (drawn_state w);
    rewrite start_authorization_eq; reflexivity.
Qed.

End LoginFacts.

(* ================================================================== *)
(** * The login flow: the claims *)
(* ================================================================== *)

Section LoginClaims.

Context {P : Platform}.

Variable base_url email password : string.

Local Abbreviation login := (alerting_config._logto_login base_url email password).
Local Abbreviation sign_in_calls := (flow.sign_in_calls base_url email password).

(** C1. For every successful run of the login flow (every HTTP step is
    answered as expected), [login] returns exactly the string found at
    [data.token] in the final backend-exchange response, and it issues
    the HTTP requests in the fixed order authorization-start, sign-in
    PUT, identifiers PATCH, interaction submit, redirect fetches (with
    the consent calls between them when the interim redirect asks for
    consent), token-endpoint POST, backend-exchange POST.  Each request
    carries state of the earlier steps: the calls up to the final fetch
    are made on the one session object, the token request carries the
    [code_verifier] whose challenge the first call sent and the [code]
    of the final redirect's [Location], and the backend exchange carries
    the [access_token] the token endpoint returned. *)
Theorem login_returns_backend_token
    (w : World) (rd target : value) (r5 rf r6 r7 : Response) (k : nat)
    (code token : string) (body6 body7 data : dict value) (access_token : value) :
  flow.signs_in w rd ->
  flow.resolves_redirect w rd r5 target k ->
  net w k = Ok rf ->
  flow.first_parameter (flow.location rf) "code" code ->
  code <> EmptyString ->
  net w (k + 1)%nat = Ok r6 ->
  content_json r6 = Some (VDict body6) ->
  dict_get body6 "access_token" = Some access_token ->
  truthy access_token = true ->
  net w (k + 2)%nat = Ok r7 ->
  content_json r7 = Some (VDict body7) ->
  dict_get body7 "data" = Some (VDict data) ->
  dict_get data "token" = Some (VStr token) ->
  token <> EmptyString ->
  let on_session :=
    (sign_in_calls w ++ [flow.fetch (sessions w) rd]
     ++ flow.consent_calls w r5 ++ [flow.fetch (sessions w) target])%list in
  fst (login w) = Ok (VStr token)
  /\ calls_of login w
     = (on_session
        ++ [flow.token_request base_url (VStr code) (drawn_verifier w);
            flow.backend_exchange base_url access_token])%list
  /\ Forall (fun rq => via rq = Some (sessions w)) on_session
  /\ stderr (snd (login w)) = stderr w.
Proof.
  intros Hsign Hres Hf Hcode Hne H6 Hj6 Hat Hatt H7 Hj7 Hdata Htok Htne on_session.
  assert (Htt : truthy (VStr token) = true).
  { cbn [truthy]. apply negb_true_iff. now apply String.eqb_neq. }
  pose proof (login_success_run base_url email password w rd target r5 rf r6 r7 k code
                body6 body7 data access_token (VStr token)
                Hsign Hres Hf Hcode Hne H6 Hj6 Hat Hatt H7 Hj7 Hdata Htok Htt) as E.
  apply run_report_quiet in E. destruct E as (E1 & E2 & E3).
  split; [exact E1|]. split.
  - rewrite E3. subst on_session. now rewrite <- !app_assoc.
  - split; [|exact E2].
    subst on_session. unfold flow.consent_calls.
    destruct (str_in "consent" (flow.location r5)); repeat constructor.
Qed.

(** C2, as the code has it.  No HTTP request issued during the login
    sequence is given a timeout: every run makes at least one call, and
    every call it makes, be it to the provider or to the backend token
    exchange, is made without [timeout=], so that the HTTP library waits
    without a bound. *)
Theorem login_calls_unbounded (w : World) :
  calls_of login w <> []
  /\ Forall (fun rq => kwargs_timeout (kwargs rq) = None) (calls_of login w).
Proof.
  split.
  - destruct (Logged_calls_of _ _ _ _ (login_starts base_url email password w))
      as (rest & E & _).
    rewrite E. discriminate.
  - apply Calls_calls_of, login_no_timeout.
Qed.

(** C3, as the code has it.  For every run of the login flow in which
    the credentials-submission PATCH response has HTTP status 422, the
    run ends with an exception after exactly the first three calls: none
    of the subsequent requests is issued.  When the body of that response
    decodes to a JSON object, the exception is the exit with status 1
    after the invalid-credentials message, whose text is the object's
    [message] field, or the raw body if the object has none. *)
Theorem login_rejects_credentials (w : World) (r1 r2 r3 : Response) :
  net w 0%nat = Ok r1 -> net w 1%nat = Ok r2 -> net w 2%nat = Ok r3 ->
  status_code r3 = 422 ->
  calls_of login w
  = [flow.start_authorization base_url (sessions w) (drawn_verifier w) (drawn_state w);
     flow.begin_sign_in (sessions w);
     flow.submit_credentials email password (sessions w)]
  /\ (exists e, fst (login w) = Raise e)
  /\ (forall body,
        content_json r3 = Some (VDict body) ->
        fst (login w) = Raise (SystemExit 1)
        /\ stderr (snd (login w))
           = (stderr w
              ++ [[Lit "Authentication failed: ";
                   Fmt (match dict_get body "message" with
                        | Some m => m
                        | None => VStr (text r3)
                        end)]])%list).
Proof.
  intros H1 H2 H3 Hs.
  destruct (login_422_stops base_url email password w r1 r2 r3 H1 H2 H3 Hs)
    as (e & w' & E & Hsent).
  split; [|split].
  - apply calls_of_app. rewrite E. cbn [snd]. rewrite Hsent.
    now rewrite after_calls_sent.
  - exists e. now rewrite E.
  - intros body Hj.
    pose proof (login_422_run base_url email password w r1 r2 r3 body H1 H2 H3 Hs Hj) as R.
    apply run_report in R. tauto.
Qed.

(** C5, as the code has it.  For every run of the login flow in which
    the [Location] header of the final redirect response yields no
    [code] query parameter, be it that its parsed query has none or that
    [urlparse] refuses it, [login] issues neither the provider
    token-endpoint request nor the backend token-exchange request: the
    final fetch is its last call, and all its calls are made on the
    session.  When the [Location] is parsed, [login] fails with the
    no-authorization-code error (the message names the [Location], the
    exit status is 1); when [urlparse] refuses it, the run ends with the
    exception [urlparse] raised and nothing is printed. *)
Theorem login_without_code
    (w : World) (rd target : value) (r5 rf : Response) (k : nat) :
  flow.signs_in w rd ->
  flow.resolves_redirect w rd r5 target k ->
  net w k = Ok rf ->
  match urlparse_query (flow.location rf) with
  | Ok q => dict_get (parse_qs q) "code" = None
  | Raise _ => True
  end ->
  calls_of login w
  = (sign_in_calls w ++ [flow.fetch (sessions w) rd]
     ++ flow.consent_calls w r5 ++ [flow.fetch (sessions w) target])%list
  /\ Forall (fun rq => via rq = Some (sessions w)) (calls_of login w)
  /\ match urlparse_query (flow.location rf) with
     | Ok _ =>
         fst (login w) = Raise (SystemExit 1)
         /\ stderr (snd (login w))
            = (stderr w ++ [[Lit "Failed to obtain authorization code from: ";
                             Fmt (VStr (flow.location rf))]])%list
     | Raise e =>
         fst (login w) = Raise e
         /\ stderr (snd (login w)) = stderr w
     end.
Proof.
  intros Hsign Hres Hf Hlack.
  assert (Hvia : Forall (fun rq => via rq = Some (sessions w))
                   (sign_in_calls w ++ [flow.fetch (sessions w) rd]
                    ++ flow.consent_calls w r5
                    ++ [flow.fetch (sessions w) target])%list).
  { unfold flow.consent_calls.
    destruct (str_in "consent" (flow.location r5)); repeat constructor. }
  destruct (urlparse_query (flow.location rf)) as [q|e] eqn:Hq.
  - assert (Hl : flow.lacks_parameter (flow.location rf) "code") by (now exists q).
    pose proof (login_no_code_run base_url email password w rd target r5 rf k
                  Hsign Hres Hf Hl) as E.
    apply run_report in E. destruct E as (E1 & E2 & E3).
    rewrite E3. repeat split; assumption.
  - pose proof (login_unparsed_run base_url email password w rd target r5 rf k e
                  Hsign Hres Hf Hq) as E.
    apply run_report_quiet in E. destruct E as (E1 & E2 & E3).
    rewrite E3. repeat split; assumption.
Qed.

(** C6. For every run of the login flow that gets through sign-in and
    has its interim redirect fetch answered, the consent-screen fetch and
    the consent-submission POST are performed if and only if the
    [Location] header of that answer contains the substring ["consent"].
    When it does, the consent screen is fetched right after the interim
    fetch; and when the two consent calls are answered, the second by a
    JSON object, the consent POST follows and the next fetch goes to the
    [redirectTo] of the consent response.  When it does not, the next
    fetch goes to the original redirect target, unchanged, and the
    consent POST is not among the calls of the run.  In both cases the
    only later calls are the token request and the backend exchange. *)
Theorem consent_branch (w : World) (rd : value) (r5 : Response) :
  flow.signs_in w rd ->
  net w 4%nat = Ok r5 ->
  if str_in "consent" (flow.location r5) then
    (exists rest,
       calls_of login w
       = (sign_in_calls w
          ++ [flow.fetch (sessions w) rd;
              flow.fetch (sessions w)
                (VStr ("https://qa.id.nethesis.it" ++ flow.location r5))]
          ++ rest)%list)
    /\ (forall rc1 rc2 body,
          net w 5%nat = Ok rc1 -> net w 6%nat = Ok rc2 ->
          content_json rc2 = Some (VDict body) ->
          exists rest,
            calls_of login w
            = (sign_in_calls w
               ++ [flow.fetch (sessions w) rd;
                   flow.fetch (sessions w)
                     (VStr ("https://qa.id.nethesis.it" ++ flow.location r5));
                   flow.submit_consent (sessions w);
                   flow.fetch (sessions w)
                     (match dict_get body "redirectTo" with
                      | Some v => v
                      | None => VNone
                      end)]
               ++ rest)%list
            /\ Forall (flow.exchanges base_url w) rest)
  else
    exists rest,
      calls_of login w
      = (sign_in_calls w
         ++ [flow.fetch (sessions w) rd; flow.fetch (sessions w) rd]
         ++ rest)%list
      /\ Forall (flow.exchanges base_url w) rest
      /\ ~ In (flow.submit_consent (sessions w)) (calls_of login w).
Proof.
  intros Hsign H5.
  destruct (str_in "consent" (flow.location r5)) eqn:Hcons.
  - split.
    + destruct (Logged_calls_of _ _ _ _
                  (login_fetches_consent base_url email password w rd r5 Hsign H5 Hcons))
        as (rest & E & _).
      exists rest. rewrite E. now rewrite <- !app_assoc.
    + intros rc1 rc2 body Hc1 Hc2 Hj.
      assert (Hres : flow.resolves_redirect w rd r5
                       (match dict_get body "redirectTo" with
                        | Some v => v
                        | None => VNone
                        end) 7).
      { split; [exact H5|]. rewrite Hcons. now exists rc1, rc2, body. }
      destruct (Logged_calls_of _ _ _ _
                  (login_fetches_exchanges base_url email password w rd _ r5 7 Hsign Hres))
        as (rest & E & F).
      exists rest. split; [|exact F].
      rewrite E. unfold flow.consent_calls. rewrite Hcons.
      now rewrite <- !app_assoc.
  - assert (Hres : flow.resolves_redirect w rd r5 rd 5).
    { split; [exact H5|]. now rewrite Hcons. }
    destruct (Logged_calls_of _ _ _ _
                (login_fetches_exchanges base_url email password w rd _ r5 5 Hsign Hres))
      as (rest & E & F).
    exists rest.
    assert (E' : calls_of login w
                 = (sign_in_calls w
                    ++ [flow.fetch (sessions w) rd; flow.fetch (sessions w) rd]
                    ++ rest)%list).
    { rewrite E. unfold flow.consent_calls. rewrite Hcons.
      now rewrite <- !app_assoc. }
    split; [exact E'|]. split; [exact F|].
    rewrite E'. intros Hin.
    apply in_app_or in Hin. destruct Hin as [Hin|Hin].
    + repeat (destruct Hin as [Hin|Hin]; [discriminate Hin|]). destruct Hin.
    + apply in_app_or in Hin. destruct Hin as [Hin|Hin].
      * repeat (destruct Hin as [Hin|Hin]; [discriminate Hin|]). destruct Hin.
      * rewrite Forall_forall in F. apply F in Hin.
        destruct Hin as [[c Hc]|[a Ha]]; discriminate.
Qed.

(** C7, as the code has it.  For every run of the login flow in which
    the interaction-submit response body contains no [redirectTo] field,
    [login] performs no further requests in the flow: its calls are the
    four of the sign-in.  When the body is a JSON object, [login] fails
    with the unexpected-response error (the message shows the raw body,
    the exit status is 1).  When the body is not JSON, the run ends with
    the decoding error of [r4.json()], and when it is JSON but no
    object, with [AttributeError]; in both cases nothing is printed. *)
Theorem login_without_redirect
    (w : World) (r1 r2 r3 r4 : Response) :
  net w 0%nat = Ok r1 -> net w 1%nat = Ok r2 ->
  net w 2%nat = Ok r3 -> status_code r3 <> 422 -> ok r3 = true ->
  net w 3%nat = Ok r4 ->
  match content_json r4 with
  | Some (VDict body) => dict_get body "redirectTo" = None
  | _ => True
  end ->
  calls_of login w = sign_in_calls w
  /\ match content_json r4 with
     | Some (VDict _) =>
         fst (login w) = Raise (SystemExit 1)
         /\ stderr (snd (login w))
            = (stderr w
               ++ [[Lit "Unexpected sign-in response: "; Fmt (VStr (text r4))]])%list
     | Some _ =>
         fst (login w) = Raise AttributeError
         /\ stderr (snd (login w)) = stderr w
     | None =>
         fst (login w) = Raise JSONDecodeError
         /\ stderr (snd (login w)) = stderr w
     end.
Proof.
  intros H1 H2 H3 Hs Hok H4 Hr.
  pose proof (login_no_object_run base_url email password w r1 r2 r3 r4
                H1 H2 H3 Hs Hok H4) as E.
  destruct (content_json r4) as [[| | | | | |body]|] eqn:Hj;
    try (apply run_report_quiet in E; destruct E as (E1 & E2 & E3);
         split; [exact E3|split; [exact E1|exact E2]]).
  assert (R : login w
              = (Raise (SystemExit 1),
                 complained [Lit "Unexpected sign-in response: "; Fmt (VStr (text r4))]
                   (after_calls (sign_in_calls w) (flow.started w)))).
  { apply (login_no_redirect_run base_url email password w r1 r2 r3 r4 body); auto.
    now rewrite Hr. }
  apply run_report in R. destruct R as (R1 & R2 & R3).
  split; [exact R3|split; [exact R1|exact R2]].
Qed.

(** C4. For every login attempt, the [code_verifier] (what
    [secrets.token_urlsafe(64)] returns) is a URL-safe string of at
    least 43 characters (it has 86), and the [code_challenge] the first
    call sends, with method [S256], equals the base64url encoding, with
    padding characters stripped, of the SHA-256 digest of that verifier;
    any later call that posts a [code_verifier] posts that same one. *)
Theorem pkce_verifier_and_challenge (w : World) :
  let verifier := drawn_verifier w in
  fst (token_urlsafe 64 w) = Ok verifier
  /\ (43 <= String.length verifier)%nat
  /\ str_forall urlsafe_char verifier = true
  /\ exists first rest params,
       calls_of login w = first :: rest
       /\ kwargs_params (kwargs first) = Some params
       /\ dict_get params "code_challenge"
          = Some (decode (base64url_nopad (sha256_digest (encode verifier))))
       /\ dict_get params "code_challenge_method" = Some "S256"
       /\ Forall (fun rq => forall d,
                    kwargs_data (kwargs rq) = Some d ->
                    dict_get d "code_verifier" = Some (VStr verifier)) rest.
Proof.
  intros verifier. subst verifier.
  split; [reflexivity|]. split; [rewrite drawn_verifier_length; lia|].
  split; [apply drawn_verifier_urlsafe|].
  destruct (Logged_calls_of _ _ _ _ (login_starts base_url email password w))
    as (rest & E & F).
  do 3 eexists. split; [exact E|]. repeat split. exact F.
Qed.

End LoginClaims.

(* ================================================================== *)
(** * Concrete runs *)
(* ================================================================== *)

Section ConcreteRuns.

Import mock_login.

Local Abbreviation run_login :=
  (alerting_config._logto_login (P := platform) base_url email password).

(** A whole login without consent screen, call by call. *)
Example login_eight_calls :
  fst (run_login world) = Ok (VStr "backend.jwt")
  /\ map (fun rq => (via rq, method rq, url rq)) (calls_of run_login world)
     = [(Some 0%nat, GET, VStr "https://qa.id.nethesis.it/oidc/auth");
        (Some 0%nat, PUT, VStr "https://qa.id.nethesis.it/api/interaction");
        (Some 0%nat, PATCH, VStr "https://qa.id.nethesis.it/api/interaction/identifiers");
        (Some 0%nat, POST, VStr "https://qa.id.nethesis.it/api/interaction/submit");
        (Some 0%nat, GET, VStr "https://qa.id.nethesis.it/oidc/auth/ZiaVxTqmQ");
        (Some 0%nat, GET, VStr "https://qa.id.nethesis.it/oidc/auth/ZiaVxTqmQ");
        (None, POST, VStr "https://qa.id.nethesis.it/oidc/token");
        (None, POST, VStr "https://my.example.org/backend/api/auth/exchange")].
Proof. vm_compute. split; reflexivity. Qed.

Lemma world_consent_signs_in : flow.signs_in world_consent (VStr redirect).
Proof.
  exists r_auth, r_put, r_patch, r_submit, [("redirectTo", VStr redirect)].
  repeat split; try reflexivity. discriminate.
Defined.

Lemma world_consent_resolves :
  flow.resolves_redirect world_consent (VStr redirect) r_to_consent
    (VStr redirect_after_consent) 7.
Proof.
  split; [reflexivity|].
  change (str_in "consent" (flow.location r_to_consent)) with true. cbv iota.
  exists r_consent_page, r_consent_submit, [("redirectTo", VStr redirect_after_consent)].
  repeat split.
Defined.

(** The login of [world_consent]: ten calls, the consent calls between
    the two redirect fetches, and the backend's token returned. *)
Lemma login_returns_backend_token_witness :
  let on_session :=
    (flow.sign_in_calls base_url email password world_consent
     ++ [flow.fetch 0%nat (VStr redirect)]
     ++ flow.consent_calls world_consent r_to_consent
     ++ [flow.fetch 0%nat (VStr redirect_after_consent)])%list in
  fst (run_login world_consent) = Ok (VStr "backend.jwt")
  /\ calls_of run_login world_consent
     = (on_session
        ++ [flow.token_request base_url (VStr "AUTHCODE") (drawn_verifier world_consent);
            flow.backend_exchange base_url (VStr "logto-access")])%list
  /\ Forall (fun rq => via rq = Some 0%nat) on_session
  /\ stderr (snd (run_login world_consent)) = [].
Proof.
  apply (login_returns_backend_token (P := platform) base_url email password
           world_consent (VStr redirect) (VStr redirect_after_consent)
           r_to_consent r_callback r_token r_exchange 7
           "AUTHCODE" "backend.jwt"
           [("access_token", VStr "logto-access"); ("token_type", VStr "Bearer")]
           [("code", VInt 200); ("data", VDict [("token", VStr "backend.jwt")])]
           [("token", VStr "backend.jwt")]
           (VStr "logto-access")).
  - exact world_consent_signs_in.
  - exact world_consent_resolves.
  - reflexivity.
  - exists "code=AUTHCODE&state=xyz&iss=https%3A%2F%2Fqa.id.nethesis.it%2Foidc", [].
    split; reflexivity.
  - discriminate.
  - reflexivity.
  - reflexivity.
  - reflexivity.
  - reflexivity.
  - reflexivity.
  - reflexivity.
  - reflexivity.
  - reflexivity.
  - discriminate.
Defined.

(** C2 as stated fails: the calls of a login carry no timeout, to begin
    with the very first one. *)
Lemma login_call_without_timeout :
  exists rq,
    In rq (calls_of run_login world)
    /\ url rq = VStr "https://qa.id.nethesis.it/oidc/auth"
    /\ kwargs_timeout (kwargs rq) = None.
Proof.
  eexists. split; [vm_compute; left; reflexivity|]. split; reflexivity.
Qed.

(** C3 as stated fails: a 422 answer to the PATCH whose body is not JSON
    ends the run with the decoding error of [r.json()]; the
    invalid-credentials message is not printed and the raw body is not
    used. *)
Lemma login_422_not_json :
  net world_422_html 2%nat = Ok r_422_html
  /\ status_code r_422_html = 422
  /\ text r_422_html = "<html>Unprocessable Entity</html>"
  /\ fst (run_login world_422_html) = Raise JSONDecodeError
  /\ stderr (snd (run_login world_422_html)) = [].
Proof. vm_compute. repeat split. Qed.

(** Wrong password, answered in JSON: the provider's message is shown. *)
Lemma login_rejects_credentials_witness :
  calls_of run_login world_422
  = [flow.start_authorization base_url 0%nat
       (drawn_verifier world_422) (drawn_state world_422);
     flow.begin_sign_in 0%nat;
     flow.submit_credentials email password 0%nat]
  /\ (exists e, fst (run_login world_422) = Raise e)
  /\ (forall body,
        content_json r_422 = Some (VDict body) ->
        fst (run_login world_422) = Raise (SystemExit 1)
        /\ stderr (snd (run_login world_422))
           = ([] ++ [[Lit "Authentication failed: ";
                      Fmt (match dict_get body "message" with
                           | Some m => m
                           | None => VStr (text r_422)
                           end)]])%list).
Proof.
  apply (login_rejects_credentials (P := platform) base_url email password
           world_422 r_auth r_put r_422); reflexivity.
Defined.

Example login_rejects_credentials_message :
  stderr (snd (run_login world_422))
  = [[Lit "Authentication failed: "; Fmt (VStr "Incorrect account or password.")]].
Proof. reflexivity. Qed.

Lemma world_no_code_signs_in : flow.signs_in world_no_code (VStr redirect).
Proof.
  exists r_auth, r_put, r_patch, r_submit, [("redirectTo", VStr redirect)].
  repeat split; try reflexivity. discriminate.
Defined.

(** C5 as stated fails: a [Location] that [urlparse] refuses has no
    [code] parameter either, and the run then ends with [ValueError];
    the no-authorization-code message is not printed. *)
Lemma login_location_not_parsed :
  net world_bad_location 5%nat = Ok r_bad_location
  /\ flow.location r_bad_location = "http://[::1/cb?error=access_denied"
  /\ str_in "code" (flow.location r_bad_location) = false
  /\ urlparse_query (Platform := platform_urlsplit) (flow.location r_bad_location)
     = Raise ValueError
  /\ fst (alerting_config._logto_login (P := platform_urlsplit)
            base_url email password world_bad_location)
     = Raise ValueError
  /\ stderr (snd (alerting_config._logto_login (P := platform_urlsplit)
                    base_url email password world_bad_location))
     = [].
Proof. vm_compute. repeat split. Qed.

(** What this [urlparse] makes of the redirects of the other runs. *)
Example urlsplit_query_callback :
  urlsplit_query callback
  = Ok "code=AUTHCODE&state=xyz&iss=https%3A%2F%2Fqa.id.nethesis.it%2Foidc"
  /\ urlsplit_query denied = Ok "error=access_denied&state=xyz"
  /\ urlsplit_query "/sign-in" = Ok EmptyString
  /\ urlsplit_query "http://[::1]/cb?code=c#f" = Ok "code=c".
Proof. vm_compute. repeat split. Qed.

Lemma world_bad_location_signs_in : flow.signs_in world_bad_location (VStr redirect).
Proof.
  exists r_auth, r_put, r_patch, r_submit, [("redirectTo", VStr redirect)].
  repeat split; try reflexivity. discriminate.
Defined.

(** The provider sends the browser back with an error instead of a code:
    the message is printed.  With a [Location] that is not a URL, the
    run ends with the error of [urlparse].  Either way the final fetch
    is the last call. *)
Lemma login_without_code_witness :
  (calls_of run_login world_no_code
   = (flow.sign_in_calls base_url email password world_no_code
      ++ [flow.fetch 0%nat (VStr redirect)]
      ++ flow.consent_calls world_no_code r_denied
      ++ [flow.fetch 0%nat (VStr redirect)])%list
   /\ Forall (fun rq => via rq = Some 0%nat) (calls_of run_login world_no_code)
   /\ fst (run_login world_no_code) = Raise (SystemExit 1)
   /\ stderr (snd (run_login world_no_code))
      = ([] ++ [[Lit "Failed to obtain authorization code from: ";
                 Fmt (VStr (flow.location r_denied))]])%list)
  /\ (calls_of (alerting_config._logto_login (P := platform_urlsplit)
                  base_url email password) world_bad_location
      = (flow.sign_in_calls (P := platform_urlsplit)
           base_url email password world_bad_location
         ++ [flow.fetch 0%nat (VStr redirect)]
         ++ flow.consent_calls world_bad_location r_denied
         ++ [flow.fetch 0%nat (VStr redirect)])%list
      /\ Forall (fun rq => via rq = Some 0%nat)
           (calls_of (alerting_config._logto_login (P := platform_urlsplit)
                        base_url email password) world_bad_location)
      /\ fst (alerting_config._logto_login (P := platform_urlsplit)
                base_url email password world_bad_location)
         = Raise ValueError
      /\ stderr (snd (alerting_config._logto_login (P := platform_urlsplit)
                        base_url email password world_bad_location))
         = []).
Proof.
  split.
  - apply (login_without_code (P := platform) base_url email password
             world_no_code (VStr redirect) (VStr redirect) r_denied r_denied 5).
    + exact world_no_code_signs_in.
    + split; [reflexivity|].
      change (str_in "consent" (flow.location r_denied)) with false. cbv iota.
      split; reflexivity.
    + reflexivity.
    + reflexivity.
  - apply (login_without_code (P := platform_urlsplit) base_url email password
             world_bad_location (VStr redirect) (VStr redirect)
             r_denied r_bad_location 5).
    + exact world_bad_location_signs_in.
    + split; [reflexivity|].
      change (str_in "consent" (flow.location r_denied)) with false. cbv iota.
      split; reflexivity.
    + reflexivity.
    + exact I.
Defined.

Lemma world_signs_in : flow.signs_in world (VStr redirect).
Proof.
  exists r_auth, r_put, r_patch, r_submit, [("redirectTo", VStr redirect)].
  repeat split; try reflexivity. discriminate.
Defined.

(** The consent screen is met in [world_consent], where the two consent
    calls stand between the two redirect fetches and the second fetch
    goes where the consent response says; it is not met in [world],
    where the redirect target is fetched twice and the consent POST is
    not made. *)
Lemma consent_branch_witness :
  ((exists rest,
      calls_of run_login world_consent
      = (flow.sign_in_calls base_url email password world_consent
         ++ [flow.fetch 0%nat (VStr redirect);
             flow.fetch 0%nat (VStr "https://qa.id.nethesis.it/consent")]
         ++ rest)%list)
   /\ (exists rest,
         calls_of run_login world_consent
         = (flow.sign_in_calls base_url email password world_consent
            ++ [flow.fetch 0%nat (VStr redirect);
                flow.fetch 0%nat (VStr "https://qa.id.nethesis.it/consent");
                flow.submit_consent 0%nat;
                flow.fetch 0%nat (VStr redirect_after_consent)]
            ++ rest)%list
         /\ Forall (flow.exchanges base_url world_consent) rest))
  /\ (exists rest,
        calls_of run_login world
        = (flow.sign_in_calls base_url email password world
           ++ [flow.fetch 0%nat (VStr redirect); flow.fetch 0%nat (VStr redirect)]
           ++ rest)%list
        /\ Forall (flow.exchanges base_url world) rest
        /\ ~ In (flow.submit_consent 0%nat) (calls_of run_login world)).
Proof.
  split.
  - destruct (consent_branch (P := platform) base_url email password
                world_consent (VStr redirect) r_to_consent
                world_consent_signs_in eq_refl) as [Hscreen Hcalls].
    split; [exact Hscreen|].
    exact (Hcalls r_consent_page r_consent_submit
             [("redirectTo", VStr redirect_after_consent)]
             eq_refl eq_refl eq_refl).
  - exact (consent_branch (P := platform) base_url email password
             world (VStr redirect) r_callback world_signs_in eq_refl).
Defined.

Example consent_branch_calls :
  map (fun rq => (method rq, url rq)) (calls_of run_login world_consent)
  = [(GET, VStr "https://qa.id.nethesis.it/oidc/auth");
     (PUT, VStr "https://qa.id.nethesis.it/api/interaction");
     (PATCH, VStr "https://qa.id.nethesis.it/api/interaction/identifiers");
     (POST, VStr "https://qa.id.nethesis.it/api/interaction/submit");
     (GET, VStr "https://qa.id.nethesis.it/oidc/auth/ZiaVxTqmQ");
     (GET, VStr "https://qa.id.nethesis.it/consent");
     (POST, VStr "https://qa.id.nethesis.it/api/interaction/consent");
     (GET, VStr "https://qa.id.nethesis.it/oidc/auth/Rk2pLw0s");
     (POST, VStr "https://qa.id.nethesis.it/oidc/token");
     (POST, VStr "https://my.example.org/backend/api/auth/exchange")].
Proof. vm_compute. reflexivity. Qed.

(** C7 as stated fails: a submit answer that is not JSON has no
    [redirectTo] field either, and the run then ends with the decoding
    error of [r4.json()] after the four calls of the sign-in; the
    unexpected-response message is not printed. *)
Lemma login_submit_not_json :
  net world_submit_html 3%nat = Ok r_submit_html
  /\ content_json r_submit_html = None
  /\ text r_submit_html = "<html>Bad Gateway</html>"
  /\ fst (run_login world_submit_html) = Raise JSONDecodeError
  /\ stderr (snd (run_login world_submit_html)) = []
  /\ calls_of run_login world_submit_html
     = flow.sign_in_calls base_url email password world_submit_html.
Proof. vm_compute. repeat split. Qed.

(** The submit call answered by [{}], by a page that is not JSON, and by
    [[]]. *)
Lemma login_without_redirect_witness :
  (calls_of run_login world_no_redirect
   = flow.sign_in_calls base_url email password world_no_redirect
   /\ fst (run_login world_no_redirect) = Raise (SystemExit 1)
   /\ stderr (snd (run_login world_no_redirect))
      = ([] ++ [[Lit "Unexpected sign-in response: "; Fmt (VStr "{}")]])%list)
  /\ (calls_of run_login world_submit_html
      = flow.sign_in_calls base_url email password world_submit_html
      /\ fst (run_login world_submit_html) = Raise JSONDecodeError
      /\ stderr (snd (run_login world_submit_html)) = [])
  /\ (calls_of run_login world_submit_list
      = flow.sign_in_calls base_url email password world_submit_list
      /\ fst (run_login world_submit_list) = Raise AttributeError
      /\ stderr (snd (run_login world_submit_list)) = []).
Proof.
  split; [|split].
  - apply (login_without_redirect (P := platform) base_url email password
             world_no_redirect r_auth r_put r_patch r_submit_empty);
      try reflexivity.
    discriminate.
  - apply (login_without_redirect (P := platform) base_url email password
             world_submit_html r_auth r_put r_patch r_submit_html);
      try reflexivity; try exact I.
    discriminate.
  - apply (login_without_redirect (P := platform) base_url email password
             world_submit_list r_auth r_put r_patch r_submit_list);
      try reflexivity; try exact I.
    discriminate.
Defined.

End ConcreteRuns.

(* ================================================================== *)
(** * Adding minutes to a time *)
(* ================================================================== *)

(** What [timedelta(minutes=n)] holds when it can be built. *)
Lemma timedelta_minutes_ok (n : Z) (d : timedelta) :
  timedelta_minutes n = Ok d ->
  0 <= td_seconds d < 86400 /\ td_microseconds d = 0
  /\ td_days d * 86400 + td_seconds d = 60 * n.
Proof.
  unfold timedelta_minutes, timedelta_norm. cbv zeta.
  cbn [td_days td_seconds td_microseconds].
  destruct (_ <? _); [discriminate|]. intros [= <-].
  cbn [td_days td_seconds td_microseconds].
  change (0 / 1000000) with 0. change (0 mod 1000000) with 0.
  rewrite ?Z.add_0_r, ?Z.add_0_l.
  pose proof (Z.mod_pos_bound (n * 60) 86400 ltac:(lia)).
  pose proof (Z.div_mod (n * 60) 86400 ltac:(lia)).
  repeat split; lia.
Qed.

Lemma timedelta_minutes_overflow (n : Z) (e : exn) :
  timedelta_minutes n = Raise e ->
  e = OverflowError /\ 999999999 * 86400 <= Z.abs (60 * n).
Proof.
  unfold timedelta_minutes, timedelta_norm. cbv zeta.
  cbn [td_days td_seconds td_microseconds].
  change (0 / 1000000) with 0. rewrite ?Z.add_0_r, ?Z.add_0_l.
  destruct (Z.ltb_spec 999999999 (Z.abs (n * 60 / 86400))) as [H|H]; [|discriminate].
  intros [= <-]. split; [reflexivity|].
  pose proof (Z.mod_pos_bound (n * 60) 86400 ltac:(lia)).
  pose proof (Z.div_mod (n * 60) 86400 ltac:(lia)).
  lia.
Qed.

(** [datetime_add] on a well-formed time and a normalised [timedelta] of
    whole seconds, with the normalisations worked out. *)
Lemma datetime_add_normal (t : datetime) (d : timedelta) :
  valid_datetime t ->
  0 <= td_seconds d < 86400 -> td_microseconds d = 0 ->
  let total := hour t * 3600 + minute t * 60 + second t + td_seconds d in
  let days := toordinal t + td_days d + total / 86400 in
  datetime_add t d
  = if (0 <? days) && (days <=? MAXORDINAL) then
      let '(y, m, dd) := ord2ymd days in
      Ok {| year := y; month := m; day := dd;
            hour := total mod 86400 / 3600;
            minute := (total mod 86400) mod 3600 / 60;
            second := ((total mod 86400) mod 3600) mod 60;
            microsecond := microsecond t |}
    else Raise OverflowError.
Proof.
  intros (Hy & Hm & Hd & Hh & Hmi & Hs & Hus) Hds Hdus. cbv zeta.
  unfold datetime_add, timedelta_add, timedelta_norm.
  cbn [td_days td_seconds td_microseconds].
  set (secs := hour t * 3600 + minute t * 60 + second t).
  assert (Hsecs : 0 <= secs < 86400) by (subst secs; lia).
  rewrite Hdus, !Z.add_0_r.
  rewrite (Z.div_small (microsecond t) 1000000) by lia.
  rewrite (Z.mod_small (microsecond t) 1000000) by lia.
  rewrite !Z.add_0_r.
  rewrite (Z.div_small secs 86400), (Z.mod_small secs 86400) by lia.
  rewrite !Z.add_0_r.
  rewrite (Z.div_small (microsecond t) 1000000) by lia.
  rewrite (Z.mod_small (microsecond t) 1000000) by lia.
  rewrite !Z.add_0_r.
  reflexivity.
Qed.

(** Adding a normalised [timedelta] of whole seconds to a well-formed
    time gives the well-formed time that many seconds away, or
    [OverflowError] when that time is not in the years 1 to 9999. *)
Lemma datetime_add_exact (t : datetime) (d : timedelta) :
  valid_datetime t ->
  0 <= td_seconds d < 86400 -> td_microseconds d = 0 ->
  let target := seconds_of t + td_days d * 86400 + td_seconds d in
  match datetime_add t d with
  | Ok t' =>
      in_calendar target = true
      /\ valid_datetime t' /\ seconds_of t' = target
      /\ microsecond t' = microsecond t
  | Raise e => e = OverflowError /\ in_calendar target = false
  end.
Proof.
  intros Hv Hds Hdus target.
  rewrite (datetime_add_normal t d Hv Hds Hdus). cbv zeta.
  destruct Hv as (Hy & Hm & Hd & Hh & Hmi & Hs & Hus).
  set (total := hour t * 3600 + minute t * 60 + second t + td_seconds d).
  set (days := toordinal t + td_days d + total / 86400).
  assert (Htot : total = 86400 * (total / 86400) + total mod 86400)
    by (apply Z.div_mod; lia).
  assert (Hrem : 0 <= total mod 86400 < 86400) by (apply Z.mod_pos_bound; lia).
  assert (Htarget : target = days * 86400 + total mod 86400).
  { subst target days. unfold seconds_of. fold total. lia. }
  unfold in_calendar. unfold MAXORDINAL in *.
  destruct (Z.ltb_spec 0 days) as [Hlo|Hlo]; cbn [andb].
  - destruct (Z.leb_spec days 3652059) as [Hhi|Hhi].
    + pose proof (ord2ymd_ymd2ord days) as Hrt.
      destruct (ord2ymd days) as [[y m] dd].
      destruct Hrt as (Hord & Hy' & Hm' & Hd'); [unfold MAXORDINAL; lia|].
      set (rem := total mod 86400) in *.
      assert (H3600 : rem = 3600 * (rem / 3600) + rem mod 3600) by (apply Z.div_mod; lia).
      assert (H60 : rem mod 3600 = 60 * (rem mod 3600 / 60) + (rem mod 3600) mod 60)
        by (apply Z.div_mod; lia).
      assert (Hb1 : 0 <= rem mod 3600 < 3600) by (apply Z.mod_pos_bound; lia).
      assert (Hb2 : 0 <= (rem mod 3600) mod 60 < 60) by (apply Z.mod_pos_bound; lia).
      assert (Hh1 : 0 <= rem / 3600 < 24).
      { split; [apply Z.div_pos; lia|apply Z.div_lt_upper_bound; lia]. }
      assert (Hm1 : 0 <= rem mod 3600 / 60 < 60).
      { split; [apply Z.div_pos; lia|apply Z.div_lt_upper_bound; lia]. }
      split.
      { apply andb_true_intro. split; [apply Z.leb_le|apply Z.ltb_lt]; lia. }
      unfold valid_datetime, seconds_of, toordinal.
      cbn [year month day hour minute second microsecond].
      rewrite Hord. repeat split; try lia.
    + split; [reflexivity|].
      apply andb_false_intro2. apply Z.ltb_ge. lia.
  - split; [reflexivity|].
    apply andb_false_intro1. apply Z.leb_gt. lia.
Qed.

(** [now + timedelta(minutes=n)] for a well-formed [now]: the time [n]
    minutes away, or [OverflowError] when there is no such time in the
    calendar. *)
Lemma minutes_later_exact (now : datetime) (n : Z) :
  valid_datetime now ->
  match minutes_later now n with
  | Ok t =>
      in_calendar (seconds_of now + 60 * n) = true
      /\ valid_datetime t /\ seconds_of t = seconds_of now + 60 * n
  | Raise e => e = OverflowError /\ in_calendar (seconds_of now + 60 * n) = false
  end.
Proof.
  intros Hv. unfold minutes_later.
  destruct (timedelta_minutes n) as [d|e] eqn:Hd.
  - destruct (timedelta_minutes_ok n d Hd) as (Hs & Hus & Hsum).
    pose proof (datetime_add_exact now d Hv Hs Hus) as H. cbv zeta in H.
    replace (seconds_of now + td_days d * 86400 + td_seconds d)
      with (seconds_of now + 60 * n) in H by lia.
    destruct (datetime_add now d); tauto.
  - destruct (timedelta_minutes_overflow n e Hd) as [-> Hbig].
    split; [reflexivity|].
    pose proof (toordinal_range now Hv) as Hord.
    destruct Hv as (Hy & Hm & Hdd & Hh & Hmi & Hs & Hus).
    unfold in_calendar, seconds_of, MAXORDINAL in *.
    destruct (Z.leb_spec 86400
                (toordinal now * 86400 + hour now * 3600 + minute now * 60
                 + second now + 60 * n)); cbn [andb]; [|reflexivity].
    apply Z.ltb_ge. lia.
Qed.
(* ================================================================== *)
(** * [alert.py]: [silence] *)
(* ================================================================== *)

Lemma fold_left_append {A B} (f : A -> B) (l : list A) (acc : list B) :
  fold_left (fun (ms : list B) x => (ms ++ [f x])%list) l acc = (acc ++ map f l)%list.
Proof.
  revert acc. induction l as [|x t IH]; intros acc; cbn [fold_left map].
  - now rewrite app_nil_r.
  - rewrite IH. now rewrite <- app_assoc.
Qed.

Section Silence.

Variable args : alert.SilenceNamespace.
Variable w : World.

Let now : datetime := clock w 0%nat.

(** The line a created silence is reported with. *)
Let created (silence_id : value) : line :=
  [Lit "Silence created for '"; Fmt (VStr (alert.s_alertname args));
   Lit "' (ID: "; Fmt silence_id;
   Lit ", duration: "; Fmt (VInt (alert.duration args)); Lit "m)"].

Let failed (resp : Response) : line :=
  [Lit "Failed to create silence (HTTP "; Fmt (VInt (status_code resp));
   Lit "): "; Fmt (VStr (text resp))].

(** A run that gets to post the silence. *)
Lemma silence_alert_run (ends_at : datetime) :
  minutes_later now (alert.duration args) = Ok ends_at ->
  well_formed_pairs (alert.s_labels args) = true ->
  alert.silence_alert args w
  = let w1 := called (silence_call args now ends_at) (ticked w) in
    match net w 0%nat with
    | Ok resp =>
        if ok resp then
          match content_json resp with
          | Some (VDict d) =>
              (Ok tt,
               printed (created (match dict_get d "silenceID" with
                                 | Some v => v
                                 | None => VStr "unknown"
                                 end)) w1)
          | Some _ => (Raise AttributeError, w1)
          | None => (Raise JSONDecodeError, w1)
          end
        else (Raise (SystemExit 1), complained (failed resp) w1)
    | Raise e => (Raise e, w1)
    end.
Proof.
  unfold minutes_later. intros Hends Hl. subst now.
  destruct (timedelta_minutes (alert.duration args)) as [delta|] eqn:Hdelta;
    [|discriminate].
  unfold alert.silence_alert.
  unfold bind at 1. cbn [datetime_now_utc].
  unfold bind at 1. unfold lift at 1. rewrite Hdelta.
  unfold bind at 1. unfold lift at 1. rewrite Hends.
  unfold bind at 1. rewrite (parse_kv_ok _ _ Hl).
  rewrite (fold_left_append
             (fun kv => VDict [("name", VStr (fst kv)); ("value", VStr (snd kv));
                               ("isRegex", VBool false)])).
  cbn [app]. fold (matcher "alertname" (alert.s_alertname args)).
  unfold bind at 1. cbn [requests_post http]. world. cbv zeta.
  fold (silence_call args (clock w 0%nat) ends_at).
  destruct (net w 0%nat) as [resp|e]; [|reflexivity].
  destruct (ok resp).
  - unfold bind at 1. unfold Response_json.
    destruct (content_json resp) as [[| | | | | |d]|]; try reflexivity.
  - reflexivity.
Qed.

(** A run whose end time cannot be computed stops right after reading
    the clock. *)
Lemma silence_alert_overflow (e : exn) :
  minutes_later now (alert.duration args) = Raise e ->
  alert.silence_alert args w = (Raise e, ticked w).
Proof.
  unfold minutes_later. intros H. subst now.
  unfold alert.silence_alert.
  unfold bind at 1. cbn [datetime_now_utc].
  unfold bind at 1. unfold lift at 1.
  destruct (timedelta_minutes (alert.duration args)) as [delta|e'] eqn:Hdelta.
  - unfold bind at 1. unfold lift at 1. rewrite H. reflexivity.
  - now injection H as ->.
Qed.

(** A run with a malformed [--labels] pair. *)
Lemma silence_alert_rejects (ends_at : datetime) :
  minutes_later now (alert.duration args) = Ok ends_at ->
  well_formed_pairs (alert.s_labels args) = false ->
  exists w',
    alert.silence_alert args w = (Raise (SystemExit 1), w')
    /\ sent w' = sent w /\ stdout w' = stdout w.
Proof.
  unfold minutes_later. intros Hends Hl. subst now.
  destruct (timedelta_minutes (alert.duration args)) as [delta|] eqn:Hdelta;
    [|discriminate].
  destruct (parse_kv_loop_bad _ [] (ticked w) Hl) as (bad & w' & E & _ & _ & Hs & Ho & _).
  exists w'. split; [|split; [exact Hs|exact Ho]].
  unfold alert.silence_alert.
  unfold bind at 1. cbn [datetime_now_utc].
  unfold bind at 1. unfold lift at 1. rewrite Hdelta.
  unfold bind at 1. unfold lift at 1. rewrite Hends.
  unfold bind at 1. unfold alert.parse_kv. unfold pairs_or_empty in E. rewrite E.
  reflexivity.
Qed.

(** The calls of a run, case by case. *)
Lemma silence_alert_calls :
  calls_of (alert.silence_alert args) w
  = match minutes_later now (alert.duration args) with
    | Ok ends_at =>
        if well_formed_pairs (alert.s_labels args)
        then [silence_call args now ends_at]
        else []
    | Raise _ => []
    end.
Proof.
  destruct (minutes_later now (alert.duration args)) as [ends_at|e] eqn:Hends.
  - destruct (well_formed_pairs (alert.s_labels args)) eqn:Hl.
    + apply calls_of_app. rewrite (silence_alert_run ends_at Hends Hl). cbv zeta.
      destruct (net w 0%nat) as [resp|e]; [|reflexivity].
      destruct (ok resp); [|reflexivity].
      destruct (content_json resp) as [[| | | | | |d]|]; reflexivity.
    + destruct (silence_alert_rejects ends_at Hends Hl) as (w' & E & Hs & _).
      apply calls_of_same. now rewrite E.
  - apply calls_of_same. now rewrite (silence_alert_overflow e Hends).
Qed.

End Silence.
(** X1. The matchers of a posted silence: the exact match on
    [alertname] with the value of [--alertname] comes first, and after
    it one exact-match matcher for each distinct key of the [--labels]
    pairs, with the value of the last pair of that key; every matcher
    has [isRegex] false.  A pair whose key is [alertname] adds a matcher
    of its own and leaves the first one as it is.  A run makes at most
    this one call. *)
Theorem silence_matchers (args : alert.SilenceNamespace) (w : World) (rq : Request) :
  In rq (calls_of (alert.silence_alert args) w) ->
  let pairs := map split_pair (pairs_or_empty (alert.s_labels args)) in
  exists body extra,
    calls_of (alert.silence_alert args) w = [rq]
    /\ kwargs_json (kwargs rq) = Some body
    /\ field body "matchers"
       = Some (VList (matcher "alertname" (alert.s_alertname args)
                      :: map (fun kv => matcher (fst kv) (snd kv)) extra))
    /\ NoDup (dict_keys extra)
    /\ (forall k, dict_get extra k = dict_last pairs k).
Proof.
  intros H pairs. rewrite silence_alert_calls in *.
  destruct (minutes_later _ _) as [ends_at|e]; [|destruct H].
  destruct (well_formed_pairs _); [|destruct H].
  destruct H as [<-|[]].
  exists (VDict [("matchers",
                  VList (matcher "alertname" (alert.s_alertname args)
                         :: map (fun kv => matcher (fst kv) (snd kv))
                              (parsed_pairs (alert.s_labels args))));
                 ("startsAt", VStr (strftime alert.TIME_FORMAT (clock w 0%nat)));
                 ("endsAt", VStr (strftime alert.TIME_FORMAT ends_at));
                 ("comment", VStr (alert.comment args));
                 ("createdBy", VStr (alert.created_by args))]),
         (parsed_pairs (alert.s_labels args)).
  split; [reflexivity|]. split; [reflexivity|]. split; [reflexivity|].
  unfold parsed_pairs. fold pairs. split.
  - apply dict_update_NoDup. constructor.
  - intros k. rewrite dict_get_update. now destruct (dict_last pairs k).
Qed.

(** X2. The window of a posted silence: [startsAt] is the reading of
    the clock and [endsAt] the time [--duration] minutes from it, both
    printed with the format [%Y-%m-%dT%H:%M:%SZ].  From the year 1000 on
    such a string has the shape [YYYY-MM-DDTHH:MM:SSZ] and, read back,
    denotes its time to the second; a time before the year 1000 is
    printed with its year unpadded, and the string does not read back.
    The duration is taken as it is given: nothing asks it to be
    positive, so with a negative one the silence posted ends before it
    starts. *)
Theorem silence_window (args : alert.SilenceNamespace) (w : World) (rq : Request) :
  In rq (calls_of (alert.silence_alert args) w) ->
  valid_datetime (clock w 0%nat) ->
  let now := clock w 0%nat in
  exists body ends_at,
    kwargs_json (kwargs rq) = Some body
    /\ field body "startsAt" = Some (VStr (strftime "%Y-%m-%dT%H:%M:%SZ" now))
    /\ field body "endsAt" = Some (VStr (strftime "%Y-%m-%dT%H:%M:%SZ" ends_at))
    /\ valid_datetime ends_at
    /\ seconds_of ends_at = seconds_of now + 60 * alert.duration args
    /\ read_iso (strftime "%Y-%m-%dT%H:%M:%SZ" now)
       = (if 1000 <=? year now then Some (to_the_second now) else None)
    /\ read_iso (strftime "%Y-%m-%dT%H:%M:%SZ" ends_at)
       = (if 1000 <=? year ends_at then Some (to_the_second ends_at) else None).
Proof.
  intros H Hv now. subst now. rewrite silence_alert_calls in H.
  pose proof (minutes_later_exact (clock w 0%nat) (alert.duration args) Hv) as Hex.
  destruct (minutes_later _ _) as [ends_at|e]; [|destruct H].
  destruct Hex as (_ & Hv' & Hsec).
  destruct (well_formed_pairs _); [|destruct H].
  destruct H as [<-|[]].
  eexists. exists ends_at.
  split; [reflexivity|]. split; [reflexivity|]. split; [reflexivity|].
  split; [exact Hv'|]. split; [exact Hsec|].
  split; apply read_strftime; assumption.
Qed.

(** X3. When the end of the silence falls outside the years 1 to 9999,
    the run ends with [OverflowError] right after reading the clock: no
    call is made and nothing is printed, whatever the [--labels] are.
    When it falls inside and the [--labels] pairs are well formed, the
    run makes its one call. *)
Theorem silence_end_out_of_calendar (args : alert.SilenceNamespace) (w : World) :
  valid_datetime (clock w 0%nat) ->
  let run := alert.silence_alert args w in
  if in_calendar (seconds_of (clock w 0%nat) + 60 * alert.duration args) then
    well_formed_pairs (alert.s_labels args) = true ->
    exists rq, calls_of (alert.silence_alert args) w = [rq]
  else
    fst run = Raise OverflowError
    /\ calls_of (alert.silence_alert args) w = []
    /\ stdout (snd run) = stdout w
    /\ stderr (snd run) = stderr w.
Proof.
  intros Hv run. subst run.
  pose proof (minutes_later_exact (clock w 0%nat) (alert.duration args) Hv) as Hex.
  rewrite silence_alert_calls.
  destruct (minutes_later _ _) as [ends_at|e] eqn:Hends.
  - destruct Hex as (-> & _). intros ->. eauto.
  - destruct Hex as (-> & ->).
    rewrite (silence_alert_overflow args w _ Hends). repeat split.
Qed.

(** X4. What a run that posted the silence makes of the answer.  A
    status of 400 to 599 gives one line on standard error and exit
    status 1.  Any other status is taken for success and the body is
    then decoded: a JSON object gives the line that reports the silence,
    with its [silenceID] or [unknown]; a body that is not JSON ends the
    run with the decoding error, and one that is JSON but no object with
    [AttributeError], in both cases after the silence was posted and
    with nothing printed. *)
Theorem silence_report (args : alert.SilenceNamespace) (w : World) (resp : Response) :
  calls_of (alert.silence_alert args) w <> [] ->
  net w 0%nat = Ok resp ->
  let run := alert.silence_alert args w in
  if ok resp then
    match content_json resp with
    | Some (VDict d) =>
        fst run = Ok tt
        /\ stdout (snd run)
           = (stdout w
              ++ [[Lit "Silence created for '"; Fmt (VStr (alert.s_alertname args));
                   Lit "' (ID: ";
                   Fmt (match dict_get d "silenceID" with
                        | Some v => v
                        | None => VStr "unknown"
                        end);
                   Lit ", duration: "; Fmt (VInt (alert.duration args)); Lit "m)"]])%list
        /\ stderr (snd run) = stderr w
    | Some _ =>
        fst run = Raise AttributeError
        /\ stdout (snd run) = stdout w /\ stderr (snd run) = stderr w
    | None =>
        fst run = Raise JSONDecodeError
        /\ stdout (snd run) = stdout w /\ stderr (snd run) = stderr w
    end
  else
    fst run = Raise (SystemExit 1)
    /\ stdout (snd run) = stdout w
    /\ stderr (snd run)
       = (stderr w
          ++ [[Lit "Failed to create silence (HTTP "; Fmt (VInt (status_code resp));
               Lit "): "; Fmt (VStr (text resp))]])%list.
Proof.
  intros Hcalls Hnet run. subst run. rewrite silence_alert_calls in Hcalls.
  destruct (minutes_later _ _) as [ends_at|e] eqn:Hends; [|now destruct Hcalls].
  destruct (well_formed_pairs _) eqn:Hl; [|now destruct Hcalls].
  rewrite (silence_alert_run args w ends_at Hends Hl). cbv zeta. rewrite Hnet.
  destruct (ok resp); [|repeat split].
  destruct (content_json resp) as [[| | | | | |d]|]; repeat split.
Qed.

Section SilenceRuns.

Import mock_silence.

(** Two hours of maintenance with three [--labels] pairs: three
    matchers after the first, the later [host] pair in the place of the
    earlier. *)
Lemma silence_matchers_witness :
  exists body extra,
    calls_of (alert.silence_alert maintenance) world
    = [silence_call maintenance mock.march_first (mk_datetime 2024 3 1 2 30 5 123456)]
    /\ kwargs_json
         (kwargs (silence_call maintenance mock.march_first
                    (mk_datetime 2024 3 1 2 30 5 123456)))
       = Some body
    /\ field body "matchers"
       = Some (VList (matcher "alertname" "HighCPU"
                      :: map (fun kv => matcher (fst kv) (snd kv)) extra))
    /\ NoDup (dict_keys extra)
    /\ (forall k, dict_get extra k
                  = dict_last [("host", "server-01"); ("alertname", "Other");
                               ("host", "server-02")] k).
Proof.
  apply (silence_matchers maintenance world
           (silence_call maintenance mock.march_first
              (mk_datetime 2024 3 1 2 30 5 123456))).
  vm_compute. left. reflexivity.
Defined.

Example silence_matchers_posted :
  exists body,
    kwargs_json (kwargs (silence_call maintenance mock.march_first
                           (mk_datetime 2024 3 1 2 30 5 123456))) = Some body
    /\ field body "matchers"
       = Some (VList [matcher "alertname" "HighCPU";
                      matcher "host" "server-02";
                      matcher "alertname" "Other"]).
Proof. eexists. split; reflexivity. Qed.

(** [--duration -90] at half past midnight on 1 March 2024: the silence
    posted ends at 23:00:05 on 29 February. *)
Lemma silence_window_witness :
  exists body ends_at,
    kwargs_json
      (kwargs (silence_call (lasting (-90)) mock.march_first
                 (mk_datetime 2024 2 29 23 0 5 123456)))
    = Some body
    /\ field body "startsAt" = Some (VStr "2024-03-01T00:30:05Z")
    /\ field body "endsAt" = Some (VStr (strftime "%Y-%m-%dT%H:%M:%SZ" ends_at))
    /\ valid_datetime ends_at
    /\ seconds_of ends_at = seconds_of mock.march_first + 60 * -90
    /\ read_iso "2024-03-01T00:30:05Z" = Some (to_the_second mock.march_first)
    /\ read_iso (strftime "%Y-%m-%dT%H:%M:%SZ" ends_at)
       = (if 1000 <=? year ends_at then Some (to_the_second ends_at) else None).
Proof.
  apply (silence_window (lasting (-90)) world
           (silence_call (lasting (-90)) mock.march_first
              (mk_datetime 2024 2 29 23 0 5 123456))).
  - vm_compute. left. reflexivity.
  - exact march_first_valid.
Defined.

Example silence_backdated :
  map (fun rq => match kwargs_json (kwargs rq) with
                 | Some body => (field body "startsAt", field body "endsAt")
                 | None => (None, None)
                 end)
      (calls_of (alert.silence_alert (lasting (-90))) world)
  = [(Some (VStr "2024-03-01T00:30:05Z"), Some (VStr "2024-02-29T23:00:05Z"))].
Proof. vm_compute. reflexivity. Qed.

(** [--duration -600000000]: the silence posted ends in the year 883,
    which is printed on three digits. *)
Example silence_year_883 :
  map (fun rq => match kwargs_json (kwargs rq) with
                 | Some body => (field body "startsAt", field body "endsAt")
                 | None => (None, None)
                 end)
      (calls_of (alert.silence_alert (lasting (-600000000))) world)
  = [(Some (VStr "2024-03-01T00:30:05Z"), Some (VStr "883-05-15T08:30:05Z"))].
Proof. vm_compute. reflexivity. Qed.

(** A silence of ten thousand million minutes would end after the year
    9999. *)
Lemma silence_end_out_of_calendar_witness :
  fst (alert.silence_alert (lasting 10000000000) world) = Raise OverflowError
  /\ calls_of (alert.silence_alert (lasting 10000000000)) world = []
  /\ stdout (snd (alert.silence_alert (lasting 10000000000) world)) = []
  /\ stderr (snd (alert.silence_alert (lasting 10000000000) world)) = [].
Proof.
  exact (silence_end_out_of_calendar (lasting 10000000000) world march_first_valid).
Defined.

(** The proxy answers [200] with an empty body: the silence is posted
    and the run ends with the decoding error. *)
Lemma silence_report_witness :
  fst (alert.silence_alert maintenance mock_alert.world) = Raise JSONDecodeError
  /\ stdout (snd (alert.silence_alert maintenance mock_alert.world)) = []
  /\ stderr (snd (alert.silence_alert maintenance mock_alert.world)) = [].
Proof.
  apply (silence_report maintenance mock_alert.world mock.ok_response).
  - vm_compute. discriminate.
  - reflexivity.
Defined.

Example silence_reported :
  stdout (snd (alert.silence_alert maintenance world))
  = [[Lit "Silence created for '"; Fmt (VStr "HighCPU"); Lit "' (ID: ";
      Fmt (VStr "4c1f0a3e"); Lit ", duration: "; Fmt (VInt 120); Lit "m)"]].
Proof. vm_compute. reflexivity. Qed.

End SilenceRuns.
(* ================================================================== *)
(** * [alert.py]: [list] *)
(* ================================================================== *)

Lemma nested_is_shaped (outer inner wanted : string) (a : value) :
  object_with outer a = true ->
  alert.nested_is outer inner wanted a = Ok (has_nested outer inner wanted a).
Proof.
  unfold object_with, alert.nested_is, has_nested, field, value_get.
  destruct a as [| | | | | |d]; try discriminate.
  destruct (dict_get d outer) as [[| | | | | |o]|]; try discriminate; intros _.
  - destruct (dict_get o inner) as [[| | | | | |]|]; reflexivity.
  - reflexivity.
Qed.

(** A comprehension whose test raises on no item is a filter. *)
Lemma comprehension_filter (test : value -> result bool) (p : value -> bool)
      (items : list value) :
  Forall (fun a => test a = Ok (p a)) items ->
  alert.comprehension test items = Ok (filter p items).
Proof.
  induction 1 as [|a rest Ha _ IH]; cbn [alert.comprehension filter]; [reflexivity|].
  rewrite Ha, IH. now destruct (p a).
Qed.

Lemma filter_filter {A} (p q : A -> bool) (l : list A) :
  filter q (filter p l) = filter (fun a => p a && q a) l.
Proof.
  induction l as [|a t IH]; cbn [filter]; [reflexivity|].
  destruct (p a); cbn [filter andb]; [|exact IH].
  destruct (q a); now rewrite IH.
Qed.

Lemma filter_all {A} (l : list A) : filter (fun _ => true) l = l.
Proof. induction l as [|a t IH]; cbn [filter]; [reflexivity|now rewrite IH]. Qed.

(** An optional filter over a list of well-shaped alerts. *)
Lemma select_shaped (outer inner : string) (wanted : option string) (alerts : list value) :
  Forall (fun a => object_with outer a = true) alerts ->
  alert.select outer inner wanted (VList alerts)
  = Some (Ok (VList (filter (passes outer inner wanted) alerts))).
Proof.
  intros H. unfold alert.select, passes.
  destruct wanted as [s|]; [|now rewrite filter_all].
  destruct (given (Some s)); [|now rewrite filter_all].
  cbn [alert.iter].
  rewrite (comprehension_filter _ (has_nested outer inner s)); [reflexivity|].
  revert H. apply Forall_impl. intros a. apply nested_is_shaped.
Qed.

Section Listing.

Context {R : Rendering}.

Variable args : alert.ListNamespace.
Variable w : World.

Let refused (resp : Response) : line :=
  [Lit "Failed to list alerts (HTTP "; Fmt (VInt (status_code resp));
   Lit "): "; Fmt (VStr (text resp))].

(** A run up to the decoded body. *)
Lemma list_alerts_run :
  alert.list_alerts args w
  = let w1 := called (list_call args) w in
    match net w 0%nat with
    | Ok resp =>
        if ok resp then
          match content_json resp with
          | Some alerts =>
              match alert.select "status" "state" (alert.l_state args) alerts with
              | Some (Ok alerts) =>
                  match alert.select "labels" "severity" (alert.l_severity args) alerts with
                  | Some (Ok alerts) =>
                      if truthy alerts
                      then (Ok Returned,
                            printed [Fmt (VStr (json_dumps_indent2 alerts))] w1)
                      else (Ok Returned, printed [Lit "No alerts found."] w1)
                  | Some (Raise e) => (Raise e, w1)
                  | None => (Ok TypeError, w1)
                  end
              | Some (Raise e) => (Raise e, w1)
              | None => (Ok TypeError, w1)
              end
          | None => (Raise JSONDecodeError, w1)
          end
        else (Raise (SystemExit 1), complained (refused resp) w1)
    | Raise e => (Raise e, w1)
    end.
Proof.
  unfold alert.list_alerts. cbv zeta.
  unfold bind at 1. cbn [requests_get http]. fold (list_call args).
  destruct (net w 0%nat) as [resp|e]; [|reflexivity].
  unfold bind at 1.
  destruct (ok resp); cbn [negb when]; [|reflexivity].
  cbn [ret]. unfold bind at 1. unfold Response_json.
  destruct (content_json resp) as [alerts|]; [|reflexivity].
  cbn [ret].
  destruct (alert.select "status" "state" _ alerts) as [[by_state|e]|]; try reflexivity.
  unfold bind at 1. cbn [lift].
  destruct (alert.select "labels" "severity" _ by_state) as [[by_severity|e]|];
    try reflexivity.
  unfold bind at 1. cbn [lift].
  destruct (truthy by_severity); reflexivity.
Qed.

(** Whatever comes of it, the run makes the one call. *)
Lemma list_alerts_calls : calls_of (alert.list_alerts args) w = [list_call args].
Proof.
  apply calls_of_app. rewrite list_alerts_run. cbv zeta.
  repeat match goal with
         | |- context [match ?x with _ => _ end] => destruct x
         end; reflexivity.
Qed.

End Listing.

(** X5. Every [list] run makes exactly one call, whatever comes of it:
    a GET of [<url>/alertmanager/api/v2/alerts] (trailing slashes of
    [--url] dropped) with the key and the secret as basic authentication
    and a timeout of 30 seconds.  A transport failure ends the run with
    its exception; an answer with a status of 400 to 599 ends it with
    exit status 1 after one line on standard error that shows the status
    and the body, and nothing on standard output. *)
Theorem list_alerts_call {R : Rendering} (args : alert.ListNamespace) (w : World) :
  let run := alert.list_alerts args w in
  calls_of (alert.list_alerts args) w
  = [ {| via := None; method := GET;
         url := VStr (rstrip "/" (alert.l_url args) ++ "/alertmanager/api/v2/alerts");
         kwargs := [Auth (alert.l_key args) (alert.l_secret args);
                    Headers [("Accept", "application/json")];
                    Timeout 30] |} ]
  /\ match net w 0%nat with
     | Ok resp =>
         if ok resp then stderr (snd run) = stderr w
         else fst run = Raise (SystemExit 1)
              /\ stdout (snd run) = stdout w
              /\ stderr (snd run)
                 = (stderr w
                    ++ [[Lit "Failed to list alerts (HTTP "; Fmt (VInt (status_code resp));
                         Lit "): "; Fmt (VStr (text resp))]])%list
     | Raise e => fst run = Raise e
     end.
Proof.
  intros run. subst run. fold (list_call args).
  split.
  - apply list_alerts_calls.
  - rewrite list_alerts_run. cbv zeta.
    destruct (net w 0%nat) as [resp|e]; [|reflexivity].
    destruct (ok resp); [|repeat split].
    repeat match goal with
           | |- context [match ?x with _ => _ end] => destruct x
           end; reflexivity.
Qed.

(** X6. Filtering is done on the client: of a listing of alert objects
    (each one's [status] and [labels], when it has them, objects too),
    [list] prints those whose [status.state] is [--state] and whose
    [labels.severity] is [--severity], in the order of the listing; a
    filter that was not given, or given empty, lets every alert pass,
    and an alert that lacks the field a filter reads does not pass it.
    When no alert is left the run prints [No alerts found.] instead. *)
Theorem list_alerts_filters {R : Rendering}
    (args : alert.ListNamespace) (w : World) (resp : Response) (alerts : list value) :
  net w 0%nat = Ok resp ->
  ok resp = true ->
  content_json resp = Some (VList alerts) ->
  forallb alert_shaped alerts = true ->
  let selected :=
    filter (fun a => passes "status" "state" (alert.l_state args) a
                     && passes "labels" "severity" (alert.l_severity args) a)
           alerts in
  let run := alert.list_alerts args w in
  fst run = Ok Returned
  /\ stdout (snd run)
     = (stdout w
        ++ [match selected with
            | [] => [Lit "No alerts found."]
            | _ :: _ => [Fmt (VStr (json_dumps_indent2 (VList selected)))]
            end])%list
  /\ stderr (snd run) = stderr w.
Proof.
  intros Hnet Hok Hjson Hshape selected run. subst run.
  rewrite forallb_forall in Hshape.
  assert (H1 : Forall (fun a => object_with "status" a = true) alerts).
  { apply Forall_forall. intros a Ha. specialize (Hshape a Ha).
    unfold alert_shaped in Hshape. now apply andb_prop in Hshape as [? _]. }
  assert (H2 : Forall (fun a => object_with "labels" a = true)
                      (filter (passes "status" "state" (alert.l_state args)) alerts)).
  { apply Forall_forall. intros a Ha. apply filter_In in Ha as [Ha _].
    specialize (Hshape a Ha).
    unfold alert_shaped in Hshape. now apply andb_prop in Hshape as [_ ?]. }
  rewrite list_alerts_run. cbv zeta. rewrite Hnet, Hok, Hjson.
  rewrite (select_shaped _ _ _ _ H1), (select_shaped _ _ _ _ H2), filter_filter.
  fold selected. destruct selected; repeat split.
Qed.

(** X7. Without a filter [list] does not look at the shape of what it
    is sent: whatever JSON value the body decodes to is printed as it
    is, except that a false one (an empty list or object, [null], zero,
    an empty string, [false]) gives [No alerts found.].  With a filter,
    a value that cannot be iterated (such as [null] or a number) ends
    the run with [TypeError] and nothing printed. *)
Theorem list_alerts_any_body {R : Rendering}
    (args : alert.ListNamespace) (w : World) (resp : Response) (body : value) :
  net w 0%nat = Ok resp ->
  ok resp = true ->
  content_json resp = Some body ->
  let run := alert.list_alerts args w in
  if given (alert.l_state args) || given (alert.l_severity args) then
    alert.iter body = None ->
    fst run = Ok TypeError /\ stdout (snd run) = stdout w /\ stderr (snd run) = stderr w
  else
    fst run = Ok Returned
    /\ stdout (snd run)
       = (stdout w
          ++ [if truthy body
              then [Fmt (VStr (json_dumps_indent2 body))]
              else [Lit "No alerts found."]])%list.
Proof.
  intros Hnet Hok Hjson run. subst run.
  rewrite list_alerts_run. cbv zeta. rewrite Hnet, Hok, Hjson.
  unfold alert.select.
  destruct (alert.l_state args) as [s|]; [destruct (given (Some s)) eqn:Hs|];
    cbn [orb].
  - intros ->. repeat split.
  - destruct (alert.l_severity args) as [v|]; [destruct (given (Some v)) eqn:Hv|].
    + intros ->. repeat split.
    + destruct (truthy body); repeat split.
    + cbn [given]. destruct (truthy body); repeat split.
  - cbn [given orb].
    destruct (alert.l_severity args) as [v|]; [destruct (given (Some v)) eqn:Hv|].
    + intros ->. repeat split.
    + destruct (truthy body); repeat split.
    + cbn [given]. destruct (truthy body); repeat split.
Qed.

Section ListRuns.

Import mock_list.

(** Of the five alerts listed, two are active and critical; the one
    without [status] is not among them. *)
Lemma list_alerts_filters_witness :
  fst (alert.list_alerts active_critical world) = Ok Returned
  /\ stdout (snd (alert.list_alerts active_critical world))
     = ([] ++ [[Fmt (VStr (json_dumps_indent2
                             (VList [firing "HighCPU" "critical" "active";
                                     firing "NoBackup" "critical" "active"])))]])%list
  /\ stderr (snd (alert.list_alerts active_critical world)) = [].
Proof.
  apply (list_alerts_filters active_critical world r_listed listed); reflexivity.
Defined.

(** The proxy answers [null]: without a filter nothing is found, with
    one the run ends with [TypeError]. *)
Lemma list_alerts_any_body_witness :
  (alert.iter VNone = None ->
   fst (alert.list_alerts active_critical world_null) = Ok TypeError
   /\ stdout (snd (alert.list_alerts active_critical world_null)) = []
   /\ stderr (snd (alert.list_alerts active_critical world_null)) = [])
  /\ fst (alert.list_alerts everything world_null) = Ok Returned
  /\ stdout (snd (alert.list_alerts everything world_null))
     = ([] ++ [[Lit "No alerts found."]])%list.
Proof.
  split.
  - apply (list_alerts_any_body active_critical world_null r_null VNone); reflexivity.
  - apply (list_alerts_any_body everything world_null r_null VNone); reflexivity.
Defined.

Example list_alerts_unauthorized :
  fst (alert.list_alerts everything world_unauthorized) = Raise (SystemExit 1)
  /\ stderr (snd (alert.list_alerts everything world_unauthorized))
     = [[Lit "Failed to list alerts (HTTP "; Fmt (VInt 401); Lit "): ";
         Fmt (VStr "unauthorized")]].
Proof. vm_compute. split; reflexivity. Qed.

End ListRuns.
(* ================================================================== *)
(** * [alerting_config.py]: the commands *)
(* ================================================================== *)

(** The parameters set one after the other are those of the arguments
    that were given, in the order of the assignments. *)
Lemma set_if_given_org (arg : option string) :
  alerting_config.set_if_given [] "organization_id" arg
  = optional "organization_id" arg.
Proof.
  unfold alerting_config.set_if_given, optional.
  destruct arg as [v|]; [|reflexivity]. now destruct (given (Some v)).
Qed.

Lemma set_if_given_alerts (org state severity system_key : option string) :
  alerting_config.set_if_given
    (alerting_config.set_if_given
       (alerting_config.set_if_given
          (alerting_config.set_if_given [] "organization_id" org)
          "state" state)
       "severity" severity)
    "system_key" system_key
  = (optional "organization_id" org ++ optional "state" state
     ++ optional "severity" severity ++ optional "system_key" system_key)%list.
Proof.
  unfold alerting_config.set_if_given, optional.
  destruct org as [a|]; [destruct (given (Some a))|];
    (destruct state as [b|]; [destruct (given (Some b))|]);
    (destruct severity as [c|]; [destruct (given (Some c))|]);
    (destruct system_key as [d|]; [destruct (given (Some d))|]);
    reflexivity.
Qed.

(** A run of the login only ever adds to the log. *)
Lemma login_sent {P : Platform} (base_url email password : string) (w : World) :
  sent (snd (alerting_config._logto_login base_url email password w))
  = (sent w ++ calls_of (alerting_config._logto_login base_url email password) w)%list.
Proof.
  destruct (login_no_timeout base_url email password w) as (new & E & _).
  now rewrite (calls_of_app _ w new E).
Qed.

Lemma calls_of_after {A B} (m : M A) (k : M B) (w w1 : World) (a : result A)
      (more : list Request) :
  m w = (a, w1) ->
  sent w1 = (sent w ++ calls_of m w)%list ->
  sent (snd (k w)) = (sent w1 ++ more)%list ->
  calls_of k w = (calls_of m w ++ more)%list.
Proof.
  intros Hm Hs Hk. apply calls_of_app. rewrite Hk, Hs. now rewrite app_assoc.
Qed.

Section Commands.

Context {P : Platform} {R : Rendering} {F : Files}.

Variable args : alerting_config.Namespace.
Variable w w1 : World.
Variable jwt : value.

Local Abbreviation login :=
  (alerting_config._logto_login (alerting_config.arg_url args)
     (alerting_config.arg_email args) (alerting_config.arg_password args)).

Hypothesis logged_in : login w = (Ok jwt, w1).

Local Abbreviation call m path more params body :=
  (backend_call m (alerting_config.arg_url args) path jwt more params body).

(** What becomes of an answer of the backend: the body is decoded
    first, then the status is looked at. *)
Let answered {A} (w2 : World) (k : Response -> value -> result A * World)
    : result A * World :=
  match net w1 0%nat with
  | Ok r =>
      match content_json r with
      | Some data =>
          if ok r then k r data
          else match value_get data "message" (VStr (text r)) with
               | Ok message =>
                   (Raise (SystemExit 1), complained (backend_error r message) w2)
               | Raise e => (Raise e, w2)
               end
      | None => (Raise JSONDecodeError, w2)
      end
  | Raise e => (Raise e, w2)
  end.

Lemma cmd_get_run :
  alerting_config.cmd_get args w
  = let w2 := called (call GET "/alerting/config" []
                        (optional "organization_id" (alerting_config.arg_org args)) [])
                     w1 in
    answered w2 (fun r data =>
      match value_get data "data" (VDict []) with
      | Ok inner =>
          match value_get inner "config" (VStr "") with
          | Ok config_yaml => (Ok tt, printed [Fmt config_yaml] w2)
          | Raise e => (Raise e, w2)
          end
      | Raise e => (Raise e, w2)
      end).
Proof.
  unfold alerting_config.cmd_get. rewrite (bind_ok _ _ _ _ _ logged_in).
  cbv zeta. rewrite set_if_given_org.
  unfold bind at 1. cbn [requests_get http]. unfold answered, backend_call.
  destruct (net w1 0%nat) as [r|e]; [|reflexivity].
  unfold bind at 1. unfold Response_json.
  destruct (content_json r) as [data|]; [|reflexivity]. cbn [ret].
  unfold bind at 1.
  destruct (ok r); cbn [negb when ret].
  - unfold bind at 1. unfold lift at 1.
    destruct (value_get data "data" _) as [inner|e]; [|reflexivity].
    unfold bind at 1. unfold lift at 1.
    destruct (value_get inner "config" _) as [c|e]; reflexivity.
  - unfold bind at 1. unfold bind at 1. unfold lift at 1.
    destruct (value_get data "message" _) as [m|e]; reflexivity.
Qed.

Lemma cmd_alerts_run :
  alerting_config.cmd_alerts args w
  = let w2 :=
      called (call GET "/alerting/alerts" []
                (optional "organization_id" (alerting_config.arg_org args)
                 ++ optional "state" (alerting_config.arg_state args)
                 ++ optional "severity" (alerting_config.arg_severity args)
                 ++ optional "system_key" (alerting_config.arg_system_key args))%list [])
             w1 in
    answered w2 (fun r data =>
      match value_get data "data" (VDict []) with
      | Ok inner =>
          match value_get inner "alerts" (VList []) with
          | Ok alerts =>
              (Ok tt,
               printed (if truthy alerts
                        then [Fmt (VStr (json_dumps_indent2 alerts))]
                        else [Lit "No alerts found."]) w2)
          | Raise e => (Raise e, w2)
          end
      | Raise e => (Raise e, w2)
      end).
Proof.
  unfold alerting_config.cmd_alerts. rewrite (bind_ok _ _ _ _ _ logged_in).
  cbv zeta. rewrite set_if_given_alerts.
  unfold bind at 1. cbn [requests_get http]. unfold answered, backend_call.
  destruct (net w1 0%nat) as [r|e]; [|reflexivity].
  unfold bind at 1. unfold Response_json.
  destruct (content_json r) as [data|]; [|reflexivity]. cbn [ret].
  unfold bind at 1.
  destruct (ok r); cbn [negb when ret].
  - unfold bind at 1. unfold lift at 1.
    destruct (value_get data "data" _) as [inner|e]; [|reflexivity].
    unfold bind at 1. unfold lift at 1.
    destruct (value_get inner "alerts" _) as [alerts|e]; [|reflexivity].
    destruct (truthy alerts); reflexivity.
  - unfold bind at 1. unfold bind at 1. unfold lift at 1.
    destruct (value_get data "message" _) as [m|e]; reflexivity.
Qed.

Lemma cmd_set_run :
  alerting_config.cmd_set args w
  = match json_load (alerting_config.arg_config args) with
    | Loaded config =>
        let w2 :=
          called (call POST "/alerting/config" [("Content-Type", "application/json")]
                    (optional "organization_id" (alerting_config.arg_org args))
                    [Json config])
                 w1 in
        answered w2 (fun r data =>
          (Ok tt, printed [Lit "Alerting configuration updated successfully."] w2))
    | Unreadable e =>
        (Raise (SystemExit 1),
         complained [Lit "Error reading config file: "; Fmt (VStr e)] w1)
    | Failed e => (Raise e, w1)
    end.
Proof.
  unfold alerting_config.cmd_set. rewrite (bind_ok _ _ _ _ _ logged_in).
  cbv zeta. rewrite set_if_given_org.
  unfold bind at 1.
  destruct (json_load _) as [config|e|e]; [|reflexivity|reflexivity].
  cbn [ret].
  unfold bind at 1. cbn [requests_post http]. unfold answered, backend_call.
  destruct (net w1 0%nat) as [r|e]; [|reflexivity].
  unfold bind at 1. unfold Response_json.
  destruct (content_json r) as [data|]; [|reflexivity]. cbn [ret].
  unfold bind at 1.
  destruct (ok r); cbn [negb when ret].
  - reflexivity.
  - unfold bind at 1. unfold bind at 1. unfold lift at 1.
    destruct (value_get data "message" _) as [m|e]; reflexivity.
Qed.

(** The log after an answered call. *)
Lemma answered_sent {A} (rq : Request) (k : Response -> value -> result A * World) :
  (forall r data, sent (snd (k r data)) = (sent w1 ++ [rq])%list) ->
  sent (snd (answered (called rq w1) k)) = (sent w1 ++ [rq])%list.
Proof.
  intros Hk. unfold answered.
  destruct (net w1 0%nat) as [r|e]; [|reflexivity].
  destruct (content_json r) as [data|]; [|reflexivity].
  destruct (ok r); [apply Hk|].
  destruct (value_get data "message" _); reflexivity.
Qed.

Lemma login_calls_before {B} (k : M B) (more : list Request) :
  sent (snd (k w)) = (sent w1 ++ more)%list ->
  calls_of k w = (calls_of login w ++ more)%list.
Proof.
  apply (calls_of_after login k w w1 (Ok jwt)); [exact logged_in|].
  pose proof (login_sent (alerting_config.arg_url args) (alerting_config.arg_email args)
                (alerting_config.arg_password args) w) as H.
  now rewrite logged_in in H.
Qed.

Lemma cmd_get_calls :
  calls_of (alerting_config.cmd_get args) w
  = (calls_of login w
     ++ [call GET "/alerting/config" []
           (optional "organization_id" (alerting_config.arg_org args)) []])%list.
Proof.
  apply login_calls_before. rewrite cmd_get_run. cbv zeta.
  apply answered_sent. intros r data.
  destruct (value_get data "data" _) as [inner|]; [|reflexivity].
  destruct (value_get inner "config" _); reflexivity.
Qed.

Lemma cmd_alerts_calls :
  calls_of (alerting_config.cmd_alerts args) w
  = (calls_of login w
     ++ [call GET "/alerting/alerts" []
           (optional "organization_id" (alerting_config.arg_org args)
            ++ optional "state" (alerting_config.arg_state args)
            ++ optional "severity" (alerting_config.arg_severity args)
            ++ optional "system_key" (alerting_config.arg_system_key args))%list []])%list.
Proof.
  apply login_calls_before. rewrite cmd_alerts_run. cbv zeta.
  apply answered_sent. intros r data.
  destruct (value_get data "data" _) as [inner|]; [|reflexivity].
  destruct (value_get inner "alerts" _); reflexivity.
Qed.

Lemma cmd_set_calls :
  calls_of (alerting_config.cmd_set args) w
  = (calls_of login w
     ++ match json_load (alerting_config.arg_config args) with
        | Loaded config =>
            [call POST "/alerting/config" [("Content-Type", "application/json")]
               (optional "organization_id" (alerting_config.arg_org args))
               [Json config]]
        | _ => []
        end)%list.
Proof.
  apply login_calls_before. rewrite cmd_set_run.
  destruct (json_load _) as [config|e|e].
  - cbv zeta. apply answered_sent. reflexivity.
  - cbn [snd sent complained]. now rewrite app_nil_r.
  - cbn [snd]. now rewrite app_nil_r.
Qed.

End Commands.
Lemma run_pair {A} (m : M A) (w : World) (a : result A) :
  fst (m w) = a -> m w = (a, snd (m w)).
Proof. intros <-. apply surjective_pairing. Qed.

Section CommandFacts.

Context {P : Platform} {R : Rendering} {F : Files}.

Variable args : alerting_config.Namespace.
Variable w w1 : World.
Variable jwt : value.

Local Abbreviation login :=
  (alerting_config._logto_login (alerting_config.arg_url args)
     (alerting_config.arg_email args) (alerting_config.arg_password args)).

Local Abbreviation backend_url :=
  (rstrip "/" (alerting_config.arg_url args) ++ "/backend/api").

(** X8. After a login that returned a token, [get] makes exactly one
    more call: a GET of [<url>/backend/api/alerting/config], outside
    the login's session, with the token as bearer in the
    [Authorization] header and without [timeout=].  Its only parameter
    is [organization_id], sent when [--org] was given and not empty;
    without [--org] no organization is asked for or looked up. *)
Theorem cmd_get_request :
  login w = (Ok jwt, w1) ->
  calls_of (alerting_config.cmd_get args) w
  = (calls_of login w
     ++ [ {| via := None; method := GET;
             url := VStr (backend_url ++ "/alerting/config")%string;
             kwargs :=
               [Headers [("Authorization", ("Bearer " ++ py_str jwt)%string)];
                Params (match alerting_config.arg_org args with
                        | Some org =>
                            if String.eqb org EmptyString then []
                            else [("organization_id", org)]
                        | None => []
                        end)] |} ])%list.
Proof.
  intros Hlogin. rewrite (cmd_get_calls args w w1 jwt Hlogin).
  unfold backend_call, optional.
  destruct (alerting_config.arg_org args) as [org|]; [|reflexivity].
  cbn [given truthy]. now destruct (String.eqb org EmptyString).
Qed.

(** X9. Every command decodes the backend's answer before it looks at
    its status.  When the body is not JSON the run therefore ends with
    the decoding error whatever the status is: a refusal is not
    reported with its [Error (status)] line and exit status 1, and [set]
    does not report an update that was accepted. *)
Theorem backend_answer_decoded_first (r : Response) :
  login w = (Ok jwt, w1) ->
  net w1 0%nat = Ok r ->
  content_json r = None ->
  let quiet (run : result unit * World) :=
    fst run = Raise JSONDecodeError
    /\ stdout (snd run) = stdout w1 /\ stderr (snd run) = stderr w1 in
  quiet (alerting_config.cmd_get args w)
  /\ quiet (alerting_config.cmd_alerts args w)
  /\ (forall config,
        json_load (alerting_config.arg_config args) = Loaded config ->
        quiet (alerting_config.cmd_set args w)).
Proof.
  intros Hlogin Hnet Hjson quiet. subst quiet. cbv beta.
  rewrite (cmd_get_run args w w1 jwt Hlogin), (cmd_alerts_run args w w1 jwt Hlogin),
    (cmd_set_run args w w1 jwt Hlogin).
  cbv beta zeta. rewrite Hnet, Hjson.
  split; [repeat split|]. split; [repeat split|].
  intros config ->. repeat split.
Qed.

(** X10. What [get] prints.  Of an accepted answer it prints
    [data.config], or an empty line when the object has no [data] or
    [data] has no [config]; a [data] that is not an object ends the run
    with [AttributeError].  A refused answer (status 400 to 599) gives
    [Error (status): message] on standard error, with the [message] of
    the object or the raw body when it has none, and exit status 1. *)
Theorem cmd_get_output (r : Response) (data : dict value) :
  login w = (Ok jwt, w1) ->
  net w1 0%nat = Ok r ->
  content_json r = Some (VDict data) ->
  let run := alerting_config.cmd_get args w in
  if ok r then
    match dict_get data "data" with
    | Some (VDict inner) =>
        fst run = Ok tt
        /\ stdout (snd run)
           = (stdout w1 ++ [[Fmt (match dict_get inner "config" with
                                  | Some config => config
                                  | None => VStr ""
                                  end)]])%list
    | Some _ => fst run = Raise AttributeError /\ stdout (snd run) = stdout w1
    | None => fst run = Ok tt /\ stdout (snd run) = (stdout w1 ++ [[Fmt (VStr "")]])%list
    end
  else
    fst run = Raise (SystemExit 1)
    /\ stdout (snd run) = stdout w1
    /\ stderr (snd run)
       = (stderr w1
          ++ [[Lit "Error ("; Fmt (VInt (status_code r)); Lit "): ";
               Fmt (match dict_get data "message" with
                    | Some message => message
                    | None => VStr (text r)
                    end)]])%list.
Proof.
  intros Hlogin Hnet Hjson run. subst run.
  rewrite (cmd_get_run args w w1 jwt Hlogin). cbv beta zeta. rewrite Hnet, Hjson.
  destruct (ok r); cbn [value_get].
  - destruct (dict_get data "data") as [[| | | | | |inner]|]; repeat split.
  - repeat split.
Qed.

(** X11. After a login that returned a token, [alerts] makes exactly
    one more call: a GET of [<url>/backend/api/alerting/alerts] with the
    token as bearer.  Its parameters are those of [--org], [--state],
    [--severity] and [--system-key] that were given and not empty, under
    the names [organization_id], [state], [severity] and [system_key]
    and in this order. *)
Theorem cmd_alerts_request :
  login w = (Ok jwt, w1) ->
  exists params,
    calls_of (alerting_config.cmd_alerts args) w
    = (calls_of login w
       ++ [ {| via := None; method := GET;
               url := VStr (backend_url ++ "/alerting/alerts")%string;
               kwargs := [Headers [("Authorization", ("Bearer " ++ py_str jwt)%string)];
                          Params params] |} ])%list
    /\ params
       = (optional "organization_id" (alerting_config.arg_org args)
          ++ optional "state" (alerting_config.arg_state args)
          ++ optional "severity" (alerting_config.arg_severity args)
          ++ optional "system_key" (alerting_config.arg_system_key args))%list
    /\ NoDup (dict_keys params)
    /\ (forall name arg,
          In (name, arg)
             [("organization_id", alerting_config.arg_org args);
              ("state", alerting_config.arg_state args);
              ("severity", alerting_config.arg_severity args);
              ("system_key", alerting_config.arg_system_key args)] ->
          dict_get params name = if given arg then arg else None).
Proof.
  intros Hlogin. eexists. split; [apply (cmd_alerts_calls args w w1 jwt Hlogin)|].
  split; [reflexivity|].
  unfold optional.
  destruct (alerting_config.arg_org args) as [a|]; [destruct (given (Some a)) eqn:Ha|];
    (destruct (alerting_config.arg_state args) as [b|];
     [destruct (given (Some b)) eqn:Hb|]);
    (destruct (alerting_config.arg_severity args) as [c|];
     [destruct (given (Some c)) eqn:Hc|]);
    (destruct (alerting_config.arg_system_key args) as [d|];
     [destruct (given (Some d)) eqn:Hd|]);
    (split;
     [ cbn; repeat constructor; cbn; intuition discriminate
     | intros name arg [E|[E|[E|[E|[]]]]]; injection E as <- <-;
       rewrite ?Ha, ?Hb, ?Hc, ?Hd; reflexivity ]).
Qed.

(** X12. What [alerts] prints.  Of an accepted answer it prints
    [data.alerts] as JSON, or [No alerts found.] when the object has no
    [data], [data] has no [alerts], or the value is a false one; a
    [data] that is not an object ends the run with [AttributeError].  A
    refused answer is reported as by [get]. *)
Theorem cmd_alerts_output (r : Response) (data : dict value) :
  login w = (Ok jwt, w1) ->
  net w1 0%nat = Ok r ->
  content_json r = Some (VDict data) ->
  let run := alerting_config.cmd_alerts args w in
  let found (alerts : value) : line :=
    if truthy alerts then [Fmt (VStr (json_dumps_indent2 alerts))]
    else [Lit "No alerts found."] in
  if ok r then
    match dict_get data "data" with
    | Some (VDict inner) =>
        fst run = Ok tt
        /\ stdout (snd run)
           = (stdout w1 ++ [found (match dict_get inner "alerts" with
                                   | Some alerts => alerts
                                   | None => VList []
                                   end)])%list
    | Some _ => fst run = Raise AttributeError /\ stdout (snd run) = stdout w1
    | None =>
        fst run = Ok tt /\ stdout (snd run) = (stdout w1 ++ [[Lit "No alerts found."]])%list
    end
  else
    fst run = Raise (SystemExit 1)
    /\ stdout (snd run) = stdout w1
    /\ stderr (snd run)
       = (stderr w1
          ++ [[Lit "Error ("; Fmt (VInt (status_code r)); Lit "): ";
               Fmt (match dict_get data "message" with
                    | Some message => message
                    | None => VStr (text r)
                    end)]])%list.
Proof.
  intros Hlogin Hnet Hjson run found. subst run found.
  rewrite (cmd_alerts_run args w w1 jwt Hlogin). cbv beta zeta. rewrite Hnet, Hjson.
  destruct (ok r); cbn [value_get].
  - destruct (dict_get data "data") as [[| | | | | |inner]|]; repeat split.
  - repeat split.
Qed.

(** X13. [set] logs in before it opens the configuration file.  When
    the file cannot be opened or is not JSON, the run has already gone
    through the whole login; it then prints
    [Error reading config file: ...] on standard error and exits with
    status 1, and makes no call beyond those of the login. *)
Theorem cmd_set_unreadable (e : string) :
  login w = (Ok jwt, w1) ->
  json_load (alerting_config.arg_config args) = Unreadable e ->
  let run := alerting_config.cmd_set args w in
  fst run = Raise (SystemExit 1)
  /\ stderr (snd run)
     = (stderr w1 ++ [[Lit "Error reading config file: "; Fmt (VStr e)]])%list
  /\ stdout (snd run) = stdout w1
  /\ calls_of (alerting_config.cmd_set args) w = calls_of login w.
Proof.
  intros Hlogin Hload run. subst run.
  rewrite (cmd_set_calls args w w1 jwt Hlogin), (cmd_set_run args w w1 jwt Hlogin).
  rewrite Hload, app_nil_r. repeat split.
Qed.

(** X14. With a configuration file that holds JSON, [set] makes one
    call after the login: a POST of [<url>/backend/api/alerting/config]
    whose JSON body is the content of the file as it was decoded, with
    the token as bearer, the [Content-Type] of JSON and
    [organization_id] as for [get].  An accepted answer whose body is
    JSON of any kind gives the line that reports the update. *)
Theorem cmd_set_posts (config : value) :
  login w = (Ok jwt, w1) ->
  json_load (alerting_config.arg_config args) = Loaded config ->
  let run := alerting_config.cmd_set args w in
  calls_of (alerting_config.cmd_set args) w
  = (calls_of login w
     ++ [ {| via := None; method := POST;
             url := VStr (backend_url ++ "/alerting/config")%string;
             kwargs :=
               [Headers [("Authorization", ("Bearer " ++ py_str jwt)%string);
                         ("Content-Type", "application/json")];
                Params (optional "organization_id" (alerting_config.arg_org args));
                Json config] |} ])%list
  /\ (forall r data,
        net w1 0%nat = Ok r -> content_json r = Some data -> ok r = true ->
        fst run = Ok tt
        /\ stdout (snd run)
           = (stdout w1 ++ [[Lit "Alerting configuration updated successfully."]])%list
        /\ stderr (snd run) = stderr w1).
Proof.
  intros Hlogin Hload run. subst run.
  rewrite (cmd_set_calls args w w1 jwt Hlogin), (cmd_set_run args w w1 jwt Hlogin).
  rewrite Hload. split; [reflexivity|].
  intros r data Hnet Hjson Hok. cbv beta zeta. rewrite Hnet, Hjson, Hok. repeat split.
Qed.

(** X15. No call of [alerting_config.py] is given a timeout: not those
    of the login, and not the call of [get], [set] or [alerts] to the
    backend either. *)
Theorem config_calls_unbounded :
  let unbounded (rq : Request) := kwargs_timeout (kwargs rq) = None in
  Forall unbounded (calls_of (alerting_config.cmd_get args) w)
  /\ Forall unbounded (calls_of (alerting_config.cmd_set args) w)
  /\ Forall unbounded (calls_of (alerting_config.cmd_alerts args) w).
Proof.
  intros unbounded. subst unbounded.
  repeat split; apply Calls_calls_of;
    unfold alerting_config.cmd_get, alerting_config.cmd_set, alerting_config.cmd_alerts;
    (apply Calls_bind; [apply login_no_timeout|intros token]);
    unfold requests_get, requests_post; calls; reflexivity.
Qed.

End CommandFacts.
Section CommandRuns.

Import mock_login mock_list mock_config.

Local Abbreviation run_login :=
  (alerting_config._logto_login (P := platform) base_url email password).

Local Abbreviation cmd_get :=
  (alerting_config.cmd_get (P := platform) (R := mock_list.rendering)).
Local Abbreviation cmd_set :=
  (alerting_config.cmd_set (P := platform) (R := mock_list.rendering) (F := files)).
Local Abbreviation cmd_alerts :=
  (alerting_config.cmd_alerts (P := platform) (R := mock_list.rendering)).

(** In these worlds the login returns the backend's token, whatever the
    backend answers afterwards. *)
Lemma mock_logged_in (answer : Response) :
  run_login (after_login answer)
  = (Ok (VStr "backend.jwt"), snd (run_login (after_login answer))).
Proof. apply run_pair. vm_compute. reflexivity. Qed.

Lemma mock_answered (answer : Response) :
  net (snd (run_login (after_login answer))) 0%nat = Ok answer.
Proof. vm_compute. reflexivity. Qed.

(** [alerting_config.py get --org veg2rx4p6lmo]: the ninth call. *)
Lemma cmd_get_request_witness :
  calls_of (cmd_get (invocation "" None)) (after_login r_config)
  = (calls_of run_login (after_login r_config)
     ++ [ {| via := None; method := GET;
             url := VStr "https://my.example.org/backend/api/alerting/config";
             kwargs := [Headers [("Authorization", "Bearer backend.jwt")];
                        Params [("organization_id", "veg2rx4p6lmo")]] |} ])%list.
Proof.
  exact (cmd_get_request (invocation "" None) (after_login r_config) _ (VStr "backend.jwt")
           (mock_logged_in r_config)).
Defined.

(** A proxy in front of the backend answers [502] with a page of HTML. *)
Lemma backend_answer_decoded_first_witness :
  let quiet (run : result unit * World) :=
    fst run = Raise JSONDecodeError
    /\ stdout (snd run) = [] /\ stderr (snd run) = [] in
  quiet (cmd_get (invocation "config.json" None) (after_login r_bad_gateway))
  /\ quiet (cmd_alerts (invocation "config.json" None) (after_login r_bad_gateway))
  /\ (forall config,
        json_load "config.json" = Loaded config ->
        quiet (cmd_set (invocation "config.json" None) (after_login r_bad_gateway))).
Proof.
  exact (backend_answer_decoded_first (invocation "config.json" None)
           (after_login r_bad_gateway) _ (VStr "backend.jwt") r_bad_gateway
           (mock_logged_in r_bad_gateway) (mock_answered r_bad_gateway) eq_refl).
Defined.

(** The configuration is printed as the backend holds it. *)
Lemma cmd_get_output_witness :
  fst (cmd_get (invocation "" None) (after_login r_config)) = Ok tt
  /\ stdout (snd (cmd_get (invocation "" None) (after_login r_config)))
     = ([] ++ [[Fmt (VStr "route:\n  receiver: blackhole\n")]])%list.
Proof.
  exact (cmd_get_output (invocation "" None) (after_login r_config) _ (VStr "backend.jwt")
           r_config _ (mock_logged_in r_config) (mock_answered r_config) eq_refl).
Defined.

Example cmd_get_forbidden :
  fst (cmd_get (invocation "" None) (after_login r_forbidden)) = Raise (SystemExit 1)
  /\ stderr (snd (cmd_get (invocation "" None) (after_login r_forbidden)))
     = [[Lit "Error ("; Fmt (VInt 403); Lit "): "; Fmt (VStr "access denied")]].
Proof. vm_compute. split; reflexivity. Qed.

(** [alerting_config.py alerts --org veg2rx4p6lmo --state active]. *)
Lemma cmd_alerts_request_witness :
  exists params,
    calls_of (cmd_alerts (invocation "" (Some "active"))) (after_login r_alerts)
    = (calls_of run_login (after_login r_alerts)
       ++ [ {| via := None; method := GET;
               url := VStr "https://my.example.org/backend/api/alerting/alerts";
               kwargs := [Headers [("Authorization", "Bearer backend.jwt")];
                          Params params] |} ])%list
    /\ params = [("organization_id", "veg2rx4p6lmo"); ("state", "active")]
    /\ NoDup (dict_keys params)
    /\ (forall name arg,
          In (name, arg)
             [("organization_id", Some "veg2rx4p6lmo"); ("state", Some "active");
              ("severity", None); ("system_key", None)] ->
          dict_get params name = if given arg then arg else None).
Proof.
  exact (cmd_alerts_request (invocation "" (Some "active")) (after_login r_alerts) _
           (VStr "backend.jwt") (mock_logged_in r_alerts)).
Defined.

Lemma cmd_alerts_output_witness :
  fst (cmd_alerts (invocation "" None) (after_login r_alerts)) = Ok tt
  /\ stdout (snd (cmd_alerts (invocation "" None) (after_login r_alerts)))
     = ([] ++ [[Fmt (VStr (json_dumps_indent2 (VList mock_list.listed)))]])%list.
Proof.
  exact (cmd_alerts_output (invocation "" None) (after_login r_alerts) _
           (VStr "backend.jwt") r_alerts _
           (mock_logged_in r_alerts) (mock_answered r_alerts) eq_refl).
Defined.

(** [set --config notes.txt], a file that is not JSON: eight calls of
    the login, none to the backend. *)
Lemma cmd_set_unreadable_witness :
  fst (cmd_set (invocation "notes.txt" None) (after_login r_config))
  = Raise (SystemExit 1)
  /\ stderr (snd (cmd_set (invocation "notes.txt" None) (after_login r_config)))
     = ([] ++ [[Lit "Error reading config file: ";
                Fmt (VStr "Expecting value: line 1 column 1 (char 0)")]])%list
  /\ stdout (snd (cmd_set (invocation "notes.txt" None) (after_login r_config))) = []
  /\ calls_of (cmd_set (invocation "notes.txt" None)) (after_login r_config)
     = calls_of run_login (after_login r_config).
Proof.
  exact (cmd_set_unreadable (invocation "notes.txt" None) (after_login r_config) _
           (VStr "backend.jwt") _ (mock_logged_in r_config) eq_refl).
Defined.

Example cmd_set_unreadable_calls :
  List.length (calls_of (cmd_set (invocation "notes.txt" None)) (after_login r_config))
  = 8%nat.
Proof. vm_compute. reflexivity. Qed.

(** [set --config config.json]. *)
Lemma cmd_set_posts_witness :
  calls_of (cmd_set (invocation "config.json" None)) (after_login r_config)
  = (calls_of run_login (after_login r_config)
     ++ [ {| via := None; method := POST;
             url := VStr "https://my.example.org/backend/api/alerting/config";
             kwargs :=
               [Headers [("Authorization", "Bearer backend.jwt");
                         ("Content-Type", "application/json")];
                Params [("organization_id", "veg2rx4p6lmo")];
                Json config_json] |} ])%list
  /\ (forall r data,
        net (snd (run_login (after_login r_config))) 0%nat = Ok r ->
        content_json r = Some data -> ok r = true ->
        fst (cmd_set (invocation "config.json" None) (after_login r_config)) = Ok tt
        /\ stdout (snd (cmd_set (invocation "config.json" None) (after_login r_config)))
           = ([] ++ [[Lit "Alerting configuration updated successfully."]])%list
        /\ stderr (snd (cmd_set (invocation "config.json" None) (after_login r_config)))
           = []).
Proof.
  exact (cmd_set_posts (invocation "config.json" None) (after_login r_config) _
           (VStr "backend.jwt") _ (mock_logged_in r_config) eq_refl).
Defined.

End CommandRuns.
(* ================================================================== *)
(** * [alert.py]: every command *)
(* ================================================================== *)

(** [parse_kv] makes no call. *)
Lemma Calls_parse_kv (P : Request -> Prop) (pairs : option (list string)) :
  Calls P (alert.parse_kv pairs).
Proof.
  apply Calls_silent. intros w.
  destruct (well_formed_pairs pairs) eqn:H.
  - now rewrite (parse_kv_ok _ _ H).
  - destruct (parse_kv_bad _ w H) as (w' & E & Hs). now rewrite E.
Qed.

(** X16. Every call of [alert.py] is bounded and authenticated: [push],
    [resolve], [silence] and [list] call the proxy outside any session,
    with a timeout of 30 seconds and with [--key] and [--secret] as
    basic authentication, whatever the arguments and the answers. *)
Theorem alert_calls_bounded {R : Rendering}
    (args : alert.Namespace) (silence : alert.SilenceNamespace)
    (listing : alert.ListNamespace) (w : World) :
  let bounded (key secret : string) (rq : Request) :=
    via rq = None
    /\ kwargs_timeout (kwargs rq) = Some 30
    /\ In (Auth key secret) (kwargs rq) in
  Forall (bounded (alert.key args) (alert.secret args))
         (calls_of (alert.push_alert args) w)
  /\ Forall (bounded (alert.key args) (alert.secret args))
            (calls_of (alert.resolve_alert args) w)
  /\ Forall (bounded (alert.s_key silence) (alert.s_secret silence))
            (calls_of (alert.silence_alert silence) w)
  /\ Forall (bounded (alert.l_key listing) (alert.l_secret listing))
            (calls_of (alert.list_alerts listing) w).
Proof.
  intros bounded. subst bounded.
  repeat split; apply Calls_calls_of;
    unfold alert.push_alert, alert.resolve_alert, alert.silence_alert, alert.list_alerts,
      requests_post, requests_get;
    repeat first [ apply Calls_parse_kv | progress calls ];
    cbn; intuition.
Qed.

(** [s.split("=", 1)] of a key without ['='], an ['='] and a value. *)
Lemma split1_key_value (k v : string) :
  str_in "=" k = false -> split1 "=" (k ++ "=" ++ v) = [k; v].
Proof.
  change ("=" ++ v) with (String "=" v).
  induction k as [|a k IH]; intros H; [reflexivity|].
  rewrite str_in_char in H.
  cbn [append split1].
  destruct (Ascii.eqb a "="); [discriminate|].
  now rewrite (IH H).
Qed.
(** ** [parse_kv] reads back what was written *)

Lemma str_in_key_value (k v : string) : str_in "=" (k ++ "=" ++ v) = true.
Proof.
  change ("=" ++ v) with (String "=" v).
  induction k as [|a k IH]; cbn [append]; rewrite str_in_char.
  - reflexivity.
  - rewrite IH. now destruct (Ascii.eqb a "=").
Qed.

Lemma dict_set_fresh {A} (d : dict A) k v :
  ~ In k (dict_keys d) -> dict_set d k v = (d ++ [(k, v)])%list.
Proof.
  induction d as [|[k' v'] t IH]; cbn; intros H; [reflexivity|].
  destruct (String.eqb_spec k' k) as [->|Hne]; [tauto|].
  rewrite IH; tauto.
Qed.

Lemma dict_update_fresh {A} (e d : dict A) :
  NoDup (dict_keys d ++ dict_keys e) -> dict_update d e = (d ++ e)%list.
Proof.
  unfold dict_update. revert d.
  induction e as [|[k v] t IH]; intros d H; cbn [fold_left fst snd].
  - now rewrite app_nil_r.
  - cbn [dict_keys map fst] in H.
    rewrite dict_set_fresh.
    + rewrite IH.
      * now rewrite <- app_assoc.
      * unfold dict_keys in *. rewrite map_app. cbn [map fst].
        now rewrite <- app_assoc.
    + apply NoDup_remove_2 in H. intros Hin. apply H, in_or_app. now left.
Qed.

(** X17. [parse_kv] reads back what was written.  Pairs written as
    [key=value], with distinct keys that hold no ['='], are parsed into
    exactly these keys and values, in the order they were given: a
    value may hold ['='] itself, since a pair is cut at its first
    ['='] only, and it may be empty, as may the key.  Nothing is
    printed. *)
Theorem parse_kv_round_trip (d : dict string) (w : World) :
  NoDup (dict_keys d) ->
  (forall k, In k (dict_keys d) -> str_in "=" k = false) ->
  alert.parse_kv (Some (map written d)) w = (Ok d, w).
Proof.
  intros Hnd Hkeys.
  rewrite parse_kv_ok.
  - f_equal. f_equal. unfold parsed_pairs, pairs_or_empty.
    rewrite map_map.
    rewrite (map_ext_in _ (fun kv => kv)).
    + rewrite map_id. now apply (dict_update_fresh d []).
    + intros [k v] Hin. unfold split_pair, written. cbn [fst snd].
      rewrite split1_key_value; [reflexivity|].
      apply Hkeys. unfold dict_keys. now apply (in_map fst) in Hin.
  - unfold well_formed_pairs, pairs_or_empty. apply forallb_forall.
    intros x Hx. apply in_map_iff in Hx as ([k v] & <- & _).
    apply str_in_key_value.
Qed.

(** [--labels host=server-01 expr=a=b =x]. *)
Lemma parse_kv_round_trip_witness :
  alert.parse_kv (Some ["host=server-01"; "expr=a=b"; "=x"]) mock_alert.world
  = (Ok [("host", "server-01"); ("expr", "a=b"); ("", "x")], mock_alert.world).
Proof.
  apply (parse_kv_round_trip [("host", "server-01"); ("expr", "a=b"); ("", "x")]
           mock_alert.world).
  - repeat constructor; cbn; intuition discriminate.
  - intros k [<-|[<-|[<-|[]]]]; reflexivity.
Defined.

(** ** What [push] and [resolve] make of the answer *)

Section PushResolveRuns.

Variable args : alert.Namespace.
Variable w : World.

Let report (verb : string) (resp : Response) : line :=
  [Lit "Alert '"; Fmt (VStr (alert.alertname args));
   Lit ("' " ++ verb ++ " successfully (HTTP "); Fmt (VInt (status_code resp)); Lit ")"].

Let refusal (verb : string) (resp : Response) : line :=
  [Lit ("Failed to " ++ verb ++ " alert (HTTP "); Fmt (VInt (status_code resp));
   Lit "): "; Fmt (VStr (text resp))].

(** The outcome of a run that posted the request [rq]. *)
Let posted (rq : Request) (done failed : string) : result unit * World :=
  let w1 := called rq (ticked w) in
  match net w 0%nat with
  | Ok resp =>
      if ok resp then (Ok tt, printed (report done resp) w1)
      else (Raise (SystemExit 1), complained (refusal failed resp) w1)
  | Raise e => (Raise e, w1)
  end.

Lemma push_alert_run :
  calls_of (alert.push_alert args) w <> [] ->
  exists rq, alert.push_alert args w = posted rq "pushed" "push".
Proof.
  intros Hcalls.
  destruct (well_formed_pairs (alert.labels args)) eqn:Hl;
    [destruct (well_formed_pairs (alert.annotations args)) eqn:Ha|].
  - eexists. unfold alert.push_alert.
    unfold bind at 1. rewrite (parse_kv_ok _ _ Hl).
    unfold bind at 1. rewrite (parse_kv_ok _ _ Ha).
    unfold bind at 1. cbn [datetime_now_utc].
    unfold bind at 1. cbn [requests_post http]. unfold posted. world.
    destruct (net w 0%nat) as [resp|e]; [|reflexivity].
    destruct (ok resp); reflexivity.
  - destruct (push_alert_rejects args w) as [E _]; [now rewrite Hl, Ha|]. contradiction.
  - destruct (push_alert_rejects args w) as [E _]; [now rewrite Hl|]. contradiction.
Qed.

Lemma resolve_alert_run :
  calls_of (alert.resolve_alert args) w <> [] ->
  exists rq, alert.resolve_alert args w = posted rq "resolved" "resolve".
Proof.
  intros Hcalls.
  destruct (well_formed_pairs (alert.labels args)) eqn:Hl.
  - destruct (datetime_sub (clock w 0%nat) (timedelta_hours 1)) as [earlier|e] eqn:He.
    + eexists. unfold alert.resolve_alert.
      unfold bind at 1. rewrite (parse_kv_ok _ _ Hl).
      unfold bind at 1. cbn [datetime_now_utc].
      unfold bind at 1. unfold lift. rewrite He.
      unfold bind at 1. cbn [requests_post http]. unfold posted. world.
      destruct (net w 0%nat) as [resp|e]; [|reflexivity].
      destruct (ok resp); reflexivity.
    + destruct (resolve_alert_overflow args w e Hl He) as [E _]. contradiction.
  - destruct (resolve_alert_rejects args w Hl) as [E _]. contradiction.
Qed.

End PushResolveRuns.

(** X18. What [push] and [resolve] make of the answer to the alert
    they posted.  The status alone decides: a status of 400 to 599
    gives one line on standard error, with the status and the body, and
    exit status 1; any other status gives one line on standard output
    that reports the success.  The body is not decoded, so it need not
    be JSON. *)
Theorem alert_post_outcome (args : alert.Namespace) (w : World) (resp : Response) :
  net w 0%nat = Ok resp ->
  let outcome (run : result unit * World) (done failed : string) :=
    if ok resp then
      fst run = Ok tt
      /\ stdout (snd run)
         = (stdout w
            ++ [[Lit "Alert '"; Fmt (VStr (alert.alertname args));
                 Lit ("' " ++ done ++ " successfully (HTTP ")%string;
                 Fmt (VInt (status_code resp)); Lit ")"]])%list
      /\ stderr (snd run) = stderr w
    else
      fst run = Raise (SystemExit 1)
      /\ stdout (snd run) = stdout w
      /\ stderr (snd run)
         = (stderr w
            ++ [[Lit ("Failed to " ++ failed ++ " alert (HTTP ")%string;
                 Fmt (VInt (status_code resp));
                 Lit "): "; Fmt (VStr (text resp))]])%list in
  (calls_of (alert.push_alert args) w <> [] ->
   outcome (alert.push_alert args w) "pushed" "push")
  /\ (calls_of (alert.resolve_alert args) w <> [] ->
      outcome (alert.resolve_alert args w) "resolved" "resolve").
Proof.
  intros Hnet outcome. subst outcome. cbv beta.
  split; intros Hcalls.
  - destruct (push_alert_run args w Hcalls) as (rq & ->). cbv beta zeta.
    rewrite Hnet. destruct (ok resp); repeat split.
  - destruct (resolve_alert_run args w Hcalls) as (rq & ->). cbv beta zeta.
    rewrite Hnet. destruct (ok resp); repeat split.
Qed.

(** The proxy answers [200] with an empty body, which is no JSON. *)
Lemma alert_post_outcome_witness :
  (calls_of (alert.push_alert mock.high_cpu) mock_alert.world <> [] ->
   fst (alert.push_alert mock.high_cpu mock_alert.world) = Ok tt
   /\ stdout (snd (alert.push_alert mock.high_cpu mock_alert.world))
      = ([] ++ [[Lit "Alert '"; Fmt (VStr "HighCPU");
                 Lit "' pushed successfully (HTTP "; Fmt (VInt 200); Lit ")"]])%list
   /\ stderr (snd (alert.push_alert mock.high_cpu mock_alert.world)) = [])
  /\ (calls_of (alert.resolve_alert mock.high_cpu) mock_alert.world <> [] ->
      fst (alert.resolve_alert mock.high_cpu mock_alert.world) = Ok tt
      /\ stdout (snd (alert.resolve_alert mock.high_cpu mock_alert.world))
         = ([] ++ [[Lit "Alert '"; Fmt (VStr "HighCPU");
                    Lit "' resolved successfully (HTTP "; Fmt (VInt 200); Lit ")"]])%list
      /\ stderr (snd (alert.resolve_alert mock.high_cpu mock_alert.world)) = []).
Proof.
  exact (alert_post_outcome mock.high_cpu mock_alert.world mock.ok_response eq_refl).
Defined.

(** ** Trailing slashes of the base URL *)

Lemma append_assoc (a b c : string) : ((a ++ b) ++ c = a ++ (b ++ c))%string.
Proof. induction a as [|x a IH]; cbn; [reflexivity|now rewrite IH]. Qed.

Lemma rstrip_one (c : ascii) (s : string) :
  rstrip c (s ++ String c EmptyString) = rstrip c s.
Proof.
  induction s as [|a t IH]; cbn [append rstrip].
  - now rewrite Ascii.eqb_refl.
  - now rewrite IH.
Qed.

Lemma rstrip_slashes (u : string) (n : nat) :
  rstrip "/" (u ++ slashes n) = rstrip "/" u.
Proof.
  revert u. induction n as [|n IH]; intros u; cbn [slashes].
  - f_equal. induction u as [|a u IHu]; cbn; [reflexivity|now rewrite IHu].
  - change (String "/" (slashes n)) with ("/" ++ slashes n).
    rewrite <- append_assoc, IH. apply rstrip_one.
Qed.

Lemma rstrip_no_tail (c : ascii) (s t : string) :
  rstrip c s <> t ++ String c EmptyString.
Proof.
  revert t. induction s as [|a s IH]; intros t; cbn [rstrip].
  - destruct t; discriminate.
  - destruct (rstrip c s) as [|b r] eqn:E.
    + destruct (Ascii.eqb_spec a c) as [->|Hne].
      * destruct t; discriminate.
      * destruct t as [|x t]; cbn [append]; [congruence|].
        intros [= _ H]. destruct t; discriminate.
    + destruct t as [|x t]; cbn [append]; [discriminate|].
      intros [= _ H]. now apply (IH t).
Qed.

(** X19. The base URL may be given with any number of trailing
    slashes: every command of [alert.py] and the login run the same,
    and call the same URLs, as without them.  What is left of the base
    URL never ends in a slash, so the path put after it follows a single
    one. *)
Theorem base_url_trailing_slashes {P : Platform} {R : Rendering}
    (u : string) (n : nat) (w : World)
    (key secret alertname severity : string) (labels annotations : option (list string))
    (minutes : Z) (comment created_by : string) (state only : option string)
    (email password : string) :
  alert.push_alert
    (alert.mk_Namespace (u ++ slashes n) key secret alertname severity labels annotations) w
  = alert.push_alert
      (alert.mk_Namespace u key secret alertname severity labels annotations) w
  /\ alert.resolve_alert
       (alert.mk_Namespace (u ++ slashes n) key secret alertname severity labels annotations) w
     = alert.resolve_alert
         (alert.mk_Namespace u key secret alertname severity labels annotations) w
  /\ alert.silence_alert
       (alert.mk_SilenceNamespace (u ++ slashes n) key secret alertname labels
          minutes comment created_by) w
     = alert.silence_alert
         (alert.mk_SilenceNamespace u key secret alertname labels
            minutes comment created_by) w
  /\ alert.list_alerts (alert.mk_ListNamespace (u ++ slashes n) key secret state only) w
     = alert.list_alerts (alert.mk_ListNamespace u key secret state only) w
  /\ alerting_config._logto_login (u ++ slashes n) email password w
     = alerting_config._logto_login u email password w
  /\ (forall t, rstrip "/" (u ++ slashes n) <> t ++ "/").
Proof.
  unfold alert.push_alert, alert.resolve_alert, alert.silence_alert, alert.list_alerts,
    alerting_config._logto_login.
  cbn [alert.arg_url alert.s_url alert.l_url].
  rewrite !rstrip_slashes.
  repeat split. intros t. apply rstrip_no_tail.
Qed.
(* ================================================================== *)
(** * The login flow: the other ways it ends *)
(* ================================================================== *)

Section LoginEnds.

Context {P : Platform}.

Variable base_url email password : string.

Local Abbreviation login := (alerting_config._logto_login base_url email password).
Local Abbreviation sign_in_calls := (flow.sign_in_calls base_url email password).

(** A run whose PATCH is refused with a status other than 422. *)
Lemma login_refused_run (w : World) (r1 r2 r3 : Response) :
  net w 0%nat = Ok r1 -> net w 1%nat = Ok r2 -> net w 2%nat = Ok r3 ->
  status_code r3 <> 422 -> ok r3 = false ->
  login w
  = (Raise (SystemExit 1),
     complained
       [Lit "Authentication error ("; Fmt (VInt (status_code r3));
        Lit "): "; Fmt (VStr (text r3))]
       (after_calls
          [flow.start_authorization base_url (sessions w) (drawn_verifier w) (drawn_state w);
           flow.begin_sign_in (sessions w);
           flow.submit_credentials email password (sessions w)]
          (flow.started w))).
Proof.
  intros H1 H2 H3 Hs Hok. apply Z.eqb_neq in Hs.
  unfold alerting_config._logto_login.
  run. finish.
  fold (drawn_verifier w). fold (drawn_state w).
  rewrite start_authorization_eq. reflexivity.
Qed.

(** A run that gets its code and is given no provider token for it. *)
Lemma login_no_token_run (w : World) (rd target : value) (r5 rf r6 : Response)
      (k : nat) (code : string) (body6 : dict value) :
  flow.signs_in w rd ->
  flow.resolves_redirect w rd r5 target k ->
  net w k = Ok rf ->
  flow.first_parameter (flow.location rf) "code" code ->
  code <> EmptyString ->
  net w (k + 1)%nat = Ok r6 ->
  content_json r6 = Some (VDict body6) ->
  truthy (match dict_get body6 "access_token" with Some v => v | None => VNone end) = false ->
  login w
  = (Raise (SystemExit 1),
     complained [Lit "Failed to get Logto access token: "; Fmt (VStr (text r6))]
       (after_calls
          (sign_in_calls w
           ++ [flow.fetch (sessions w) rd]
           ++ flow.consent_calls w r5
           ++ [flow.fetch (sessions w) target;
               flow.token_request base_url (VStr code) (drawn_verifier w)])%list
          (flow.started w))).
Proof.
  intros Hsign [H5 Hc] Hf (q & more & Hq & Hcode) Hne H6 Hj6 Hat.
  sign_in_hyps Hsign.
  apply String.eqb_neq in Hne.
  unfold flow.consent_calls. unfold flow.location in *.
  destruct (str_in "consent" (headers_get (headers r5) "Location" "")) eqn:Hcons.
  - destruct Hc as (rc1 & rc2 & bodyc & Hc1 & Hc2 & Hjc & -> & ->).
    pose proof (headers_getitem_consent _ Hcons) as Hget.
    cbn [Nat.add] in H6.
    unfold alerting_config._logto_login. run. finish.
    fold (drawn_verifier w). fold (drawn_state w).
    rewrite start_authorization_eq. reflexivity.
  - destruct Hc as [-> ->].
    cbn [Nat.add] in H6.
    unfold alerting_config._logto_login. run. finish.
    fold (drawn_verifier w). fold (drawn_state w).
    rewrite start_authorization_eq. reflexivity.
Qed.

(** A run that gets the provider's token and is given no backend token
    for it. *)
Lemma login_no_exchange_run (w : World) (rd target : value) (r5 rf r6 r7 : Response)
      (k : nat) (code : string) (body6 body7 : dict value) (access_token : value) :
  flow.signs_in w rd ->
  flow.resolves_redirect w rd r5 target k ->
  net w k = Ok rf ->
  flow.first_parameter (flow.location rf) "code" code ->
  code <> EmptyString ->
  net w (k + 1)%nat = Ok r6 ->
  content_json r6 = Some (VDict body6) ->
  dict_get body6 "access_token" = Some access_token ->
  truthy access_token = true ->
  net w (k + 2)%nat = Ok r7 ->
  content_json r7 = Some (VDict body7) ->
  match dict_get body7 "data" with
  | Some (VDict data) =>
      truthy (match dict_get data "token" with Some v => v | None => VNone end) = false
  | Some _ => False
  | None => True
  end ->
  login w
  = (Raise (SystemExit 1),
     complained [Lit "Failed to exchange token: "; Fmt (VStr (text r7))]
       (after_calls
          (sign_in_calls w
           ++ [flow.fetch (sessions w) rd]
           ++ flow.consent_calls w r5
           ++ [flow.fetch (sessions w) target;
               flow.token_request base_url (VStr code) (drawn_verifier w);
               flow.backend_exchange base_url access_token])%list
          (flow.started w))).
Proof.
  intros Hsign [H5 Hc] Hf (q & more & Hq & Hcode) Hne
         H6 Hj6 Hat Hatt H7 Hj7 Hdata.
  sign_in_hyps Hsign.
  apply String.eqb_neq in Hne.
  unfold flow.consent_calls. unfold flow.location in *.
  destruct (dict_get body7 "data") as [[| | | | | |data]|] eqn:Hd; try contradiction;
    destruct (str_in "consent" (headers_get (headers r5) "Location" "")) eqn:Hcons.
  - destruct Hc as (rc1 & rc2 & bodyc & Hc1 & Hc2 & Hjc & -> & ->).
    pose proof (headers_getitem_consent _ Hcons) as Hget.
    cbn [Nat.add] in H6, H7.
    unfold alerting_config._logto_login. run. finish.
    fold (drawn_verifier w). fold (drawn_state w).
    rewrite start_authorization_eq. reflexivity.
  - destruct Hc as [-> ->].
    cbn [Nat.add] in H6, H7.
    unfold alerting_config._logto_login. run. finish.
    fold (drawn_verifier w). fold (drawn_state w).
    rewrite start_authorization_eq. reflexivity.
  - destruct Hc as (rc1 & rc2 & bodyc & Hc1 & Hc2 & Hjc & -> & ->).
    pose proof (headers_getitem_consent _ Hcons) as Hget.
    cbn [Nat.add] in H6, H7.
    unfold alerting_config._logto_login. run. cbn [dict_get]. run. finish.
    fold (drawn_verifier w). fold (drawn_state w).
    rewrite start_authorization_eq. reflexivity.
  - destruct Hc as [-> ->].
    cbn [Nat.add] in H6, H7.
    unfold alerting_config._logto_login. run. cbn [dict_get]. run. finish.
    fold (drawn_verifier w). fold (drawn_state w).
    rewrite start_authorization_eq. reflexivity.
Qed.

End LoginEnds.
Section LoginEndFacts.

Context {P : Platform}.

Variable base_url email password : string.

Local Abbreviation login := (alerting_config._logto_login base_url email password).
Local Abbreviation sign_in_calls := (flow.sign_in_calls base_url email password).

(** X20. When the provider refuses the credentials with a status of
    400 to 599 other than 422, the login prints
    [Authentication error (status): body] on standard error and exits
    with status 1 after its first three calls; the body is shown as it
    came and is not decoded.  The answers to the two calls before are
    not looked at. *)
Theorem login_provider_error (w : World) (r1 r2 r3 : Response) :
  net w 0%nat = Ok r1 -> net w 1%nat = Ok r2 -> net w 2%nat = Ok r3 ->
  status_code r3 <> 422 -> ok r3 = false ->
  fst (login w) = Raise (SystemExit 1)
  /\ stderr (snd (login w))
     = (stderr w
        ++ [[Lit "Authentication error ("; Fmt (VInt (status_code r3));
             Lit "): "; Fmt (VStr (text r3))]])%list
  /\ calls_of login w
     = [flow.start_authorization base_url (sessions w) (drawn_verifier w) (drawn_state w);
        flow.begin_sign_in (sessions w);
        flow.submit_credentials email password (sessions w)].
Proof.
  intros H1 H2 H3 Hs Hok.
  apply run_report.
  now apply (login_refused_run base_url email password w r1 r2 r3).
Qed.

(** X21. When the token endpoint answers the code with a JSON object
    that has no [access_token] (or a false one), the login prints
    [Failed to get Logto access token: body] on standard error and
    exits with status 1; the token request is its last call, so the
    backend is not called.  The status of the answer is not looked
    at. *)
Theorem login_without_provider_token
    (w : World) (rd target : value) (r5 rf r6 : Response)
    (k : nat) (code : string) (body6 : dict value) :
  flow.signs_in w rd ->
  flow.resolves_redirect w rd r5 target k ->
  net w k = Ok rf ->
  flow.first_parameter (flow.location rf) "code" code ->
  code <> EmptyString ->
  net w (k + 1)%nat = Ok r6 ->
  content_json r6 = Some (VDict body6) ->
  truthy (match dict_get body6 "access_token" with Some v => v | None => VNone end) = false ->
  fst (login w) = Raise (SystemExit 1)
  /\ stderr (snd (login w))
     = (stderr w
        ++ [[Lit "Failed to get Logto access token: "; Fmt (VStr (text r6))]])%list
  /\ calls_of login w
     = (sign_in_calls w
        ++ [flow.fetch (sessions w) rd]
        ++ flow.consent_calls w r5
        ++ [flow.fetch (sessions w) target;
            flow.token_request base_url (VStr code) (drawn_verifier w)])%list.
Proof.
  intros Hsign Hres Hf Hcode Hne H6 Hj6 Hat.
  apply run_report.
  now apply (login_no_token_run base_url email password w rd target r5 rf r6 k code body6).
Qed.

(** X22. When the backend answers the token exchange with a JSON
    object that has no [data], or whose [data] is an object without a
    [token] (or with a false one), the login prints
    [Failed to exchange token: body] on standard error and exits with
    status 1: no token is returned.  The status of the answer is not
    looked at. *)
Theorem login_without_backend_token
    (w : World) (rd target : value) (r5 rf r6 r7 : Response)
    (k : nat) (code : string) (body6 body7 : dict value) (access_token : value) :
  flow.signs_in w rd ->
  flow.resolves_redirect w rd r5 target k ->
  net w k = Ok rf ->
  flow.first_parameter (flow.location rf) "code" code ->
  code <> EmptyString ->
  net w (k + 1)%nat = Ok r6 ->
  content_json r6 = Some (VDict body6) ->
  dict_get body6 "access_token" = Some access_token ->
  truthy access_token = true ->
  net w (k + 2)%nat = Ok r7 ->
  content_json r7 = Some (VDict body7) ->
  match dict_get body7 "data" with
  | Some (VDict data) =>
      truthy (match dict_get data "token" with Some v => v | None => VNone end) = false
  | Some _ => False
  | None => True
  end ->
  fst (login w) = Raise (SystemExit 1)
  /\ stderr (snd (login w))
     = (stderr w ++ [[Lit "Failed to exchange token: "; Fmt (VStr (text r7))]])%list
  /\ calls_of login w
     = (sign_in_calls w
        ++ [flow.fetch (sessions w) rd]
        ++ flow.consent_calls w r5
        ++ [flow.fetch (sessions w) target;
            flow.token_request base_url (VStr code) (drawn_verifier w);
            flow.backend_exchange base_url access_token])%list.
Proof.
  intros Hsign Hres Hf Hcode Hne H6 Hj6 Hat Hatt H7 Hj7 Hdata.
  apply run_report.
  now apply (login_no_exchange_run base_url email password w rd target r5 rf r6 r7 k code
               body6 body7 access_token).
Qed.

End LoginEndFacts.

Section LoginEndRuns.

Import mock_login mock_refusals.

Local Abbreviation run_login :=
  (alerting_config._logto_login (P := platform) base_url email password).

(** The provider answers the PATCH with [503]. *)
Lemma login_provider_error_witness :
  fst (run_login world_unavailable) = Raise (SystemExit 1)
  /\ stderr (snd (run_login world_unavailable))
     = ([] ++ [[Lit "Authentication error ("; Fmt (VInt 503);
                Lit "): "; Fmt (VStr "Service Unavailable")]])%list
  /\ calls_of run_login world_unavailable
     = [flow.start_authorization base_url 0%nat
          (drawn_verifier world_unavailable) (drawn_state world_unavailable);
        flow.begin_sign_in 0%nat;
        flow.submit_credentials email password 0%nat].
Proof.
  apply (login_provider_error (P := platform) base_url email password
           world_unavailable r_auth r_put r_unavailable); try reflexivity.
  discriminate.
Defined.

Lemma world_invalid_grant_signs_in : flow.signs_in world_invalid_grant (VStr redirect).
Proof.
  exists r_auth, r_put, r_patch, r_submit, [("redirectTo", VStr redirect)].
  repeat split; try reflexivity. discriminate.
Defined.

Lemma world_invalid_grant_resolves :
  flow.resolves_redirect world_invalid_grant (VStr redirect) r_callback (VStr redirect) 5.
Proof.
  split; [reflexivity|].
  change (str_in "consent" (flow.location r_callback)) with false. cbv iota.
  split; reflexivity.
Defined.

(** The token endpoint answers [400] with [invalid_grant]. *)
Lemma login_without_provider_token_witness :
  fst (run_login world_invalid_grant) = Raise (SystemExit 1)
  /\ stderr (snd (run_login world_invalid_grant))
     = ([] ++ [[Lit "Failed to get Logto access token: ";
                Fmt (VStr "{error: invalid_grant}")]])%list
  /\ calls_of run_login world_invalid_grant
     = (flow.sign_in_calls base_url email password world_invalid_grant
        ++ [flow.fetch 0%nat (VStr redirect)]
        ++ flow.consent_calls world_invalid_grant r_callback
        ++ [flow.fetch 0%nat (VStr redirect);
            flow.token_request base_url (VStr "AUTHCODE")
              (drawn_verifier world_invalid_grant)])%list.
Proof.
  apply (login_without_provider_token (P := platform) base_url email password
           world_invalid_grant (VStr redirect) (VStr redirect) r_callback r_callback
           r_invalid_grant 5 "AUTHCODE" [("error", VStr "invalid_grant")]).
  - exact world_invalid_grant_signs_in.
  - exact world_invalid_grant_resolves.
  - reflexivity.
  - exists "code=AUTHCODE&state=xyz&iss=https%3A%2F%2Fqa.id.nethesis.it%2Foidc", [].
    split; reflexivity.
  - discriminate.
  - reflexivity.
  - reflexivity.
  - reflexivity.
Defined.

Lemma world_not_exchanged_signs_in : flow.signs_in world_not_exchanged (VStr redirect).
Proof.
  exists r_auth, r_put, r_patch, r_submit, [("redirectTo", VStr redirect)].
  repeat split; try reflexivity. discriminate.
Defined.

Lemma world_not_exchanged_resolves :
  flow.resolves_redirect world_not_exchanged (VStr redirect) r_callback (VStr redirect) 5.
Proof.
  split; [reflexivity|].
  change (str_in "consent" (flow.location r_callback)) with false. cbv iota.
  split; reflexivity.
Defined.

(** The backend answers the exchange with [401] and no [data]. *)
Lemma login_without_backend_token_witness :
  fst (run_login world_not_exchanged) = Raise (SystemExit 1)
  /\ stderr (snd (run_login world_not_exchanged))
     = ([] ++ [[Lit "Failed to exchange token: ";
                Fmt (VStr "{code: 401, message: invalid token}")]])%list
  /\ calls_of run_login world_not_exchanged
     = (flow.sign_in_calls base_url email password world_not_exchanged
        ++ [flow.fetch 0%nat (VStr redirect)]
        ++ flow.consent_calls world_not_exchanged r_callback
        ++ [flow.fetch 0%nat (VStr redirect);
            flow.token_request base_url (VStr "AUTHCODE")
              (drawn_verifier world_not_exchanged);
            flow.backend_exchange base_url (VStr "logto-access")])%list.
Proof.
  apply (login_without_backend_token (P := platform) base_url email password
           world_not_exchanged (VStr redirect) (VStr redirect) r_callback r_callback
           r_token r_not_exchanged 5 "AUTHCODE"
           [("access_token", VStr "logto-access"); ("token_type", VStr "Bearer")]
           [("code", VInt 401); ("message", VStr "invalid token")]
           (VStr "logto-access")).
  - exact world_not_exchanged_signs_in.
  - exact world_not_exchanged_resolves.
  - reflexivity.
  - exists "code=AUTHCODE&state=xyz&iss=https%3A%2F%2Fqa.id.nethesis.it%2Foidc", [].
    split; reflexivity.
  - discriminate.
  - reflexivity.
  - reflexivity.
  - reflexivity.
  - reflexivity.
  - reflexivity.
  - reflexivity.
  - exact I.
Defined.

End LoginEndRuns.
(* ================================================================== *)
(** * Transport failures *)
(* ================================================================== *)

Section PropagatesRules.

Lemma Propagates_silent {A} (m : M A) :
  (forall w, sent (snd (m w)) = sent w /\ forall k, net (snd (m w)) k = net w k) ->
  Propagates m.
Proof.
  intros H w. destruct (H w) as [Hs Hn]. exists [].
  split; [now rewrite app_nil_r|]. split; [exact Hn|].
  cbn [List.length]. intros i e Hi. lia.
Qed.

Lemma Propagates_Response_json r : Propagates (Response_json r).
Proof.
  unfold Response_json.
  destruct (content_json r); apply Propagates_silent; intros w; split; reflexivity.
Qed.

Lemma Propagates_http rq : Propagates (http rq).
Proof.
  intros w. exists [rq]. split; [reflexivity|]. split; [reflexivity|].
  cbn [List.length]. intros i e Hi Hnet.
  assert (i = 0%nat) as -> by lia.
  split; [reflexivity|]. exact Hnet.
Qed.

Lemma Propagates_bind {A B} (m : M A) (k : A -> M B) :
  Propagates m -> (forall a, Propagates (k a)) -> Propagates (bind m k).
Proof.
  intros Hm Hk w. unfold bind.
  destruct (Hm w) as (new1 & E1 & N1 & F1).
  destruct (m w) as [[a|e] w1]; cbn [fst snd] in *.
  - destruct (Hk a w1) as (new2 & E2 & N2 & F2).
    exists (new1 ++ new2)%list. split; [|split].
    + now rewrite E2, E1, app_assoc.
    + intros j. rewrite N2, N1, length_app. f_equal. lia.
    + intros i e Hi Hnet. rewrite length_app in *.
      destruct (Nat.lt_ge_cases i (List.length new1)) as [Hlt|Hge].
      * destruct (F1 i e Hlt Hnet) as [_ Habs]. discriminate.
      * destruct (F2 (i - List.length new1)%nat e) as [Hlast Hout]; [lia| |].
        -- rewrite N1. rewrite <- Hnet. f_equal. lia.
        -- split; [lia|exact Hout].
  - exists new1. split; [exact E1|]. split; [exact N1|].
    intros i e0 Hi Hnet. destruct (F1 i e0 Hi Hnet) as [Hlast [= ->]]. now split.
Qed.

Lemma Propagates_when c (body : M unit) : Propagates body -> Propagates (when c body).
Proof.
  intros H. destruct c; [exact H|].
  apply Propagates_silent. intros w. split; reflexivity.
Qed.

End PropagatesRules.

(** Break a [Propagates] goal down along the structure of the program. *)
Ltac propagates :=
  repeat first
    [ apply Propagates_bind; [|intros]
    | apply Propagates_when
    | apply Propagates_Response_json
    | apply Propagates_http
    | solve [apply Propagates_silent; intros ?; split; reflexivity]
    | match goal with
      | |- Propagates (if ?c then _ else _) => destruct c
      | |- Propagates (match ?x with _ => _ end) => destruct x
      end ].

Lemma Propagates_parse_kv_loop (pairs : list string) (result : dict string) :
  Propagates (alert.parse_kv_loop pairs result).
Proof.
  revert result. induction pairs as [|kv rest IH]; intros result;
    cbn [alert.parse_kv_loop].
  - apply Propagates_silent. intros w. split; reflexivity.
  - apply Propagates_bind; [propagates|]. intros _.
    destruct (split1 "=" kv) as [|k [|v [|x t]]];
      try (apply Propagates_silent; intros w; split; reflexivity).
    apply IH.
Qed.

Lemma Propagates_parse_kv (pairs : option (list string)) :
  Propagates (alert.parse_kv pairs).
Proof. apply Propagates_parse_kv_loop. Qed.

Lemma Propagates_login {P : Platform} (base_url email password : string) :
  Propagates (alerting_config._logto_login base_url email password).
Proof.
  unfold alerting_config._logto_login,
    Session_get, Session_put, Session_patch, Session_post, requests_post.
  propagates.
Qed.

Lemma Propagates_failure {A} (m : M A) (w : World) :
  Propagates m -> failure_ends_run m w.
Proof.
  intros H. destruct (H w) as (new & E & _ & F).
  unfold failure_ends_run. rewrite (calls_of_app m w new E). exact F.
Qed.

(** X23. A transport failure is never caught and nothing is tried
    again.  In every run of the login, of [get], [set] and [alerts], and
    of [push], [resolve], [silence] and [list], when the answer to a
    call is an exception of the HTTP library (connection error,
    timeout), that call is the last of the run and the run ends with
    that exception. *)
Theorem transport_failure_ends_run {P : Platform} {R : Rendering} {F : Files}
    (command : alerting_config.Namespace) (args : alert.Namespace)
    (silence : alert.SilenceNamespace) (listing : alert.ListNamespace) (w : World) :
  failure_ends_run
    (alerting_config._logto_login (alerting_config.arg_url command)
       (alerting_config.arg_email command) (alerting_config.arg_password command)) w
  /\ failure_ends_run (alerting_config.cmd_get command) w
  /\ failure_ends_run (alerting_config.cmd_set command) w
  /\ failure_ends_run (alerting_config.cmd_alerts command) w
  /\ failure_ends_run (alert.push_alert args) w
  /\ failure_ends_run (alert.resolve_alert args) w
  /\ failure_ends_run (alert.silence_alert silence) w
  /\ failure_ends_run (alert.list_alerts listing) w.
Proof.
  repeat apply conj; apply Propagates_failure;
    unfold alerting_config.cmd_get, alerting_config.cmd_set, alerting_config.cmd_alerts,
      alert.push_alert, alert.resolve_alert, alert.silence_alert, alert.list_alerts;
    try apply Propagates_login;
    repeat first
      [ apply Propagates_login
      | apply Propagates_parse_kv
      | apply Propagates_bind; [|intros]
      | apply Propagates_when
      | apply Propagates_Response_json
      | apply Propagates_http
      | solve [apply Propagates_silent; intros ?; split; reflexivity]
      | match goal with
        | |- Propagates (if ?c then _ else _) => destruct c
        | |- Propagates (match ?x with _ => _ end) => destruct x
        end ].
Qed.
Example login_cut_off :
  fst (alerting_config._logto_login (P := mock_login.platform)
         mock_login.base_url mock_login.email mock_login.password
         mock_refusals.world_cut_off)
  = Raise (RequestException "connection reset")
  /\ List.length
       (calls_of (alerting_config._logto_login (P := mock_login.platform)
                    mock_login.base_url mock_login.email mock_login.password)
                 mock_refusals.world_cut_off)
     = 4%nat.
Proof. vm_compute. split; reflexivity. Qed.

(* ================================================================== *)
(** * How many calls a run makes *)
(* ================================================================== *)

Section WithinRules.

Lemma Silent_bind {A B} (m : M A) (k : A -> M B) :
  Silent m -> (forall a, Silent (k a)) -> Silent (bind m k).
Proof.
  intros Hm Hk w. unfold bind. specialize (Hm w).
  destruct (m w) as [[a|e] w1]; cbn [snd] in *; [|exact Hm].
  now rewrite Hk.
Qed.

Lemma Silent_when c (body : M unit) : Silent body -> Silent (when c body).
Proof. intros H. destruct c; [exact H|]. now intros w. Qed.

Lemma Silent_Response_json r : Silent (Response_json r).
Proof. unfold Response_json. now destruct (content_json r); intros w. Qed.

Lemma Silent_parse_kv pairs : Silent (alert.parse_kv pairs).
Proof.
  intros w. destruct (well_formed_pairs pairs) eqn:H.
  - now rewrite (parse_kv_ok _ _ H).
  - destruct (parse_kv_bad _ w H) as (w' & E & Hs). now rewrite E.
Qed.

Lemma Within_silent {A} (n : nat) (m : M A) : Silent m -> Within n m.
Proof.
  intros H w. exists []. split; [now rewrite H, app_nil_r|]. cbn. lia.
Qed.

Lemma Within_bind {A B} (a b : nat) (m : M A) (k : A -> M B) :
  Within a m -> (forall x, Within b (k x)) -> Within (a + b) (bind m k).
Proof.
  intros Hm Hk w. unfold bind.
  destruct (Hm w) as (new1 & E1 & L1).
  destruct (m w) as [[x|e] w1]; cbn [snd] in *.
  - destruct (Hk x w1) as (new2 & E2 & L2).
    exists (new1 ++ new2)%list. split.
    + now rewrite E2, E1, app_assoc.
    + rewrite length_app. lia.
  - exists new1. split; [exact E1|lia].
Qed.

Lemma Within_bind_silent {A B} (n : nat) (m : M A) (k : A -> M B) :
  Silent m -> (forall x, Within n (k x)) -> Within n (bind m k).
Proof. intros Hm Hk. apply (Within_bind 0 n); [now apply Within_silent|exact Hk]. Qed.

Lemma Within_bind_http {B} (n : nat) (rq : Request) (k : Response -> M B) :
  (forall r, Within n (k r)) -> Within (S n) (bind (http rq) k).
Proof.
  intros Hk. apply (Within_bind 1 n); [|exact Hk].
  intros w. exists [rq]. split; [reflexivity|]. cbn. lia.
Qed.

Lemma Within_http (n : nat) (rq : Request) : Within (S n) (http rq).
Proof. intros w. exists [rq]. split; [reflexivity|]. cbn. lia. Qed.

Lemma Within_bind_two {A B} (n : nat) (m : M A) (k : A -> M B) :
  Within 2 m -> (forall x, Within n (k x)) -> Within (S (S n)) (bind m k).
Proof. apply (Within_bind 2 n). Qed.

Lemma Within_calls_of {A} (n : nat) (m : M A) (w : World) :
  Within n m -> (List.length (calls_of m w) <= n)%nat.
Proof.
  intros H. destruct (H w) as (new & E & L). now rewrite (calls_of_app m w new E).
Qed.

End WithinRules.

(** Show that a step makes no call. *)
Ltac silent :=
  repeat first
    [ apply Silent_bind; [|intros]
    | apply Silent_when
    | apply Silent_Response_json
    | apply Silent_parse_kv
    | solve [intros ?; reflexivity]
    | match goal with
      | |- Silent (if ?c then _ else _) => destruct c
      | |- Silent (match ?x with _ => _ end) => destruct x
      end ].

(** Count the calls along the structure of the program: a step makes
    none, or is a call, or makes at most two. *)
Ltac within :=
  lazymatch goal with
  | |- Within _ (bind _ _) =>
      first
        [ apply Within_bind_silent; [solve [silent]|intros; within]
        | apply Within_bind_http; intros; within
        | apply Within_bind_two; [solve [within]|intros; within] ]
  | |- Within _ (if ?c then _ else _) => destruct c; within
  | |- Within _ (match ?x with _ => _ end) => destruct x; within
  | |- _ => first [ apply Within_silent; solve [silent] | apply Within_http ]
  end.

Lemma Within_login {P : Platform} (base_url email password : string) :
  Within 10 (alerting_config._logto_login base_url email password).
Proof.
  unfold alerting_config._logto_login,
    Session_get, Session_put, Session_patch, Session_post, requests_post.
  within.
Qed.

(** X24. No run goes on calling: whatever the answers, the login makes
    at least one call and at most ten (eight and the two of the consent
    screen), [get], [set] and [alerts] at most one more, and each
    command of [alert.py] at most one. *)
Theorem calls_are_bounded {P : Platform} {R : Rendering} {F : Files}
    (command : alerting_config.Namespace) (args : alert.Namespace)
    (silence : alert.SilenceNamespace) (listing : alert.ListNamespace) (w : World) :
  let login :=
    alerting_config._logto_login (alerting_config.arg_url command)
      (alerting_config.arg_email command) (alerting_config.arg_password command) in
  (1 <= List.length (calls_of login w) <= 10)%nat
  /\ (List.length (calls_of (alerting_config.cmd_get command) w) <= 11)%nat
  /\ (List.length (calls_of (alerting_config.cmd_set command) w) <= 11)%nat
  /\ (List.length (calls_of (alerting_config.cmd_alerts command) w) <= 11)%nat
  /\ (List.length (calls_of (alert.push_alert args) w) <= 1)%nat
  /\ (List.length (calls_of (alert.resolve_alert args) w) <= 1)%nat
  /\ (List.length (calls_of (alert.silence_alert silence) w) <= 1)%nat
  /\ (List.length (calls_of (alert.list_alerts listing) w) = 1)%nat.
Proof.
  intros login. subst login.
  split; [split|].
  - destruct (Logged_calls_of _ _ _ _
                (login_starts (alerting_config.arg_url command)
                   (alerting_config.arg_email command)
                   (alerting_config.arg_password command) w)) as (rest & E & _).
    rewrite E. cbn. lia.
  - apply Within_calls_of, Within_login.
  - repeat apply conj;
      try (apply Within_calls_of;
           unfold alerting_config.cmd_get, alerting_config.cmd_set,
             alerting_config.cmd_alerts;
           apply (Within_bind 10 1); [apply Within_login|intros jwt];
           unfold requests_get, requests_post; within);
      try (apply Within_calls_of;
           unfold alert.push_alert, alert.resolve_alert, alert.silence_alert,
             requests_post; within).
    now rewrite list_alerts_calls.
Qed.
(* ================================================================== *)
(** * What the login prints and what it returns *)
(* ================================================================== *)

Section ReportsRules.

Lemma Reports_quiet {A} (m : M A) :
  (forall w, stdout (snd (m w)) = stdout w /\ stderr (snd (m w)) = stderr w) ->
  Reports m.
Proof. intros H w. destruct (H w) as [Ho He]. split; [exact Ho|now left]. Qed.

Lemma Reports_Response_json r : Reports (Response_json r).
Proof.
  unfold Response_json.
  destruct (content_json r); apply Reports_quiet; intros w; split; reflexivity.
Qed.

(** The one way the scripts report a failure. *)
Lemma Reports_exit {A} (l : line) : Reports (print_stderr l ;; (sys_exit 1 : M A)).
Proof.
  intros w. split; [reflexivity|]. right. exists l. split; reflexivity.
Qed.

Lemma Reports_bind {A B} (m : M A) (k : A -> M B) :
  Reports m -> (forall a, Reports (k a)) -> Reports (bind m k).
Proof.
  intros Hm Hk w. unfold bind.
  destruct (Hm w) as (Ho & He).
  destruct (m w) as [[a|e] w1]; cbn [fst snd] in *.
  - destruct (Hk a w1) as (Ho2 & He2).
    split; [now rewrite Ho2|].
    destruct He as [He|(l & _ & Habs)]; [|discriminate].
    rewrite <- He. exact He2.
  - split; [exact Ho|].
    destruct He as [He|(l & He & [= ->])]; [now left|].
    right. exists l. now split.
Qed.

Lemma Reports_when c (body : M unit) : Reports body -> Reports (when c body).
Proof.
  intros H. destruct c; [exact H|].
  apply Reports_quiet. intros w. split; reflexivity.
Qed.

Lemma Returns_bind {A B} (Q : B -> Prop) (m : M A) (k : A -> M B) :
  (forall a, Returns Q (k a)) -> Returns Q (bind m k).
Proof.
  intros Hk w b. unfold bind.
  destruct (m w) as [[a|e] w1]; cbn [fst]; [apply Hk|discriminate].
Qed.

(** A value returned behind a check that ends the run. *)
Lemma Returns_checked {A} (Q : A -> Prop) (c : bool) (l : line) (a : A) :
  (c = true -> Q a) ->
  Returns Q (when (negb c) (print_stderr l ;; sys_exit 1) ;; ret a).
Proof.
  intros H w b. destruct c; cbn; [|discriminate].
  intros [= <-]. now apply H.
Qed.

End ReportsRules.

Ltac reports :=
  repeat first
    [ apply Reports_exit
    | apply Reports_bind; [|intros]
    | apply Reports_when
    | apply Reports_Response_json
    | solve [apply Reports_quiet; intros ?; split; reflexivity]
    | match goal with
      | |- Reports (if ?c then _ else _) => destruct c
      | |- Reports (match ?x with _ => _ end) => destruct x
      end ].

Section LoginOutput.

Context {P : Platform}.

Variable base_url email password : string.

Local Abbreviation login := (alerting_config._logto_login base_url email password).

Lemma Reports_login : Reports login.
Proof.
  unfold alerting_config._logto_login,
    Session_get, Session_put, Session_patch, Session_post, requests_post.
  reports.
Qed.

Lemma Returns_login : Returns (fun token => truthy token = true) login.
Proof.
  unfold alerting_config._logto_login.
  repeat first [ apply Returns_checked; intros Ht; exact Ht
               | apply Returns_bind; intros ].
Qed.

(** X25. The login keeps quiet and never returns an empty token.  It
    prints nothing on standard output, the token included.  On standard
    error it prints nothing, or one line and then exits with status 1.
    When it returns, what it returns is a true value (not [None], not an
    empty string), so the [Authorization] header the commands build from
    it never carries an empty bearer. *)
Theorem login_output (w : World) :
  stdout (snd (login w)) = stdout w
  /\ (stderr (snd (login w)) = stderr w
      \/ exists l, stderr (snd (login w)) = (stderr w ++ [l])%list
                   /\ fst (login w) = Raise (SystemExit 1))
  /\ (forall token, fst (login w) = Ok token -> truthy token = true).
Proof.
  destruct (Reports_login w) as [Ho He].
  split; [exact Ho|]. split; [exact He|].
  intros token. apply Returns_login.
Qed.

Lemma drawn_state_nopad (w : World) :
  drawn_state w
  = decode (base64url_nopad (map (fun k => rng w (64 + k)%nat) (seq 0 16))).
Proof. unfold drawn_state. now rewrite rstrip_urlsafe_b64encode. Qed.

(** X26. The [state] of a login attempt: the first call sends, as
    [state], what [secrets.token_urlsafe(16)] returned, which is the
    unpadded base64url of the sixteen bytes of the random source that
    follow the sixty-four of the verifier: 22 URL-safe characters, from
    bytes that the verifier did not use.  The same call names the
    client, the redirect URI under the base URL and the response type
    [code]. *)
Theorem login_state_parameter (w : World) :
  exists first rest params,
    calls_of login w = first :: rest
    /\ kwargs_params (kwargs first) = Some params
    /\ dict_get params "state" = Some (drawn_state w)
    /\ fst (token_urlsafe 16 (drawn 64 w)) = Ok (drawn_state w)
    /\ drawn_state w
       = decode (base64url_nopad (map (fun k => rng w (64 + k)%nat) (seq 0 16)))
    /\ String.length (drawn_state w) = 22%nat
    /\ str_forall urlsafe_char (drawn_state w) = true
    /\ dict_get params "client_id" = Some alerting_config._LOGTO_APP_ID
    /\ dict_get params "redirect_uri" = Some (rstrip "/" base_url ++ "/login-redirect")
    /\ dict_get params "response_type" = Some "code".
Proof.
  destruct (Logged_calls_of _ _ _ _ (login_starts base_url email password w))
    as (rest & E & _).
  do 3 eexists. split; [exact E|].
  split; [reflexivity|]. split; [reflexivity|]. split; [reflexivity|].
  split; [apply drawn_state_nopad|]. split; [|split].
  - rewrite drawn_state_nopad, decode_length, base64url_nopad_length.
    rewrite length_map, length_seq. reflexivity.
  - rewrite drawn_state_nopad. apply base64url_nopad_urlsafe.
  - repeat split.
Qed.

End LoginOutput.
(* ================================================================== *)
(** * [parse_kv]: nothing to parse and pairs that cannot be parsed *)
(* ================================================================== *)

(** X27. The two ends of [parse_kv].  A flag that was not given, or
    given without pairs, parses to the empty dict.  When some pair has
    no ['='], the first such pair is the one reported: the run prints
    [Error: invalid key=value pair: ] and that pair on standard error
    and exits with status 1, whatever comes after it; nothing else is
    printed and no call is made. *)
Theorem parse_kv_first_malformed (good rest : list string) (bad : string) (w : World) :
  forallb (str_in "=") good = true ->
  str_in "=" bad = false ->
  alert.parse_kv None w = (Ok [], w)
  /\ alert.parse_kv (Some []) w = (Ok [], w)
  /\ alert.parse_kv (Some (good ++ bad :: rest)%list) w
     = (Raise (SystemExit 1),
        complained [Lit "Error: invalid key=value pair: "; Fmt (VStr bad)] w).
Proof.
  intros Hgood Hbad. split; [reflexivity|]. split; [reflexivity|].
  unfold alert.parse_kv. generalize (@nil (string * string)).
  induction good as [|kv good IH]; intros result; cbn [app alert.parse_kv_loop].
  - unfold bind at 1. rewrite Hbad. reflexivity.
  - cbn [forallb] in Hgood. apply andb_prop in Hgood as [Hkv Hgood].
    unfold bind at 1. rewrite Hkv. cbn [negb when ret].
    destruct (split1_two "=" kv Hkv) as (k & v & ->).
    apply IH, Hgood.
Qed.

(** [--labels host=server-01 rack12 zone]: [rack12] is reported. *)
Lemma parse_kv_first_malformed_witness :
  alert.parse_kv None mock_alert.world = (Ok [], mock_alert.world)
  /\ alert.parse_kv (Some []) mock_alert.world = (Ok [], mock_alert.world)
  /\ alert.parse_kv (Some (["host=server-01"] ++ "rack12" :: ["zone"])%list) mock_alert.world
     = (Raise (SystemExit 1),
        complained [Lit "Error: invalid key=value pair: "; Fmt (VStr "rack12")]
          mock_alert.world).
Proof.
  apply (parse_kv_first_malformed ["host=server-01"] ["zone"] "rack12" mock_alert.world);
    reflexivity.
Defined.

(* ================================================================== *)
(** * The session of a login *)
(* ================================================================== *)

Lemma Phased_bind_on {A B} (s : Session) (n : nat) (m : M A) (k : A -> M B) :
  Calls (fun rq => via rq = Some s) m ->
  (forall a, Phased s n (k a)) ->
  Phased s n (bind m k).
Proof.
  intros Hm Hk w. unfold bind.
  destruct (Hm w) as (new1 & E1 & F1).
  destruct (m w) as [[a|e] w1]; cbn [snd] in *.
  - destruct (Hk a w1) as (on2 & out2 & E2 & Fon & Fout & L).
    exists (new1 ++ on2)%list, out2. split; [|split; [|split]].
    + now rewrite E2, E1, <- !app_assoc.
    + now apply Forall_app.
    + exact Fout.
    + exact L.
  - exists new1, []. split; [|split; [|split]].
    + now rewrite app_nil_r.
    + exact F1.
    + constructor.
    + cbn. lia.
Qed.

Lemma Phased_outside {A} (s : Session) (n : nat) (m : M A) :
  Calls (fun rq => via rq = None /\ method rq = POST) m ->
  Within n m ->
  Phased s n m.
Proof.
  intros Hc Hw w.
  destruct (Hc w) as (new & E & F). destruct (Hw w) as (new' & E' & L).
  rewrite E in E'. apply app_inv_head in E'. subst new'.
  exists [], new. repeat split; auto.
Qed.

(** X28. Every call of a login, however the run ends, is made either on
    the one session object the run created at its start or, outside any
    session, as a POST (the two token exchanges); and the calls on the
    session come first: once a call was made outside the session, none
    is made on it any more. *)
Theorem login_session_affinity {P : Platform} (base_url email password : string)
    (w : World) :
  exists on_session outside,
    calls_of (alerting_config._logto_login base_url email password) w
    = (on_session ++ outside)%list
    /\ Forall (fun rq => via rq = Some (sessions w)) on_session
    /\ Forall (fun rq => via rq = None /\ method rq = POST) outside
    /\ (List.length outside <= 2)%nat.
Proof.
  unfold alerting_config._logto_login.
  match goal with
  | |- context [bind requests_Session ?k] => set (K := k)
  end.
  assert (HK : Phased (sessions w) 2 (K (sessions w))).
  { subst K. cbv beta.
    repeat (apply Phased_bind_on;
            [ solve [ unfold Session_get, Session_put, Session_patch, Session_post;
                      calls; reflexivity ]
            | intros ]).
    apply Phased_outside.
    - unfold requests_post. calls; split; reflexivity.
    - unfold requests_post. within. }
  destruct (HK (session_made w)) as (on_session & outside & E & Fon & Fout & L).
  exists on_session, outside. split; [|auto].
  apply calls_of_app. exact E.
Qed.
